(** * Stock manager: storage layer and barcode lookup

  A shallow embedding of the inventory tracker's data layer (the
  [Storage] module backed by [localStorage]) and of the lookup routing
  of the application controller ([handleBarcodeDetected]).

  The program is JavaScript, so the embedding starts with the fragment
  of the language the storage code relies on: strings with [trim],
  [toLowerCase] and [includes]; numbers with [parseInt], [parseFloat]
  and [Number::toString]; dynamically typed values with property
  access, truthiness and the coercions behind [<], [-] and template
  literals; and [JSON.stringify] / [JSON.parse].

  Modelling conventions.
  - A string is a sequence of code units in the range 0..255 (Rocq's
    [string]); on that range [toLowerCase] and [trim] are exact.
  - A number is [NaN], an infinity, an integer or a non-integer decimal
    [m / 10^k]; arithmetic is exact and [-0] is identified with [0].
    The program's numbers are IEEE doubles: the two agree on the safe
    integers and, for reading and printing, on the decimals of at most
    15 significant digits.  [Exact] delimits that range, and what is
    proved about quantities, prices and decoded numbers is stated on
    it.
  - [JSON.parse] is embedded on the texts whose strings stay within the
    code units 0..255 ([JSON.supported]), and an object keeps its
    properties in the order of the text, which is the program's order
    for keys that are no array indices.
  - A promise is modelled by the outcome it settles to, and a chain of
    [then] callbacks by sequential composition in a state monad over
    the content of the storage slot.
  - The clock ([new Date().toISOString()]) and the identifier generator
    are inputs of the operations that read them.
  - The repository has a second [Storage] module that keeps the same
    collection in a remote document; its operations have the same
    bodies over its own [getAllItems] and [saveAllItems].  The
    development follows the [localStorage] module first; the remote
    one is embedded in [Gist], with the network as a parameter.
  - The statistics, the item form, the sale dialog, the manual lookup
    and the two scanner modules follow in [Stats], [UI], [Forms],
    [Scanner] and [SnapshotScanner]. *)

From Stdlib Require Import ZArith NArith List String Ascii Bool Lia.
Import ListNotations.

Local Open Scope string_scope.
Local Open Scope list_scope.
Local Open Scope Z_scope.

Infix "+++" := String.append (right associativity, at level 60).

(* ================================================================== *)
(** * Strings *)
(* ================================================================== *)

Module Str.

Definition code (c : ascii) : N := N_of_ascii c.

(** White space and line terminators removed by [String.prototype.trim]
    (TAB, LF, VT, FF, CR, SP, NBSP on the modelled range). *)
Definition isWhiteSpace (c : ascii) : bool :=
  let n := code c in
  ((9 <=? n) && (n <=? 13) || (n =? 32) || (n =? 160))%N.

Fixpoint trimStart (s : string) : string :=
  match s with
  | EmptyString => EmptyString
  | String c r => if isWhiteSpace c then trimStart r else s
  end.

Fixpoint trimEnd (s : string) : string :=
  match s with
  | EmptyString => EmptyString
  | String c r =>
      match trimEnd r with
      | EmptyString => if isWhiteSpace c then EmptyString else String c EmptyString
      | r' => String c r'
      end
  end.

Definition trim (s : string) : string := trimEnd (trimStart s).

(** Case mapping of one code unit: A-Z and the accented capitals
    U+00C0..U+00DE (except the multiplication sign U+00D7). *)
Definition lowerChar (c : ascii) : ascii :=
  let n := code c in
  if ((65 <=? n) && (n <=? 90) ||
      (192 <=? n) && (n <=? 222) && negb (n =? 215))%N
  then ascii_of_N (n + 32) else c.

Fixpoint toLowerCase (s : string) : string :=
  match s with
  | EmptyString => EmptyString
  | String c r => String (lowerChar c) (toLowerCase r)
  end.

(** [includes s t]: [t] occurs in [s] as a contiguous substring. *)
Fixpoint includes (s t : string) : bool :=
  String.prefix t s ||
  match s with
  | EmptyString => false
  | String _ r => includes r t
  end.

Definition isEmpty (s : string) : bool :=
  match s with EmptyString => true | _ => false end.

Definition isDigit (c : ascii) : bool :=
  let n := code c in ((48 <=? n) && (n <=? 57))%N.

Definition digitVal (c : ascii) : N := (code c - 48)%N.

Definition digitChar (d : N) : ascii := ascii_of_N (48 + d).

(** Value of a hexadecimal digit, if it is one. *)
Definition hexVal (c : ascii) : option N :=
  let n := code c in
  if ((48 <=? n) && (n <=? 57))%N then Some (n - 48)%N
  else if ((97 <=? n) && (n <=? 102))%N then Some (n - 87)%N
  else if ((65 <=? n) && (n <=? 70))%N then Some (n - 55)%N
  else None.

Definition hexChar (d : N) : ascii :=
  if (d <? 10)%N then ascii_of_N (48 + d) else ascii_of_N (87 + d).

(** Exactly [k] decimal digits of [n], most significant first. *)
Fixpoint printFixed (k : nat) (n : N) : string :=
  match k with
  | O => EmptyString
  | S k' => printFixed k' (n / 10) +++ String (digitChar (n mod 10)) EmptyString
  end.

Fixpoint ndigitsFuel (fuel : nat) (n : N) : nat :=
  match fuel with
  | O => 1%nat
  | S f => if (n <? 10)%N then 1%nat else S (ndigitsFuel f (n / 10))
  end.

(** Number of decimal digits of [n] (1 for 0). *)
Definition ndigits (n : N) : nat := ndigitsFuel (N.to_nat (N.size n)) n.

Definition printNat (n : N) : string := printFixed (ndigits n) n.

(** Longest run of decimal digits at the head of [s]: its value with
    accumulator [acc], the number of digits read, and what follows. *)
Fixpoint scanDigits (acc : N) (cnt : nat) (s : string) : N * nat * string :=
  match s with
  | String c r =>
      if isDigit c then scanDigits (acc * 10 + digitVal c) (S cnt) r
      else (acc, cnt, s)
  | EmptyString => (acc, cnt, s)
  end.

(** The same in radix [2], [8] or [16]. *)
Fixpoint scanRadix (radix : N) (acc : N) (cnt : nat) (s : string)
  : N * nat * string :=
  match s with
  | String c r =>
      match hexVal c with
      | Some d =>
          if (d <? radix)%N then scanRadix radix (acc * radix + d) (S cnt) r
          else (acc, cnt, s)
      | None => (acc, cnt, s)
      end
  | EmptyString => (acc, cnt, s)
  end.

End Str.

(* ================================================================== *)
(** * Numbers *)
(* ================================================================== *)

(** A finite number is an integer or a non-integer decimal [m / 10^k]
  whose numerator is not a multiple of ten, so that every value has one
  representation. *)
Inductive finite : Type :=
| FInt (z : Z)
| FFrac (m : Z) (k : positive).

Inductive number : Type :=
| NaN
| Inf (neg : bool)
| Fin (f : finite).

Abbreviation Int z := (Fin (FInt z)).

Module Num.

Definition pow10 (k : nat) : Z := 10 ^ Z.of_nat k.

(** [m / 10^k] in normal form. *)
Fixpoint normFrac (m : Z) (k : nat) : finite :=
  match k with
  | O => FInt m
  | S k' =>
      if m mod 10 =? 0 then normFrac (m / 10) k'
      else FFrac m (Pos.of_succ_nat k')
  end.

(** [m * 10^e] in normal form. *)
Definition mkDec (m : Z) (e : Z) : finite :=
  if 0 <=? e then FInt (m * 10 ^ e) else normFrac m (Z.to_nat (- e)).

Definition toPair (f : finite) : Z * nat :=
  match f with
  | FInt z => (z, O)
  | FFrac m k => (m, Pos.to_nat k)
  end.

(** Both numerators over the common denominator [10^max k1 k2]. *)
Definition align (a b : finite) : Z * Z * nat :=
  let '(m1, k1) := toPair a in
  let '(m2, k2) := toPair b in
  let K := Nat.max k1 k2 in
  (m1 * pow10 (K - k1), m2 * pow10 (K - k2), K).

Definition finCompare (a b : finite) : comparison :=
  match a, b with
  | FInt x, FInt y => x ?= y
  | _, _ => let '(x, y, _) := align a b in x ?= y
  end.

Definition finSub (a b : finite) : finite :=
  match a, b with
  | FInt x, FInt y => FInt (x - y)
  | _, _ => let '(x, y, K) := align a b in normFrac (x - y) K
  end.

Definition finIsZero (f : finite) : bool :=
  match f with FInt z => z =? 0 | FFrac m _ => m =? 0 end.

(** [x < y] on numbers: false as soon as one side is [NaN]. *)
Definition ltb (x y : number) : bool :=
  match x, y with
  | NaN, _ | _, NaN => false
  | Inf true, Inf true => false
  | Inf true, _ => true
  | _, Inf true => false
  | Inf false, _ => false
  | _, Inf false => true
  | Fin a, Fin b => match finCompare a b with Lt => true | _ => false end
  end.

(** [x <= y] on numbers. *)
Definition leb (x y : number) : bool :=
  match x, y with
  | NaN, _ | _, NaN => false
  | Inf true, _ => true
  | _, Inf true => false
  | _, Inf false => true
  | Inf false, _ => false
  | Fin a, Fin b => match finCompare a b with Gt => false | _ => true end
  end.

(** [x === y] on numbers. *)
Definition eqb (x y : number) : bool :=
  match x, y with
  | Inf a, Inf b => Bool.eqb a b
  | Fin a, Fin b => match finCompare a b with Eq => true | _ => false end
  | _, _ => false
  end.

(** [x - y], without rounding: the program's difference wherever that
    one needs none, as for two safe integers whose difference is safe. *)
Definition sub (x y : number) : number :=
  match x, y with
  | NaN, _ | _, NaN => NaN
  | Inf a, Inf b => if Bool.eqb a b then NaN else Inf a
  | Inf a, Fin _ => Inf a
  | Fin _, Inf b => Inf (negb b)
  | Fin a, Fin b => Fin (finSub a b)
  end.

(** Truthiness of a number: [NaN] and [0] are falsy. *)
Definition truthy (x : number) : bool :=
  match x with
  | NaN => false
  | Inf _ => true
  | Fin f => negb (finIsZero f)
  end.

Definition isFinite (x : number) : bool :=
  match x with Fin _ => true | _ => false end.

(** A decimal is in normal form when its numerator is no multiple of
    ten. *)
Definition wfFinite (f : finite) : bool :=
  match f with
  | FInt _ => true
  | FFrac m _ => negb (m mod 10 =? 0)
  end.

(** [n] without its trailing zeros (for [n > 0]). *)
Fixpoint stripZerosFuel (fuel : nat) (n : N) : N :=
  match fuel with
  | O => n
  | S f => if (n mod 10 =? 0)%N then stripZerosFuel f (n / 10)%N else n
  end.

Definition stripZeros (n : N) : N :=
  if (n =? 0)%N then 0%N else stripZerosFuel (Str.ndigits n) n.

Definition expSign (e : Z) : ascii :=
  if Z.ltb e 0 then "-"%char else "+"%char.

(** Scientific notation of [Number::toString]: the digits [s] (which
    are [k] many), a point after the first one, and the exponent
    [n - 1]. *)
Definition exponential (s : N) (n : Z) : string :=
  let k := Str.ndigits s in
  let p := (10 ^ N.of_nat (k - 1))%N in
  Str.printNat (s / p) +++
  (if (k =? 1)%nat then EmptyString
   else String "." (Str.printFixed (k - 1) (s mod p))) +++
  String "e" (String (expSign (n - 1)) (Str.printNat (Z.abs_N (n - 1)))).

(** [Number::toString] in radix 10 for a positive finite number, given
    as in the specification by its digits [s] and the position [n] of
    the decimal point: [s * 10^(n - k)] with [k] the number of digits
    of [s]. *)
Definition finiteToString (f : finite) : string :=
  match f with
  | FInt z =>
      let a := Z.abs_N z in
      let sign := if z <? 0 then "-" else EmptyString in
      if (a =? 0)%N then "0"
      else if (Str.ndigits a <=? 21)%nat then sign +++ Str.printNat a
      else sign +++ exponential (stripZeros a) (Z.of_nat (Str.ndigits a))
  | FFrac m kk =>
      let s := Z.abs_N m in
      let sign := if m <? 0 then "-" else EmptyString in
      let k := Pos.to_nat kk in
      let n := Z.of_nat (Str.ndigits s) - Z.of_nat k in
      let p := (10 ^ N.of_nat k)%N in
      if (-6 <? n) && (n <=? 21)
      then sign +++ Str.printNat (s / p) +++ String "." (Str.printFixed k (s mod p))
      else sign +++ exponential s n
  end.

Definition toString (x : number) : string :=
  match x with
  | NaN => "NaN"
  | Inf false => "Infinity"
  | Inf true => "-Infinity"
  | Fin f => finiteToString f
  end.

End Num.

(* ================================================================== *)
(** * Numeric parsing: [parseInt], [parseFloat], [StringToNumber] *)
(* ================================================================== *)

Module NumParse.

Definition finNeg (f : finite) : finite :=
  match f with FInt z => FInt (- z) | FFrac m k => FFrac (- m) k end.

Definition signed (neg : bool) (f : finite) : finite :=
  if neg then finNeg f else f.

(** A leading ["+"] or ["-"]. *)
Definition scanSign (s : string) : bool * string :=
  match s with
  | String "-" r => (true, r)
  | String "+" r => (false, r)
  | _ => (false, s)
  end.

(** The digits [parseInt] reads: in radix 16 after ["0x"] or ["0X"],
    in radix 10 otherwise. *)
Definition scanInteger (s : string) : N * nat * string :=
  match s with
  | String "0" (String "x" r) => Str.scanRadix 16 0 0 r
  | String "0" (String "X" r) => Str.scanRadix 16 0 0 r
  | _ => Str.scanDigits 0 0 s
  end.

(** [parseInt(string)] without a radix argument: leading white space is
    skipped, then a sign, then the longest run of digits is read; no
    digit gives [NaN].  The digits are read to the integer they denote;
    the program rounds that integer to a double, which leaves a safe
    integer as it is. *)
Definition parseIntString (input : string) : number :=
  let '(neg, s1) := scanSign (Str.trimStart input) in
  let '(v, cnt, _) := scanInteger s1 in
  match cnt with
  | O => NaN
  | S _ => Int (if neg then - Z.of_N v else Z.of_N v)
  end.

(** The optional [ExponentPart]; it is read only when complete. *)
Definition scanExponent (s : string) : Z * string :=
  match s with
  | String c r =>
      if (Ascii.eqb c "e" || Ascii.eqb c "E")%bool then
        let '(neg, r1) := scanSign r in
        let '(v, cnt, r2) := Str.scanDigits 0 0 r1 in
        match cnt with
        | O => (0, s)
        | S _ => (if neg then - Z.of_N v else Z.of_N v, r2)
        end
      else (0, s)
  | EmptyString => (0, s)
  end.

(** The longest prefix that is a [StrUnsignedDecimalLiteral] other than
    [Infinity], with its value and what follows. *)
Definition scanDecimal (s : string) : option (finite * string) :=
  let '(ip, ni, r1) := Str.scanDigits 0 0 s in
  match r1 with
  | String "." r =>
      let '(fp, nf, r2) := Str.scanDigits 0 0 r in
      match ni, nf with
      | O, O => None
      | _, _ =>
          let '(e, r3) := scanExponent r2 in
          Some (Num.mkDec (Z.of_N ip * Num.pow10 nf + Z.of_N fp)
                          (e - Z.of_nat nf), r3)
      end
  | _ =>
      match ni with
      | O => None
      | S _ => let '(e, r3) := scanExponent r1 in Some (Num.mkDec (Z.of_N ip) e, r3)
      end
  end.

(** [parseFloat(string)].  The literal is read to the decimal it
    denotes; the program rounds that decimal to a double (to an
    infinity beyond the largest one), which is the double a decimal of
    the exact range stands for. *)
Definition parseFloatString (input : string) : number :=
  let '(neg, s1) := scanSign (Str.trimStart input) in
  if String.prefix "Infinity" s1 then Inf neg
  else match scanDecimal s1 with
       | Some (f, _) => Fin (signed neg f)
       | None => NaN
       end.

Definition wholeRadix (radix : N) (s : string) : number :=
  match Str.scanRadix radix 0 0 s with
  | (v, S _, EmptyString) => Int (Z.of_N v)
  | _ => NaN
  end.

(** [StringToNumber]: the whole trimmed string must be a numeric
    literal; the empty string is [0]. *)
Definition stringToNumber (input : string) : number :=
  match Str.trim input with
  | EmptyString => Int 0
  | String "0" (String "x" r) | String "0" (String "X" r) => wholeRadix 16 r
  | String "0" (String "o" r) | String "0" (String "O" r) => wholeRadix 8 r
  | String "0" (String "b" r) | String "0" (String "B" r) => wholeRadix 2 r
  | t =>
      let '(neg, s1) := scanSign t in
      if String.eqb s1 "Infinity" then Inf neg
      else match scanDecimal s1 with
           | Some (f, EmptyString) => Fin (signed neg f)
           | _ => NaN
           end
  end.

End NumParse.

(* ================================================================== *)
(** * Values *)
(* ================================================================== *)

(** The values the storage code handles: what [JSON.parse] can build,
  plus [undefined] and the non-finite numbers that exist in memory
  only.  An object lists its own properties in insertion order. *)
#[local] Set Warnings "-register-all".
Inductive value : Type :=
| VUndefined
| VNull
| VBool (b : bool)
| VNum (n : number)
| VStr (s : string)
| VArr (l : list value)
| VObj (props : list (string * value)).

Inductive error : Type :=
| TypeError
| SyntaxError
| Error (message : string).

(** Completion of an evaluation: a value or a thrown exception. *)
Inductive result (A : Type) : Type :=
| Ok (a : A)
| Throw (e : error).
Arguments Ok {A} a.
Arguments Throw {A} e.

Definition rbind {A B} (r : result A) (k : A -> result B) : result B :=
match r with Ok a => k a | Throw e => Throw e end.

Notation "'do' x <- r ; k" := (rbind r (fun x => k))
(at level 10, x name, r at level 100, k at level 200).

Module JS.

(** ** Own properties *)

Fixpoint lookup (k : string) (ps : list (string * value)) : option value :=
  match ps with
  | [] => None
  | (k', x) :: ps' => if String.eqb k' k then Some x else lookup k ps'
  end.

Definition hasOwn (k : string) (ps : list (string * value)) : bool :=
  match lookup k ps with Some _ => true | None => false end.

(** [CreateDataProperty]: an existing key keeps its place. *)
Fixpoint setProp (k : string) (x : value) (ps : list (string * value))
  : list (string * value) :=
  match ps with
  | [] => [(k, x)]
  | (k', y) :: ps' =>
      if String.eqb k' k then (k, x) :: ps' else (k', y) :: setProp k x ps'
  end.

(** An object literal [{...base, k1: x1, ..., kn: xn}] adds the listed
    properties to the copied ones, in order. *)
Definition extend (base : list (string * value)) (fields : list (string * value))
  : list (string * value) :=
  fold_left (fun ps kx => setProp (fst kx) (snd kx) ps) fields base.

Fixpoint indexed (i : N) (l : list value) : list (string * value) :=
  match l with
  | [] => []
  | x :: l' => (Str.printNat i, x) :: indexed (i + 1) l'
  end.

Fixpoint chars (s : string) : list value :=
  match s with
  | EmptyString => []
  | String c r => VStr (String c EmptyString) :: chars r
  end.

(** The own enumerable properties a spread [...v] copies. *)
Definition ownProps (v : value) : list (string * value) :=
  match v with
  | VObj ps => ps
  | VArr l => indexed 0 l
  | VStr s => indexed 0 (chars s)
  | _ => []
  end.

(** [v.k] for the property names this program reads ([id], [barcode],
    [stockNumber], [supplier], [description], [costPrice],
    [sellingPrice], [quantity]): none of them is inherited, an array
    index or [length], so only an object can have one, and reading a
    property of [undefined] or [null] throws. *)
Definition Get (v : value) (k : string) : result value :=
  match v with
  | VUndefined | VNull => Throw TypeError
  | VObj ps => Ok (match lookup k ps with Some x => x | None => VUndefined end)
  | _ => Ok VUndefined
  end.

(** ** Coercions *)

Definition truthy (v : value) : bool :=
  match v with
  | VUndefined | VNull => false
  | VBool b => b
  | VNum n => Num.truthy n
  | VStr s => negb (Str.isEmpty s)
  | VArr _ | VObj _ => true
  end.

(** [a || b]. *)
Definition or (a b : value) : value := if truthy a then a else b.

(** [a === b].  Two objects or arrays are equal only when they are the
    same object; the operands compared by this program always come
    from different sources (a stored record and an argument). *)
Definition strictEq (a b : value) : bool :=
  match a, b with
  | VUndefined, VUndefined => true
  | VNull, VNull => true
  | VBool x, VBool y => Bool.eqb x y
  | VNum x, VNum y => Num.eqb x y
  | VStr x, VStr y => String.eqb x y
  | _, _ => false
  end.

(** [ToString].  An array joins its elements with commas, [undefined]
    and [null] elements giving the empty string; a plain object gives
    ["[object Object]"] unless an own [toString] property (which is
    never callable here) hides the inherited method. *)
Fixpoint toString (v : value) : result string :=
  match v with
  | VUndefined => Ok "undefined"
  | VNull => Ok "null"
  | VBool true => Ok "true"
  | VBool false => Ok "false"
  | VNum n => Ok (Num.toString n)
  | VStr s => Ok s
  | VArr l =>
      (fix join (l : list value) : result string :=
         match l with
         | [] => Ok EmptyString
         | x :: l' =>
             do sx <- match x with
                      | VUndefined | VNull => Ok EmptyString
                      | _ => toString x
                      end;
             match l' with
             | [] => Ok sx
             | _ => do rest <- join l'; Ok (sx +++ "," +++ rest)
             end
         end) l
  | VObj ps => if hasOwn "toString" ps then Throw TypeError
               else Ok "[object Object]"
  end.

(** [ToNumber]. *)
Definition toNumber (v : value) : result number :=
  match v with
  | VUndefined => Ok NaN
  | VNull => Ok (Int 0)
  | VBool true => Ok (Int 1)
  | VBool false => Ok (Int 0)
  | VNum n => Ok n
  | VStr s => Ok (NumParse.stringToNumber s)
  | VArr _ | VObj _ => do s <- toString v; Ok (NumParse.stringToNumber s)
  end.

Definition parseInt (v : value) : result number :=
  do s <- toString v; Ok (NumParse.parseIntString s).

Definition parseFloat (v : value) : result number :=
  do s <- toString v; Ok (NumParse.parseFloatString s).

(** [n || 0] for a number [n]. *)
Definition orZero (n : number) : number :=
  if Num.truthy n then n else Int 0.

End JS.

(* ================================================================== *)
(** * JSON *)
(* ================================================================== *)

Module JSON.

Definition dquote : ascii := ascii_of_N 34.
Definition backslash : ascii := ascii_of_N 92.
Definition LF : ascii := ascii_of_N 10.

(** ** [JSON.stringify(value, null, 2)] *)

(** [QuoteJSONString], one code unit at a time. *)
Definition escapeChar (c : ascii) : string :=
  let n := Str.code c in
  if (n =? 8)%N then String backslash "b"
  else if (n =? 9)%N then String backslash "t"
  else if (n =? 10)%N then String backslash "n"
  else if (n =? 12)%N then String backslash "f"
  else if (n =? 13)%N then String backslash "r"
  else if (n =? 34)%N then String backslash (String dquote EmptyString)
  else if (n =? 92)%N then String backslash (String backslash EmptyString)
  else if (n <? 32)%N then
    String backslash
      (String "u" (String "0" (String "0"
         (String (Str.hexChar (n / 16)) (String (Str.hexChar (n mod 16)) EmptyString)))))
  else String c EmptyString.

Fixpoint escape (s : string) : string :=
  match s with
  | EmptyString => EmptyString
  | String c r => escapeChar c +++ escape r
  end.

Definition quote (s : string) : string :=
  String dquote (escape s +++ String dquote EmptyString).

Fixpoint spaces (n : nat) : string :=
  match n with
  | O => EmptyString
  | S n' => String " " (spaces n')
  end.

(** With a gap of [space] blanks, a line feed followed by the
    indentation of nesting depth [ind]; nothing without a gap. *)
Definition newline (space ind : nat) : string :=
  match space with
  | O => EmptyString
  | S _ => String LF (spaces (ind * space))
  end.

Definition colon (space : nat) : string :=
  match space with
  | O => ":"
  | S _ => ": "
  end.

Fixpoint joinParts (space ind : nat) (parts : list string) : string :=
  match parts with
  | [] => EmptyString
  | p :: ps => String "," (newline space ind +++ p +++ joinParts space ind ps)
  end.

(** The text of an array or object at depth [ind] from the texts of its
    elements or members. *)
Definition block (opening closing : ascii) (space ind : nat) (parts : list string)
  : string :=
  match parts with
  | [] => String opening (String closing EmptyString)
  | p :: ps =>
      String opening
        (newline space (S ind) +++ p +++ joinParts space (S ind) ps +++
         newline space ind +++ String closing EmptyString)
  end.

Definition serNumber (n : number) : string :=
  if Num.isFinite n then Num.toString n else "null".

(** [SerializeJSONProperty]: [None] stands for the [undefined] result,
    which an array replaces by ["null"] and an object skips together
    with the key. *)
Fixpoint ser (space ind : nat) (v : value) : option string :=
  match v with
  | VUndefined => None
  | VNull => Some "null"
  | VBool true => Some "true"
  | VBool false => Some "false"
  | VNum n => Some (serNumber n)
  | VStr s => Some (quote s)
  | VArr l =>
      Some (block "[" "]" space ind
              ((fix elems (l : list value) : list string :=
                  match l with
                  | [] => []
                  | x :: l' =>
                      match ser space (S ind) x with
                      | Some t => t
                      | None => "null"
                      end :: elems l'
                  end) l))
  | VObj ps =>
      Some (block "{" "}" space ind
              ((fix members (ps : list (string * value)) : list string :=
                  match ps with
                  | [] => []
                  | (k, x) :: ps' =>
                      match ser space (S ind) x with
                      | Some t => (quote k +++ colon space +++ t) :: members ps'
                      | None => members ps'
                      end
                  end) ps))
  end.

(** [JSON.stringify(v, null, space)] for [space] up to 10, and
    [JSON.stringify(v)] for [space = 0]. *)
Definition stringify (v : value) (space : nat) : option string := ser space 0 v.

(** ** [JSON.parse(text)] *)

Definition isWs (c : ascii) : bool :=
  let n := Str.code c in
  ((n =? 32) || (n =? 9) || (n =? 10) || (n =? 13))%N.

Fixpoint skipWs (s : string) : string :=
  match s with
  | String c r => if isWs c then skipWs r else s
  | EmptyString => s
  end.

(** What follows the literal [lit] at the head of [s], if it is there. *)
Fixpoint expect (lit s : string) : option string :=
  match lit, s with
  | EmptyString, _ => Some s
  | String a lit', String b s' => if Ascii.eqb a b then expect lit' s' else None
  | String _ _, EmptyString => None
  end.

Definition unescape (c : ascii) : option ascii :=
  let n := Str.code c in
  if (n =? 34)%N then Some dquote
  else if (n =? 92)%N then Some backslash
  else if (n =? 47)%N then Some "/"%char
  else if (n =? 98)%N then Some (ascii_of_N 8)
  else if (n =? 102)%N then Some (ascii_of_N 12)
  else if (n =? 110)%N then Some (ascii_of_N 10)
  else if (n =? 114)%N then Some (ascii_of_N 13)
  else if (n =? 116)%N then Some (ascii_of_N 9)
  else None.

Definition hex4 (a b c d : ascii) : option N :=
  match Str.hexVal a, Str.hexVal b, Str.hexVal c, Str.hexVal d with
  | Some x, Some y, Some z, Some w => Some (((x * 16 + y) * 16 + z) * 16 + w)%N
  | _, _, _, _ => None
  end.

Definition consChar (c : ascii) (r : option (string * string))
  : option (string * string) :=
  match r with
  | Some (s, rest) => Some (String c s, rest)
  | None => None
  end.

(** The characters of a string literal after its opening quote, up to
    and including the closing quote.  An escape [\uXXXX] above [00ff]
    denotes a code unit outside the modelled range and is refused. *)
Fixpoint parseChars (s : string) : option (string * string) :=
  match s with
  | EmptyString => None
  | String c r =>
      if Ascii.eqb c dquote then Some (EmptyString, r)
      else if Ascii.eqb c backslash then
        match r with
        | String "u" (String h1 (String h2 (String h3 (String h4 r')))) =>
            match hex4 h1 h2 h3 h4 with
            | Some n => if (n <? 256)%N then consChar (ascii_of_N n) (parseChars r')
                        else None
            | None => None
            end
        | String e r' =>
            match unescape e with
            | Some c' => consChar c' (parseChars r')
            | None => None
            end
        | EmptyString => None
        end
      else if (Str.code c <? 32)%N then None
      else consChar c (parseChars r)
  end.

(** The fraction of a JSON number: a point followed by at least one
    digit, or nothing. *)
Definition parseFraction (s : string) : option (N * nat * string) :=
  match s with
  | String "." r =>
      match Str.scanDigits 0 0 r with
      | (_, O, _) => None
      | (fp, S nf, r') => Some (fp, S nf, r')
      end
  | _ => Some (0%N, O, s)
  end.

(** The exponent of a JSON number: [e] or [E], an optional sign and at
    least one digit, or nothing. *)
Definition parseExponent (s : string) : option (Z * string) :=
  match s with
  | String c r =>
      if (Ascii.eqb c "e" || Ascii.eqb c "E")%bool then
        let '(neg, r1) := NumParse.scanSign r in
        match Str.scanDigits 0 0 r1 with
        | (_, O, _) => None
        | (v, S _, r2) => Some (if neg then - Z.of_N v else Z.of_N v, r2)
        end
      else Some (0, s)
  | EmptyString => Some (0, s)
  end.

Definition scanMinus (s : string) : bool * string :=
  match s with
  | String "-" r => (true, r)
  | _ => (false, s)
  end.

(** The integer part of a JSON number: a single [0], or digits that do
    not start with [0]. *)
Definition parseInteger (s : string) : option (N * string) :=
  match s with
  | String "0" r => Some (0%N, r)
  | _ => match Str.scanDigits 0 0 s with
         | (_, O, _) => None
         | (ip, S _, r) => Some (ip, r)
         end
  end.

(** An unsigned JSON number at the head of [s]: the digits read as an
    integer [m] and the exponent [e] of its value [m * 10^e]. *)
Definition parseUnsigned (s : string) : option (Z * Z * string) :=
  match parseInteger s with
  | None => None
  | Some (ip, r1) =>
      match parseFraction r1 with
      | None => None
      | Some (fp, nf, r2) =>
          match parseExponent r2 with
          | None => None
          | Some (e, r3) =>
              Some (Z.of_N ip * Num.pow10 nf + Z.of_N fp, e - Z.of_nat nf, r3)
          end
      end
  end.

(** A JSON number, read to the decimal it denotes (the program rounds
    it to a double, as [parseFloat] does). *)
Definition parseNumber (s : string) : option (number * string) :=
  let '(neg, s1) := scanMinus s in
  match parseUnsigned s1 with
  | None => None
  | Some (m, e, r) => Some (Fin (Num.mkDec (if neg then - m else m) e), r)
  end.

(** The next character after optional white space. *)
Definition next (s : string) : option (ascii * string) :=
  match skipWs s with
  | String c r => Some (c, r)
  | EmptyString => None
  end.

(** What follows the character [c] after optional white space, if it
    is there. *)
Definition closes (c : ascii) (s : string) : option string :=
  match next s with
  | Some (c', r) => if Ascii.eqb c' c then Some r else None
  | None => None
  end.

(** The elements of a non-empty array after its opening bracket, read
    with the value parser [p]. *)
Fixpoint parseElems (p : string -> option (value * string)) (n : nat) (s : string)
  : option (list value * string) :=
  match n with
  | O => None
  | S n' =>
      match p s with
      | None => None
      | Some (v, r) =>
          match next r with
          | Some (c, r') =>
              if Ascii.eqb c "," then
                match parseElems p n' r' with
                | Some (vs, r'') => Some (v :: vs, r'')
                | None => None
                end
              else if Ascii.eqb c "]" then Some ([v], r')
              else None
          | None => None
          end
      end
  end.

(** One member [key : value] of an object. *)
Definition parseMember (p : string -> option (value * string)) (s : string)
  : option (string * value * string) :=
  match closes dquote s with
  | None => None
  | Some r =>
      match parseChars r with
      | None => None
      | Some (k, r1) =>
          match closes ":" r1 with
          | None => None
          | Some r2 =>
              match p r2 with
              | None => None
              | Some (v, r3) => Some (k, v, r3)
              end
          end
      end
  end.

(** The members of a non-empty object after its opening brace, in the
    order of the text. *)
Fixpoint parseMembers (p : string -> option (value * string)) (n : nat) (s : string)
  : option (list (string * value) * string) :=
  match n with
  | O => None
  | S n' =>
      match parseMember p s with
      | None => None
      | Some (k, v, r) =>
          match next r with
          | Some (c, r') =>
              if Ascii.eqb c "," then
                match parseMembers p n' r' with
                | Some (ms, r'') => Some ((k, v) :: ms, r'')
                | None => None
                end
              else if Ascii.eqb c "}" then Some ([(k, v)], r')
              else None
          | None => None
          end
      end
  end.

Definition withValue (v : value) (r : option string) : option (value * string) :=
  match r with Some rest => Some (v, rest) | None => None end.

(** One JSON value at the head of [s], after optional white space.  The
    fuel bounds the nesting depth and the number of elements of an
    array or object; the length of the text is always enough.  The
    members of an object are kept in the order of the text (the program
    moves the keys that are array indices to the front). *)
Fixpoint parseValue (fuel : nat) (s : string) : option (value * string) :=
  match fuel with
  | O => None
  | S f =>
      match next s with
      | None => None
      | Some (c, r) =>
          if Ascii.eqb c "n" then withValue VNull (expect "ull" r)
          else if Ascii.eqb c "t" then withValue (VBool true) (expect "rue" r)
          else if Ascii.eqb c "f" then withValue (VBool false) (expect "alse" r)
          else if Ascii.eqb c dquote then
            match parseChars r with
            | Some (str, r') => Some (VStr str, r')
            | None => None
            end
          else if Ascii.eqb c "[" then
            match closes "]" r with
            | Some r' => Some (VArr [], r')
            | None =>
                match parseElems (parseValue f) f r with
                | Some (vs, r') => Some (VArr vs, r')
                | None => None
                end
            end
          else if Ascii.eqb c "{" then
            match closes "}" r with
            | Some r' => Some (VObj [], r')
            | None =>
                match parseMembers (parseValue f) f r with
                | Some (ms, r') => Some (VObj (JS.extend [] ms), r')
                | None => None
                end
            end
          else if (Ascii.eqb c "-" || Str.isDigit c)%bool then
            match parseNumber (String c r) with
            | Some (n, r') => Some (VNum n, r')
            | None => None
            end
          else None
      end
  end.

(** [JSON.parse]: [None] stands for the thrown [SyntaxError]. *)
Definition parse (text : string) : option value :=
  match parseValue (S (String.length text)) text with
  | Some (v, r) =>
      match skipWs r with
      | EmptyString => Some v
      | _ => None
      end
  | None => None
  end.

(** The texts on which a refusal of [parse] is the program's
    [SyntaxError]: no escape [\uXXXX] names a code unit above [00ff]
    (such an escape is valid JSON, but the string it belongs to is
    outside the modelled range). *)
Fixpoint supported (s : string) : bool :=
  match s with
  | EmptyString => true
  | String c r =>
      (if Ascii.eqb c backslash then
         match r with
         | String "u" (String h1 (String h2 (String h3 (String h4 _)))) =>
             match hex4 h1 h2 h3 h4 with
             | Some n => (n <? 256)%N
             | None => true
             end
         | _ => true
         end
       else true) && supported r
  end.

End JSON.

(* ================================================================== *)
(** * Array methods with callbacks that may throw *)
(* ================================================================== *)

Module Arr.

(** [items.findIndex(p)], counting from [i]. *)
Fixpoint findIndexFrom (p : value -> result bool) (i : nat) (l : list value)
  : result (option nat) :=
  match l with
  | [] => Ok None
  | x :: l' =>
      do b <- p x;
      if b then Ok (Some i) else findIndexFrom p (S i) l'
  end.

Definition findIndex (p : value -> result bool) (l : list value)
  : result (option nat) := findIndexFrom p O l.

(** [items.find(p)]: the first element satisfying [p], or [undefined]. *)
Fixpoint find (p : value -> result bool) (l : list value) : result value :=
  match l with
  | [] => Ok VUndefined
  | x :: l' => do b <- p x; if b then Ok x else find p l'
  end.

(** [items.filter(p)]. *)
Fixpoint filter (p : value -> result bool) (l : list value) : result (list value) :=
  match l with
  | [] => Ok []
  | x :: l' =>
      do b <- p x;
      do r <- filter p l';
      Ok (if b then x :: r else r)
  end.

(** [items[i] = x] for an index inside the array. *)
Fixpoint setAt (i : nat) (x : value) (l : list value) : list value :=
  match l, i with
  | [], _ => []
  | _ :: l', O => x :: l'
  | y :: l', S i' => y :: setAt i' x l'
  end.

(** Calling an array method on [v]: anything but an array has no such
    method, and the call throws. *)
Definition asArray (v : value) : result (list value) :=
  match v with
  | VArr l => Ok l
  | _ => Throw TypeError
  end.

End Arr.

(* ================================================================== *)
(** * The storage module ([localStorage] backend) *)
(* ================================================================== *)

Module Storage.

(** The storage slot under [STORAGE_KEY]: absent, or a string. *)
Definition Store : Type := option string.

(** An operation yields its settled promise and the slot afterwards. *)
Definition Promise (A : Type) : Type := (result A * Store)%type.

(** [getAllItems]: the decoded slot; a missing, empty or unparsable
    slot reads as the empty array. *)
Definition getAllItems (st : Store) : value :=
  match st with
  | None => VArr []
  | Some data =>
      if Str.isEmpty data then VArr []
      else match JSON.parse data with
           | Some items => items
           | None => VArr []
           end
  end.

(** The slots [getAllItems] reads as the program does: what they hold,
    if anything, is a text that [JSON.supported] covers. *)
Definition supported (st : Store) : bool :=
  match st with
  | None => true
  | Some data => JSON.supported data
  end.

(** [saveAllItems]: the slot holds the JSON text of [items].  (The
    write is taken to succeed.) *)
Definition saveAllItems (items : value) : Store :=
  match JSON.stringify items 0 with
  | Some text => Some text
  | None => Some "undefined"
  end.

(** The callback [item => item.id === id]. *)
Definition hasId (id : value) (item : value) : result bool :=
  do x <- JS.Get item "id"; Ok (JS.strictEq x id).

(** The callback [item => item.barcode === barcode]. *)
Definition hasBarcode (barcode : value) (item : value) : result bool :=
  do x <- JS.Get item "barcode"; Ok (JS.strictEq x barcode).

(** The callback [item => item.id !== id]. *)
Definition otherId (id : value) (item : value) : result bool :=
  do x <- JS.Get item "id"; Ok (negb (JS.strictEq x id)).

Definition getItemById (st : Store) (id : value) : Promise value :=
  (do items <- Arr.asArray (getAllItems st);
   do found <- Arr.find (hasId id) items;
   Ok (JS.or found VNull),
   st).

Definition getItemByBarcode (st : Store) (barcode : value) : Promise value :=
  (do items <- Arr.asArray (getAllItems st);
   do found <- Arr.find (hasBarcode barcode) items;
   Ok (JS.or found VNull),
   st).

(** [v.toLowerCase()]: only a string has the method. *)
Definition toLowerCase (v : value) : result string :=
  match v with
  | VStr s => Ok (Str.toLowerCase s)
  | _ => Throw TypeError
  end.

(** [item.k.toLowerCase().includes(searchTerm)]. *)
Definition fieldIncludes (item : value) (k : string) (searchTerm : string)
  : result bool :=
  do x <- JS.Get item k;
  do s <- toLowerCase x;
  Ok (Str.includes s searchTerm).

(** The filter callback of [searchItems]. *)
Definition matches (searchTerm : string) (item : value) : result bool :=
  do d <- fieldIncludes item "description" searchTerm;
  if d then Ok true else
  do n <- fieldIncludes item "stockNumber" searchTerm;
  if n then Ok true else
  do s <- fieldIncludes item "supplier" searchTerm;
  if s then Ok true else
  do b <- JS.Get item "barcode";
  if JS.truthy b then fieldIncludes item "barcode" searchTerm else Ok false.

Definition searchItems (st : Store) (query : value) : Promise (list value) :=
  (let items := getAllItems st in
   if negb (JS.truthy query) then Ok []
   else match query with
        | VStr q =>
            if Str.isEmpty (Str.trim q) then Ok []
            else
              let searchTerm := Str.trim (Str.toLowerCase q) in
              do l <- Arr.asArray items;
              Arr.filter (matches searchTerm) l
        | _ => Throw TypeError
        end,
   st).

(** [parseFloat(x) || 0] and [parseInt(x) || 0]. *)
Definition parseFloatOr0 (x : value) : result number :=
  do n <- JS.parseFloat x; Ok (JS.orZero n).

Definition parseIntOr0 (x : value) : result number :=
  do n <- JS.parseInt x; Ok (JS.orZero n).

(** [addItem].  [newId] is what [generateId()] returns, [created] and
    [updated] are the two readings of the clock. *)
Definition addItem (st : Store) (itemData : value) (newId created updated : string)
  : Promise value :=
  let items := getAllItems st in
  let r :=
    do barcode <- JS.Get itemData "barcode";
    do stockNumber <- JS.Get itemData "stockNumber";
    do supplier <- JS.Get itemData "supplier";
    do description <- JS.Get itemData "description";
    do cp <- JS.Get itemData "costPrice";
    do costPrice <- parseFloatOr0 cp;
    do sp <- JS.Get itemData "sellingPrice";
    do sellingPrice <- parseFloatOr0 sp;
    do q <- JS.Get itemData "quantity";
    do quantity <- parseIntOr0 q;
    let newItem :=
      VObj (JS.extend []
              [("id", VStr newId);
               ("barcode", JS.or barcode VNull);
               ("stockNumber", stockNumber);
               ("supplier", supplier);
               ("description", description);
               ("costPrice", VNum costPrice);
               ("sellingPrice", VNum sellingPrice);
               ("quantity", VNum quantity);
               ("createdAt", VStr created);
               ("updatedAt", VStr updated)]) in
    do l <- Arr.asArray items;
    Ok (newItem, l ++ [newItem]) in
  match r with
  | Ok (newItem, l) => (Ok newItem, saveAllItems (VArr l))
  | Throw e => (Throw e, st)
  end.

(** The callback [item => item.id === itemData.id] of [updateItem]. *)
Definition sameId (itemData : value) (item : value) : result bool :=
  do x <- JS.Get item "id";
  do y <- JS.Get itemData "id";
  Ok (JS.strictEq x y).

(** [itemData.k !== undefined ? parse(itemData.k) : old.k]. *)
Definition overlayNumber (parse : value -> result number)
                         (itemData old : value) (k : string) : result value :=
  do x <- JS.Get itemData k;
  match x with
  | VUndefined => JS.Get old k
  | _ => do n <- parse x; Ok (VNum n)
  end.

(** [itemData.k || old.k]. *)
Definition overlayField (itemData old : value) (k : string) : result value :=
  do x <- JS.Get itemData k;
  if JS.truthy x then Ok x else JS.Get old k.

Definition updateItem (st : Store) (itemData : value) (now : string)
  : Promise value :=
  let r :=
    do items <- Arr.asArray (getAllItems st);
    do found <- Arr.findIndex (sameId itemData) items;
    match found with
    | None => Ok None
    | Some index =>
        let old := nth index items VUndefined in
        do barcode <- overlayField itemData old "barcode";
        do stockNumber <- overlayField itemData old "stockNumber";
        do supplier <- overlayField itemData old "supplier";
        do description <- overlayField itemData old "description";
        do costPrice <- overlayNumber JS.parseFloat itemData old "costPrice";
        do sellingPrice <- overlayNumber JS.parseFloat itemData old "sellingPrice";
        do quantity <- overlayNumber JS.parseInt itemData old "quantity";
        let updated :=
          VObj (JS.extend (JS.ownProps old)
                  [("barcode", barcode);
                   ("stockNumber", stockNumber);
                   ("supplier", supplier);
                   ("description", description);
                   ("costPrice", costPrice);
                   ("sellingPrice", sellingPrice);
                   ("quantity", quantity);
                   ("updatedAt", VStr now)]) in
        Ok (Some (updated, Arr.setAt index updated items))
    end in
  match r with
  | Ok None => (Ok VNull, st)
  | Ok (Some (updated, items')) => (Ok updated, saveAllItems (VArr items'))
  | Throw e => (Throw e, st)
  end.

(** The result objects of [removeStock]. *)
Definition failure (message : string) : value :=
  VObj [("success", VBool false); ("error", VStr message)].

Definition success (item : value) (removed : number) : value :=
  VObj [("success", VBool true); ("item", item); ("removed", VNum removed)].

Definition removeStock (st : Store) (id quantity : value) (now : string)
  : Promise value :=
  let r :=
    do items <- Arr.asArray (getAllItems st);
    do found <- Arr.findIndex (hasId id) items;
    match found with
    | None => Ok (failure "Item not found", None)
    | Some index =>
        let item := nth index items VUndefined in
        do removeQty <- parseIntOr0 quantity;
        if Num.leb removeQty (Int 0) then Ok (failure "Invalid quantity", None)
        else
          do q <- JS.Get item "quantity";
          do have <- JS.toNumber q;
          if Num.ltb have removeQty then
            do shown <- JS.toString q;
            Ok (failure ("Not enough stock. Available: " +++ shown), None)
          else
            let updated :=
              VObj (JS.extend (JS.ownProps item)
                      [("quantity", VNum (Num.sub have removeQty));
                       ("updatedAt", VStr now)]) in
            Ok (success updated removeQty,
                Some (Arr.setAt index updated items))
    end in
  match r with
  | Ok (res, None) => (Ok res, st)
  | Ok (res, Some items') => (Ok res, saveAllItems (VArr items'))
  | Throw e => (Throw e, st)
  end.

Definition deleteItem (st : Store) (id : value) : Promise bool :=
  let r :=
    do items <- Arr.asArray (getAllItems st);
    do filteredItems <- Arr.filter (otherId id) items;
    Ok (items, filteredItems) in
  match r with
  | Ok (items, filteredItems) =>
      if (List.length filteredItems =? List.length items)%nat then (Ok false, st)
      else (Ok true, saveAllItems (VArr filteredItems))
  | Throw e => (Throw e, st)
  end.

(** [clearAll]: the slot is removed. *)
Definition clearAll (st : Store) : Promise unit := (Ok tt, None).

(** [exportData]: the text of the whole collection. *)
Definition exportData (st : Store) : Promise (option string) :=
  (Ok (JSON.stringify (getAllItems st) 2), st).

(** [importData]: the decoded array replaces the collection; the number
    of its elements is returned. *)
Definition importData (st : Store) (jsonString : string) : Promise nat :=
  match JSON.parse jsonString with
  | None => (Throw SyntaxError, st)
  | Some (VArr items) => (Ok (List.length items), saveAllItems (VArr items))
  | Some _ => (Throw (Error "Invalid data format"), st)
  end.

End Storage.

(* ================================================================== *)
(** * Lookup routing of the application controller *)
(* ================================================================== *)

Module App.

(** The branch [handleBarcodeDetected] takes:
    - [ExactMatch item]: an item has the code as its barcode; its
      detail view is shown;
    - [SingleMatch item]: the search found one item; its detail view
      is shown;
    - [MultipleMatches items]: the search view lists the items found;
    - [NoMatch code]: the form for a new item opens with [code] as
      barcode;
    - [LookupError]: a lookup was rejected; an error toast is shown. *)
Inductive Outcome : Type :=
| ExactMatch (item : value)
| SingleMatch (item : value)
| MultipleMatches (items : list value)
| NoMatch (code : value)
| LookupError.

Definition handleBarcodeDetected (st : Storage.Store) (code : value) : Outcome :=
  match fst (Storage.getItemByBarcode st code) with
  | Throw _ => LookupError
  | Ok item =>
      if JS.truthy item then ExactMatch item
      else
        match fst (Storage.searchItems st code) with
        | Throw _ => LookupError
        | Ok items =>
            match items with
            | [x] => SingleMatch x
            | _ :: _ :: _ => MultipleMatches items
            | [] => NoMatch code
            end
        end
  end.

End App.

(* ================================================================== *)
(** * The JSON data model *)
(* ================================================================== *)

(** What [JSON.parse(JSON.stringify(v))] keeps of [v]: a non-finite
    number and an [undefined] array element become [null], and a
    property whose value is [undefined] is dropped. *)
Fixpoint clone (v : value) : value :=
  match v with
  | VUndefined => VNull
  | VNum n => if Num.isFinite n then v else VNull
  | VArr l =>
      VArr ((fix elems (l : list value) : list value :=
               match l with
               | [] => []
               | x :: l' => clone x :: elems l'
               end) l)
  | VObj ps =>
      VObj ((fix members (ps : list (string * value)) : list (string * value) :=
               match ps with
               | [] => []
               | (k, x) :: ps' =>
                   match x with
                   | VUndefined => members ps'
                   | _ => (k, clone x) :: members ps'
                   end
               end) ps)
  | _ => v
  end.

Fixpoint cloneMembers (ps : list (string * value)) : list (string * value) :=
  match ps with
  | [] => []
  | (k, x) :: ps' =>
      match x with
      | VUndefined => cloneMembers ps'
      | _ => (k, clone x) :: cloneMembers ps'
      end
  end.

Fixpoint uniqueKeys (ks : list string) : bool :=
  match ks with
  | [] => true
  | k :: ks' => negb (existsb (String.eqb k) ks') && uniqueKeys ks'
  end.

(** A value as it can exist in memory: every decimal in normal form and
    no key twice in an object. *)
Fixpoint wellFormed (v : value) : bool :=
  match v with
  | VNum (Fin f) => Num.wfFinite f
  | VArr l =>
      (fix all (l : list value) : bool :=
         match l with
         | [] => true
         | x :: l' => wellFormed x && all l'
         end) l
  | VObj ps =>
      uniqueKeys (map fst ps) &&
      (fix all (ps : list (string * value)) : bool :=
         match ps with
         | [] => true
         | (_, x) :: ps' => wellFormed x && all ps'
         end) ps
  | _ => true
  end.

Fixpoint wellFormedAll (l : list value) : bool :=
  match l with
  | [] => true
  | x :: l' => wellFormed x && wellFormedAll l'
  end.

Fixpoint wellFormedMembers (ps : list (string * value)) : bool :=
  match ps with
  | [] => true
  | (_, x) :: ps' => wellFormed x && wellFormedMembers ps'
  end.

(** A value of the JSON data model: no [undefined], no non-finite
    number, every decimal in normal form, no key twice in an object. *)
Fixpoint isJSON (v : value) : bool :=
  match v with
  | VUndefined => false
  | VNum (Fin f) => Num.wfFinite f
  | VNum _ => false
  | VArr l =>
      (fix all (l : list value) : bool :=
         match l with
         | [] => true
         | x :: l' => isJSON x && all l'
         end) l
  | VObj ps =>
      uniqueKeys (map fst ps) &&
      (fix all (ps : list (string * value)) : bool :=
         match ps with
         | [] => true
         | (_, x) :: ps' => isJSON x && all ps'
         end) ps
  | _ => true
  end.

Fixpoint allJSON (l : list value) : bool :=
  match l with
  | [] => true
  | x :: l' => isJSON x && allJSON l'
  end.

Fixpoint membersJSON (ps : list (string * value)) : bool :=
  match ps with
  | [] => true
  | (_, x) :: ps' => isJSON x && membersJSON ps'
  end.

(** The number of nodes of a value that [JSON.stringify] prints. *)
Fixpoint vsize (v : value) : nat :=
  match v with
  | VArr l =>
      S ((fix sum (l : list value) : nat :=
            match l with
            | [] => O
            | x :: l' => (vsize x + sum l')%nat
            end) l)
  | VObj ps =>
      S ((fix sum (ps : list (string * value)) : nat :=
            match ps with
            | [] => O
            | (_, VUndefined) :: ps' => sum ps'
            | (_, x) :: ps' => (vsize x + sum ps')%nat
            end) ps)
  | _ => 1%nat
  end.

Fixpoint sumSizes (l : list value) : nat :=
  match l with
  | [] => O
  | x :: l' => (vsize x + sumSizes l')%nat
  end.

Fixpoint sumMemberSizes (ps : list (string * value)) : nat :=
  match ps with
  | [] => O
  | (_, VUndefined) :: ps' => sumMemberSizes ps'
  | (_, x) :: ps' => (vsize x + sumMemberSizes ps')%nat
  end.

Fixpoint sumLengths (parts : list string) : nat :=
  match parts with
  | [] => O
  | p :: ps => (String.length p + sumLengths ps)%nat
  end.

(** The text of an array element. *)
Definition elemText (space ind : nat) (x : value) : string :=
  match JSON.ser space ind x with
  | Some t => t
  | None => "null"
  end.

(** The texts of the members of an object. *)
Fixpoint memberTexts (space ind : nat) (ps : list (string * value)) : list string :=
  match ps with
  | [] => []
  | (k, x) :: ps' =>
      match JSON.ser space ind x with
      | Some t => (JSON.quote k +++ JSON.colon space +++ t) :: memberTexts space ind ps'
      | None => memberTexts space ind ps'
      end
  end.

(** What follows the first element or member of a block. *)
Definition tailText (space ind : nat) (closing : ascii) (parts : list string)
                    (rest : string) : string :=
  JSON.joinParts space (S ind) parts +++ JSON.newline space ind +++ String closing rest.

(** What stops a scan of digits. *)
Definition noDigit (s : string) : Prop :=
  match s with
  | EmptyString => True
  | String c _ => Str.isDigit c = false
  end.

(** What may follow a number: no digit, point or exponent mark. *)
Definition stopNum (s : string) : Prop :=
  match s with
  | EmptyString => True
  | String c _ => Str.isDigit c = false /\ c <> "."%char /\ c <> "e"%char /\ c <> "E"%char
  end.

(** What may follow a value inside the text [JSON.ser] produces. *)
Definition delim (s : string) : Prop :=
  match s with
  | EmptyString => True
  | String c _ => c = ","%char \/ c = "]"%char \/ c = "}"%char \/ c = JSON.LF
  end.

(** The first character of the text of a number. *)
Definition numberStart (c : ascii) : Prop :=
  c = "-"%char \/ exists d, (d < 10)%N /\ c = Str.digitChar d.

(** The first character of the text of a value. *)
Definition startsValue (s : string) : Prop :=
  match s with
  | EmptyString => False
  | String c _ => JSON.isWs c = false /\ c <> "]"%char /\ c <> "}"%char
  end.

(** With fuel [f], the text of [x] is read back as the clone of [x]. *)
Definition roundTrips (f : nat) (x : value) : Prop :=
  forall space ind rest, delim rest ->
    JSON.parseValue f (elemText space ind x +++ rest) = Some (clone x, rest).

Definition yieldsJSON (p : string -> option (value * string)) : Prop :=
  forall s v r, p s = Some (v, r) -> isJSON v = true.

(* ================================================================== *)
(** * Inventory records *)
(* ================================================================== *)

Module Item.

(** An inventory record as the data layer documents it. *)
Record t : Type := mk {
  id : string;
  barcode : option string;
  stockNumber : string;
  supplier : string;
  description : string;
  costPrice : finite;
  sellingPrice : finite;
  quantity : Z;
  createdAt : string;
  updatedAt : string
}.

Definition barcodeValue (b : option string) : value :=
  match b with
  | Some s => VStr s
  | None => VNull
  end.

(** The object that represents the record, with its properties in the
    order [addItem] creates them. *)
Definition toValue (it : t) : value :=
  VObj [("id", VStr (id it));
        ("barcode", barcodeValue (barcode it));
        ("stockNumber", VStr (stockNumber it));
        ("supplier", VStr (supplier it));
        ("description", VStr (description it));
        ("costPrice", VNum (Fin (costPrice it)));
        ("sellingPrice", VNum (Fin (sellingPrice it)));
        ("quantity", VNum (Int (quantity it)));
        ("createdAt", VStr (createdAt it));
        ("updatedAt", VStr (updatedAt it))].

Definition withQuantity (it : t) (q : Z) (now : string) : t :=
  mk (id it) (barcode it) (stockNumber it) (supplier it) (description it)
     (costPrice it) (sellingPrice it) q (createdAt it) now.

(** The position of the first record with identifier [i]. *)
Fixpoint indexOf (i : string) (c : list t) : option nat :=
  match c with
  | [] => None
  | it :: c' =>
      if String.eqb (id it) i then Some O
      else match indexOf i c' with
           | Some n => Some (S n)
           | None => None
           end
  end.

Fixpoint replaceAt (n : nat) (it' : t) (c : list t) : list t :=
  match c, n with
  | [], _ => []
  | _ :: c', O => it' :: c'
  | it :: c', S n' => it :: replaceAt n' it' c'
  end.

(** Both prices are decimals in normal form. *)
Definition wf (it : t) : bool :=
  Num.wfFinite (costPrice it) && Num.wfFinite (sellingPrice it).

End Item.

(** A collection of records as the array the slot holds. *)
Definition embed (c : list Item.t) : list value := map Item.toValue c.

(** The primitive values a caller passes: form fields are strings, the
    sale dialog passes a number. *)
Inductive prim : Type :=
| PUndefined
| PNull
| PBool (b : bool)
| PNum (n : number)
| PStr (s : string).

Definition ofPrim (p : prim) : value :=
  match p with
  | PUndefined => VUndefined
  | PNull => VNull
  | PBool b => VBool b
  | PNum n => VNum n
  | PStr s => VStr s
  end.

Definition primToString (p : prim) : string :=
  match p with
  | PUndefined => "undefined"
  | PNull => "null"
  | PBool true => "true"
  | PBool false => "false"
  | PNum n => Num.toString n
  | PStr s => s
  end.

(** The quantity [removeStock] and [addItem] work with:
    [parseInt(quantity) || 0]. *)
Definition parsedQuantity (p : prim) : Z :=
  match JS.orZero (NumParse.parseIntString (primToString p)) with
  | Int z => z
  | _ => 0
  end.

(** The property [k] of a payload given by its fields; [undefined] when
    the payload has no such field. *)
Fixpoint fieldOf (k : string) (fields : list (string * prim)) : prim :=
  match fields with
  | [] => PUndefined
  | (k', p) :: fields' => if String.eqb k' k then p else fieldOf k fields'
  end.

(** The object a caller passes as item data. *)
Definition payload (fields : list (string * prim)) : value :=
  VObj (map (fun kp => (fst kp, ofPrim (snd kp))) fields).

(* ================================================================== *)
(** * The range on which the embedding is exact *)
(* ================================================================== *)

(** The program computes with IEEE doubles, the embedding with exact
  decimals.  Every integer up to [2^53 - 1] in magnitude is a double,
  and a sum, difference or product of two of them that stays in that
  range is computed without rounding.  A decimal of at most 15
  significant digits denotes the double nearest to it: it is what
  [parseFloat] and [JSON.parse] return for its text, and its digits are
  what [Number::toString] and [JSON.stringify] print for that double.
  Outside this range the program rounds (and overflows to [Infinity])
  where the embedding does not. *)
Module Exact.

(** [Number.MAX_SAFE_INTEGER]. *)
Definition MAX_SAFE_INTEGER : Z := 9007199254740991.

(** [Number.isSafeInteger]. *)
Definition integer (z : Z) : bool := Z.abs z <=? MAX_SAFE_INTEGER.

(** A safe integer, or a decimal in normal form with at most 15
    significant digits and at most 300 decimals. *)
Definition decimal (f : finite) : bool :=
  match f with
  | FInt z => integer z
  | FFrac m k =>
      negb (m mod 10 =? 0) && (Z.abs m <? 1000000000000000) && (Z.pos k <=? 300)
  end.

Definition num (n : number) : bool :=
  match n with
  | Fin f => decimal f
  | _ => true
  end.

Fixpoint digits (s : string) : bool :=
  match s with
  | EmptyString => true
  | String c r => Str.isDigit c && digits r
  end.

(** A key made of digits only.  The program lists the keys that are
    array indices before the others, whatever the order of the text. *)
Definition indexKey (k : string) : bool := negb (Str.isEmpty k) && digits k.

(** A decoded value all of whose numbers are in the range and none of
    whose objects has an index key. *)
Fixpoint val (v : value) : bool :=
  match v with
  | VNum n => num n
  | VArr l =>
      (fix all (l : list value) : bool :=
         match l with
         | [] => true
         | x :: l' => val x && all l'
         end) l
  | VObj ps =>
      (fix all (ps : list (string * value)) : bool :=
         match ps with
         | [] => true
         | (k, x) :: ps' => negb (indexKey k) && val x && all ps'
         end) ps
  | _ => true
  end.

(** A record whose quantity and prices are in the range. *)
Definition item (it : Item.t) : bool :=
  integer (Item.quantity it) &&
  decimal (Item.costPrice it) && decimal (Item.sellingPrice it).

Definition items (c : list Item.t) : bool := forallb item c.

(** A primitive a caller passes: a number among them is in the range. *)
Definition given (p : prim) : bool :=
  match p with
  | PNum n => num n
  | _ => true
  end.

(** A quantity argument: what [parseInt] reads in it is in the range. *)
Definition quantity (p : prim) : bool :=
  given p && num (NumParse.parseIntString (primToString p)).

(** A price argument: what [parseFloat] reads in it is in the range. *)
Definition price (p : prim) : bool :=
  given p && num (NumParse.parseFloatString (primToString p)).

End Exact.

(* ================================================================== *)
(** * The specification's reading of the operations *)
(* ================================================================== *)

Module Spec.

(** The outcomes of the stock-removal state machine. *)
Inductive RemoveOutcome : Type :=
| NotFound
| InvalidQuantity
| InsufficientStock (available : Z)
| Success (removed : Z) (updatedItem : Item.t).

(** The state machine as the specification words it, on the parsed
    quantity [q]: the outcome, and the collection to persist if any. *)
Definition removeStock (c : list Item.t) (id : string) (q : Z) (now : string)
  : RemoveOutcome * option (list Item.t) :=
  match Item.indexOf id c with
  | None => (NotFound, None)
  | Some n =>
      match nth_error c n with
      | None => (NotFound, None)
      | Some it =>
          if q <=? 0 then (InvalidQuantity, None)
          else if Item.quantity it <? q then (InsufficientStock (Item.quantity it), None)
          else
            let it' := Item.withQuantity it (Item.quantity it - q) now in
            (Success q it', Some (Item.replaceAt n it' c))
      end
  end.

(** The result object that stands for an outcome. *)
Definition render (o : RemoveOutcome) : value :=
  match o with
  | NotFound =>
      VObj [("success", VBool false); ("error", VStr "Item not found")]
  | InvalidQuantity =>
      VObj [("success", VBool false); ("error", VStr "Invalid quantity")]
  | InsufficientStock n =>
      VObj [("success", VBool false);
            ("error", VStr ("Not enough stock. Available: " +++ Num.toString (Int n)))]
  | Success r it =>
      VObj [("success", VBool true); ("item", Item.toValue it);
            ("removed", VNum (Int r))]
  end.

(** [field] contains [query] as a case-insensitive substring. *)
Definition contains (field query : string) : bool :=
  Str.includes (Str.toLowerCase field) (Str.toLowerCase query).

(** The search predicate: some text field of the record contains the
    query; a record without barcode is judged on the other fields. *)
Definition matchesQuery (query : string) (it : Item.t) : bool :=
  contains (Item.description it) query ||
  contains (Item.stockNumber it) query ||
  contains (Item.supplier it) query ||
  match Item.barcode it with
  | Some b => contains b query
  | None => false
  end.

(** The query is empty or consists of white space only. *)
Definition blank (query : string) : bool := Str.isEmpty (Str.trim query).


(** Search on the query with its surrounding white space removed. *)
Definition searchTrimmed (c : list Item.t) (query : string) : list Item.t :=
  if blank query then [] else filter (matchesQuery (Str.trim query)) c.

Definition hasBarcode (code : string) (it : Item.t) : bool :=
  match Item.barcode it with
  | Some b => String.eqb b code
  | None => false
  end.


(** A text field is overlaid when the payload has a truthy value for
    it, and retained otherwise. *)
Definition overlayText (p : prim) (old : value) : value :=
  if JS.truthy (ofPrim p) then ofPrim p else old.

(** A numeric field is overlaid with the parsed payload value whenever
    the payload has the field. *)
Definition overlayNumber (parse : string -> number) (p : prim) (old : value) : value :=
  match p with
  | PUndefined => old
  | _ => VNum (parse (primToString p))
  end.

(** The record [it] after an update with the payload [fields]. *)
Definition updated (it : Item.t) (fields : list (string * prim)) (now : string) : value :=
  VObj [("id", VStr (Item.id it));
        ("barcode", overlayText (fieldOf "barcode" fields)
                      (Item.barcodeValue (Item.barcode it)));
        ("stockNumber", overlayText (fieldOf "stockNumber" fields)
                          (VStr (Item.stockNumber it)));
        ("supplier", overlayText (fieldOf "supplier" fields) (VStr (Item.supplier it)));
        ("description", overlayText (fieldOf "description" fields)
                          (VStr (Item.description it)));
        ("costPrice", overlayNumber NumParse.parseFloatString
                        (fieldOf "costPrice" fields) (VNum (Fin (Item.costPrice it))));
        ("sellingPrice", overlayNumber NumParse.parseFloatString
                           (fieldOf "sellingPrice" fields)
                           (VNum (Fin (Item.sellingPrice it))));
        ("quantity", overlayNumber NumParse.parseIntString
                       (fieldOf "quantity" fields) (VNum (Int (Item.quantity it))));
        ("createdAt", VStr (Item.createdAt it));
        ("updatedAt", VStr now)].

(** The overlay on a record, for a payload as a form gives it: a text
    field is a string or missing, and a number that is supplied is read
    to a number of the exact range.  A missing or empty text retains the
    old one. *)
Definition newText (p : prim) (old : string) : option string :=
  match p with
  | PUndefined | PNull => Some old
  | PStr s => Some (if Str.isEmpty s then old else s)
  | _ => None
  end.

Definition newBarcode (p : prim) (old : option string) : option (option string) :=
  match p with
  | PUndefined | PNull => Some old
  | PStr s => Some (if Str.isEmpty s then old else Some s)
  | _ => None
  end.

(** A price that is supplied replaces the old one by what [parseFloat]
    reads in it. *)
Definition newPrice (p : prim) (old : finite) : option finite :=
  match p with
  | PUndefined => Some old
  | _ =>
      if Exact.price p then
        match NumParse.parseFloatString (primToString p) with
        | Fin f => Some f
        | _ => None
        end
      else None
  end.

(** A quantity that is supplied replaces the old one by what [parseInt]
    reads in it. *)
Definition newQuantity (p : prim) (old : Z) : option Z :=
  match p with
  | PUndefined => Some old
  | _ =>
      if Exact.quantity p then
        match NumParse.parseIntString (primToString p) with
        | Int z => Some z
        | _ => None
        end
      else None
  end.

(** The record [it] after an update with such a payload: [id] and
    [createdAt] are kept, [updatedAt] is the clock reading. *)
Definition updatedItem (it : Item.t) (fields : list (string * prim)) (now : string)
  : option Item.t :=
  match newBarcode (fieldOf "barcode" fields) (Item.barcode it),
        newText (fieldOf "stockNumber" fields) (Item.stockNumber it),
        newText (fieldOf "supplier" fields) (Item.supplier it),
        newText (fieldOf "description" fields) (Item.description it),
        newPrice (fieldOf "costPrice" fields) (Item.costPrice it),
        newPrice (fieldOf "sellingPrice" fields) (Item.sellingPrice it),
        newQuantity (fieldOf "quantity" fields) (Item.quantity it) with
  | Some b, Some sn, Some su, Some d, Some cp, Some sp, Some q =>
      Some (Item.mk (Item.id it) b sn su d cp sp q (Item.createdAt it) now)
  | _, _, _, _, _, _, _ => None
  end.

(** The invariant on quantities. *)
Definition nonNegative (c : list Item.t) : Prop :=
  Forall (fun it => 0 <= Item.quantity it) c.

(** The records [delete] keeps. *)
Definition keepOthers (i : string) (it : Item.t) : bool :=
  negb (String.eqb (Item.id it) i).

End Spec.

(** The slot after an operation that persists [w], if anything. *)
Definition persisted (st : Storage.Store) (w : option (list Item.t)) : Storage.Store :=
  match w with
  | None => st
  | Some c' => Storage.saveAllItems (VArr (embed c'))
  end.

(* ================================================================== *)
(** * Example data *)
(* ================================================================== *)

Module Example.

Definition widget : Item.t :=
  Item.mk "item_1" (Some "123") "SN1" "Acme" "Widget" (FInt 2) (FInt 5) 10
          "2026-01-01T00:00:00.000Z" "2026-01-01T00:00:00.000Z".

Definition gadget : Item.t :=
  Item.mk "item_2" None "SN2" "Bolt & Co" "Blue widget holder" (FFrac 125 1) (FInt 20) 5
          "2026-01-02T00:00:00.000Z" "2026-01-02T00:00:00.000Z".

(** A store that holds the two records. *)
Definition store : Storage.Store :=
  Storage.saveAllItems (VArr (embed [widget; gadget])).

Definition now : string := "2026-11-02T09:30:00.000Z".

(** JSON text written with apostrophes in place of double quotes. *)
Fixpoint json (s : string) : string :=
  match s with
  | EmptyString => EmptyString
  | String c r => String (if Ascii.eqb c "'" then JSON.dquote else c) (json r)
  end.

(** A record whose time stamps are later than [now]. *)
Definition crate : Item.t :=
  Item.mk "item_9" None "SN9" "Acme" "Crate" (FInt 1) (FInt 2) 10
          "2030-01-01T00:00:00.000Z" "2030-01-01T00:00:00.000Z".

(** An import payload that holds it. *)
Definition crateText : string :=
  json "[{'id':'item_9','barcode':null,'stockNumber':'SN9','supplier':'Acme','description':'Crate','costPrice':1,'sellingPrice':2,'quantity':10,'createdAt':'2030-01-01T00:00:00.000Z','updatedAt':'2030-01-01T00:00:00.000Z'}]".

(** The store after that import. *)
Definition crateStore : Storage.Store :=
  snd (Storage.importData None crateText).

(** The form data of a new item whose quantity is given as [-5]. *)
Definition nails : list (string * prim) :=
  [("stockNumber", PStr "SN7"); ("supplier", PStr "Acme");
   ("description", PStr "Nails"); ("costPrice", PStr "1");
   ("sellingPrice", PStr "2"); ("quantity", PStr "-5")].


End Example.

(* ================================================================== *)
(** * Further operators of the language *)
(* ================================================================== *)

(** The operators the statistics, the style classes and the sale
    dialog use: [+], [*], [<], [>], [<=], [Array.prototype.reduce] and
    the spread of an iterable. *)
Module Ops.

Definition finAdd (a b : finite) : finite :=
  match a, b with
  | FInt x, FInt y => FInt (x + y)
  | _, _ => let '(x, y, K) := Num.align a b in Num.normFrac (x + y) K
  end.

Definition finMul (a b : finite) : finite :=
  match a, b with
  | FInt x, FInt y => FInt (x * y)
  | _, _ =>
      let '(m1, k1) := Num.toPair a in
      let '(m2, k2) := Num.toPair b in
      Num.normFrac (m1 * m2) (k1 + k2)
  end.

Definition finNegative (f : finite) : bool :=
  match f with FInt z => z <? 0 | FFrac m _ => m <? 0 end.

(** [x + y] on numbers, without rounding: the program's sum wherever
    that one needs none, as for safe integers whose sum is safe. *)
Definition numAdd (x y : number) : number :=
  match x, y with
  | NaN, _ | _, NaN => NaN
  | Inf a, Inf b => if Bool.eqb a b then Inf a else NaN
  | Inf a, Fin _ => Inf a
  | Fin _, Inf b => Inf b
  | Fin a, Fin b => Fin (finAdd a b)
  end.

(** [x * y] on numbers, without rounding: the program's product
    wherever that one needs none, as for safe integers whose product is
    safe. *)
Definition numMul (x y : number) : number :=
  match x, y with
  | NaN, _ | _, NaN => NaN
  | Inf a, Inf b => Inf (xorb a b)
  | Inf a, Fin f | Fin f, Inf a =>
      if Num.finIsZero f then NaN else Inf (xorb a (finNegative f))
  | Fin a, Fin b => Fin (finMul a b)
  end.

(** [ToPrimitive]: an array or a plain object gives its string. *)
Definition toPrimitive (v : value) : result value :=
  match v with
  | VArr _ | VObj _ => do s <- JS.toString v; Ok (VStr s)
  | _ => Ok v
  end.

(** [a + b]: concatenation as soon as one operand is a string after
    [ToPrimitive], addition of numbers otherwise. *)
Definition add (a b : value) : result value :=
  do pa <- toPrimitive a;
  do pb <- toPrimitive b;
  match pa, pb with
  | VStr _, _ | _, VStr _ =>
      do sa <- JS.toString pa;
      do sb <- JS.toString pb;
      Ok (VStr (sa +++ sb))
  | _, _ =>
      do x <- JS.toNumber pa;
      do y <- JS.toNumber pb;
      Ok (VNum (numAdd x y))
  end.

(** [a * b]. *)
Definition mul (a b : value) : result number :=
  do x <- JS.toNumber a;
  do y <- JS.toNumber b;
  Ok (numMul x y).

(** [IsLessThan] on primitives: [None] stands for [undefined], the
    answer when an operand is [NaN]. *)
Definition isLessThan (pa pb : value) : result (option bool) :=
  match pa, pb with
  | VStr x, VStr y => Ok (Some (String.ltb x y))
  | _, _ =>
      do x <- JS.toNumber pa;
      do y <- JS.toNumber pb;
      Ok (match x, y with
          | NaN, _ | _, NaN => None
          | _, _ => Some (Num.ltb x y)
          end)
  end.

(** [a < b]. *)
Definition lt (a b : value) : result bool :=
  do pa <- toPrimitive a;
  do pb <- toPrimitive b;
  do r <- isLessThan pa pb;
  Ok (match r with Some true => true | _ => false end).

(** [a > b]. *)
Definition gt (a b : value) : result bool :=
  do pa <- toPrimitive a;
  do pb <- toPrimitive b;
  do r <- isLessThan pb pa;
  Ok (match r with Some true => true | _ => false end).

(** [a <= b]. *)
Definition le (a b : value) : result bool :=
  do pa <- toPrimitive a;
  do pb <- toPrimitive b;
  do r <- isLessThan pb pa;
  Ok (match r with Some false => true | _ => false end).

(** [items.reduce(f, init)]. *)
Fixpoint reduce (f : value -> value -> result value) (l : list value) (acc : value)
  : result value :=
  match l with
  | [] => Ok acc
  | x :: l' => do acc' <- f acc x; reduce f l' acc'
  end.

(** [[...v]]: the elements of an array, the characters of a string;
    nothing else is iterable. *)
Definition spread (v : value) : result (list value) :=
  match v with
  | VArr l => Ok l
  | VStr s => Ok (JS.chars s)
  | _ => Throw TypeError
  end.

(** [items.length] of an array. *)
Definition length (l : list value) : value := VNum (Int (Z.of_nat (List.length l))).

End Ops.

(* ================================================================== *)
(** * Inventory statistics *)
(* ================================================================== *)

Module Stats.

(** The callback [(sum, item) => sum + item.quantity]. *)
Definition plusQuantity (sum item : value) : result value :=
  do q <- JS.Get item "quantity";
  Ops.add sum q.

(** The callback [(sum, item) => sum + (item.costPrice * item.quantity)]. *)
Definition plusValue (sum item : value) : result value :=
  do cp <- JS.Get item "costPrice";
  do q <- JS.Get item "quantity";
  do v <- Ops.mul cp q;
  Ops.add sum (VNum v).

(** The callback [item => item.quantity > 0 && item.quantity <= 5]. *)
Definition isLowStock (item : value) : result bool :=
  do q <- JS.Get item "quantity";
  do positive <- Ops.gt q (VNum (Int 0));
  if positive then
    do q' <- JS.Get item "quantity";
    Ops.le q' (VNum (Int 5))
  else Ok false.

(** The callback [item => item.quantity === 0]. *)
Definition isOutOfStock (item : value) : result bool :=
  do q <- JS.Get item "quantity";
  Ok (JS.strictEq q (VNum (Int 0))).

(** [getStats] of the storage module. *)
Definition getStats (st : Storage.Store) : Storage.Promise value :=
  (do items <- Arr.asArray (Storage.getAllItems st);
   do totalStock <- Ops.reduce plusQuantity items (VNum (Int 0));
   do totalValue <- Ops.reduce plusValue items (VNum (Int 0));
   do low <- Arr.filter isLowStock items;
   do out <- Arr.filter isOutOfStock items;
   Ok (VObj [("totalItems", Ops.length items);
             ("totalStock", totalStock);
             ("totalValue", totalValue);
             ("lowStockItems", Ops.length low);
             ("outOfStockItems", Ops.length out)]),
   st).

End Stats.

(* ================================================================== *)
(** * User interface helpers *)
(* ================================================================== *)

Module UI.

(** What [showToast(message, type)] displays. *)
Record Toast : Type := showToast { message : value; type : string }.


(** The [value]s of the inputs of the item form, by element:
    [item-id], [item-barcode], [item-stock-number], [item-supplier],
    [item-description], [item-cost-price], [item-selling-price] and
    [item-quantity]. *)
Record Form : Type := mkForm {
  itemId : string;
  itemBarcode : string;
  itemStockNumber : string;
  itemSupplier : string;
  itemDescription : string;
  itemCostPrice : string;
  itemSellingPrice : string;
  itemQuantity : string
}.

(** [getFormData]: the object read off the form. *)
Definition getFormData (f : Form) : value :=
  VObj [("id", JS.or (VStr (itemId f)) VNull);
        ("barcode", JS.or (VStr (Str.trim (itemBarcode f))) VNull);
        ("stockNumber", VStr (Str.trim (itemStockNumber f)));
        ("supplier", VStr (Str.trim (itemSupplier f)));
        ("description", VStr (Str.trim (itemDescription f)));
        ("costPrice", VStr (itemCostPrice f));
        ("sellingPrice", VStr (itemSellingPrice f));
        ("quantity", VStr (itemQuantity f))].

End UI.

(* ================================================================== *)
(** * Form handlers of the application controller *)
(* ================================================================== *)

Module Forms.

(** [saveItem]: the toast it shows and the slot afterwards.  [newId]
    is what [generateId()] would return, [t1] and [t2] are successive
    readings of the clock. *)
Definition saveItem (st : Storage.Store) (form : UI.Form) (newId t1 t2 : string)
  : UI.Toast * Storage.Store :=
  let formData := UI.getFormData form in
  let incomplete :=
    do sn <- JS.Get formData "stockNumber";
    if negb (JS.truthy sn) then Ok true else
    do su <- JS.Get formData "supplier";
    if negb (JS.truthy su) then Ok true else
    do d <- JS.Get formData "description";
    Ok (negb (JS.truthy d)) in
  let failed := UI.showToast (VStr "Failed to save item") "error" in
  match incomplete with
  | Throw _ => (failed, st)
  | Ok true => (UI.showToast (VStr "Please fill in all required fields") "error", st)
  | Ok false =>
      match JS.Get formData "id" with
      | Throw _ => (failed, st)
      | Ok id =>
          let isUpdate := JS.truthy id in
          let operation :=
            if isUpdate then Storage.updateItem st formData t1
            else Storage.addItem st formData newId t1 t2 in
          match operation with
          | (Ok _, st') =>
              (UI.showToast (VStr (if isUpdate then "Item updated!" else "Item added!"))
                            "success", st')
          | (Throw _, st') => (failed, st')
          end
      end
  end.

(** [processSale]: [itemId] and [quantity] are the [value]s of the
    inputs [sell-item-id] and [sell-quantity]. *)
Definition processSale (st : Storage.Store) (itemId quantity : string) (now : string)
  : UI.Toast * Storage.Store :=
  let quantity := NumParse.parseIntString quantity in
  if negb (Num.truthy quantity) || Num.ltb quantity (Int 1)
  then (UI.showToast (VStr "Please enter a valid quantity") "error", st)
  else
    let '(r, st') := Storage.removeStock st (VStr itemId) (VNum quantity) now in
    let shown :=
      do result <- r;
      do success <- JS.Get result "success";
      if JS.truthy success then
        do removed <- JS.Get result "removed";
        do removedText <- JS.toString removed;
        do item <- JS.Get result "item";
        do stock <- JS.Get item "quantity";
        do stockText <- JS.toString stock;
        Ok (UI.showToast
              (VStr ("Removed " +++ removedText +++ " unit(s). New stock: " +++ stockText))
              "success")
      else
        do error <- JS.Get result "error";
        Ok (UI.showToast error "error") in
    match shown with
    | Ok toast => (toast, st')
    | Throw _ => (UI.showToast (VStr "Failed to process sale") "error", st')
    end.

(** The click handler of [manual-lookup-btn]: [text] is the [value] of
    the input [manual-barcode]. *)
Definition manualLookup (st : Storage.Store) (text : string) : UI.Toast + App.Outcome :=
  let barcode := Str.trim text in
  if JS.truthy (VStr barcode) then inr (App.handleBarcodeDetected st (VStr barcode))
  else inl (UI.showToast (VStr "Please enter a barcode") "warning").

End Forms.

(* ================================================================== *)
(** * The further operations on collections of records *)
(* ================================================================== *)

(** What the lookups, the statistics and the form handlers compute when
    the slot holds a collection of records; the theorems relate the
    operations above to these readings. *)
Module Records.

Definition hasId (i : string) (it : Item.t) : bool := String.eqb (Item.id it) i.

(** The price [addItem] stores for a payload field:
    [parseFloat(x) || 0], when the field is read to a finite number of
    the exact range. *)
Definition priceOf (p : prim) : option finite :=
  if Exact.price p then
    match JS.orZero (NumParse.parseFloatString (primToString p)) with
    | Fin f => Some f
    | _ => None
    end
  else None.

(** The quantity [addItem] stores for a payload field:
    [parseInt(x) || 0], when the field is read to a number of the exact
    range. *)
Definition quantityOf (p : prim) : option Z :=
  if Exact.quantity p then Some (parsedQuantity p) else None.

(** The barcode [addItem] stores for a payload field, [x || null],
    when that is a string or [null]. *)
Definition barcodeOf (p : prim) : option (option string) :=
  if JS.truthy (ofPrim p) then
    match p with
    | PStr s => Some (Some s)
    | _ => None
    end
  else Some None.

(** The record [addItem] creates from a payload whose text fields are
    strings and whose prices and quantity are read within the exact
    range. *)
Definition created (fields : list (string * prim)) (newId t1 t2 : string)
  : option Item.t :=
  match fieldOf "stockNumber" fields, fieldOf "supplier" fields,
        fieldOf "description" fields, barcodeOf (fieldOf "barcode" fields),
        priceOf (fieldOf "costPrice" fields), priceOf (fieldOf "sellingPrice" fields),
        quantityOf (fieldOf "quantity" fields) with
  | PStr sn, PStr su, PStr d, Some b, Some cp, Some sp, Some q =>
      Some (Item.mk newId b sn su d cp sp q t1 t2)
  | _, _, _, _, _, _, _ => None
  end.

Definition totalStock (c : list Item.t) : Z :=
  fold_left (fun sum it => sum + Item.quantity it) c 0.

Definition isLowStock (it : Item.t) : bool :=
  (0 <? Item.quantity it) && (Item.quantity it <=? 5).

Definition isOutOfStock (it : Item.t) : bool := Item.quantity it =? 0.

Definition count (p : Item.t -> bool) (c : list Item.t) : Z :=
  Z.of_nat (List.length (filter p c)).

(** The cost price is a whole number of currency units. *)
Definition wholePrice (it : Item.t) : bool :=
  match Item.costPrice it with FInt _ => true | FFrac _ _ => false end.

Definition stockValue (it : Item.t) : Z :=
  match Item.costPrice it with
  | FInt z => z * Item.quantity it
  | FFrac _ _ => 0
  end.

Definition totalValue (c : list Item.t) : Z :=
  fold_left (fun sum it => sum + stockValue it) c 0.

(** The sums of the magnitudes of the quantities and of the stock
    values: every partial sum of [totalStock] and of [totalValue], and
    every product in the latter, lies within them. *)
Definition stockMagnitude (c : list Item.t) : Z :=
  fold_left (fun sum it => sum + Z.abs (Item.quantity it)) c 0.

Definition valueMagnitude (c : list Item.t) : Z :=
  fold_left (fun sum it => sum + Z.abs (stockValue it)) c 0.


(** The fields [getFormData] reads off a form. *)
Definition formFields (f : UI.Form) : list (string * prim) :=
  [("id", if Str.isEmpty (UI.itemId f) then PNull else PStr (UI.itemId f));
   ("barcode", if Str.isEmpty (Str.trim (UI.itemBarcode f)) then PNull
               else PStr (Str.trim (UI.itemBarcode f)));
   ("stockNumber", PStr (Str.trim (UI.itemStockNumber f)));
   ("supplier", PStr (Str.trim (UI.itemSupplier f)));
   ("description", PStr (Str.trim (UI.itemDescription f)));
   ("costPrice", PStr (UI.itemCostPrice f));
   ("sellingPrice", PStr (UI.itemSellingPrice f));
   ("quantity", PStr (UI.itemQuantity f))].

(** The form has its three required fields. *)
Definition complete (f : UI.Form) : bool :=
  negb (Str.isEmpty (Str.trim (UI.itemStockNumber f))) &&
  negb (Str.isEmpty (Str.trim (UI.itemSupplier f))) &&
  negb (Str.isEmpty (Str.trim (UI.itemDescription f))).

End Records.

(* ================================================================== *)
(** * The storage module backed by a remote document *)
(* ================================================================== *)

(** The second [Storage] module keeps the collection in a file of a
    GitHub gist.  Its state is the two entries of [sessionStorage] and
    the two cache variables of the module; the network is a parameter:
    [fetch] answers a request in a world [World], which it may change.
    An operation is followed from its call to the settling of its
    promise, without other operations in between.  The properties read
    here ([message], [files], the file name, [content], [id]) are, as
    those of [JS.Get], neither inherited nor array indices. *)
Module Gist.

Definition GIST_FILENAME : string := "stock_manager_inventory.json".
Definition CACHE_DURATION : Z := 30000.

Record State : Type := mkState {
  token : option string;
  gistId : option string;
  itemsCache : value;
  cacheTimestamp : option Z
}.

(** What [fetch] is called with: the method, the endpoint below the
    base address of the API, the [Authorization] header and the body. *)
Record Request : Type := mkRequest {
  method : string;
  endpoint : string;
  authorization : string;
  body : option string
}.

(** What [fetch] resolves to: [ok], [status], and what [json()]
    settles to. *)
Record Response : Type := mkResponse {
  ok : bool;
  status : Z;
  json : result value
}.

(** A truthy entry of [sessionStorage]. *)
Definition present (entry : option string) : option string :=
  match entry with
  | Some s => if Str.isEmpty s then None else Some s
  | None => None
  end.

Definition isAuthenticated (s : State) : bool :=
  match present (token s), present (gistId s) with
  | Some _, Some _ => true
  | _, _ => false
  end.

Definition logout (s : State) : State := mkState None None VNull None.

(** The body [saveAllItems] and [authenticate] send: the file with the
    text of [items]. *)
Definition fileBody (items : value) : option string :=
  match JSON.stringify items 2 with
  | Some text =>
      JSON.stringify (VObj [("files", VObj [(GIST_FILENAME, VObj [("content", VStr text)])])]) 0
  | None =>
      JSON.stringify (VObj [("files", VObj [(GIST_FILENAME, VObj [])])]) 0
  end.

(** The parts of the operations between reading and saving the items;
    they are those of the module backed by [localStorage]. *)
Definition removeStockBody (items : list value) (id quantity : value) (now : string)
  : result (value * option (list value)) :=
  do found <- Arr.findIndex (Storage.hasId id) items;
  match found with
  | None => Ok (Storage.failure "Item not found", None)
  | Some index =>
      let item := nth index items VUndefined in
      do removeQty <- Storage.parseIntOr0 quantity;
      if Num.leb removeQty (Int 0) then Ok (Storage.failure "Invalid quantity", None)
      else
        do q <- JS.Get item "quantity";
        do have <- JS.toNumber q;
        if Num.ltb have removeQty then
          do shown <- JS.toString q;
          Ok (Storage.failure ("Not enough stock. Available: " +++ shown), None)
        else
          let updated :=
            VObj (JS.extend (JS.ownProps item)
                    [("quantity", VNum (Num.sub have removeQty));
                     ("updatedAt", VStr now)]) in
          Ok (Storage.success updated removeQty,
              Some (Arr.setAt index updated items))
  end.

Section Network.

Variable World : Type.
Variable fetch : Request -> World -> result Response * World.

(** [githubRequest]: the response when it is [ok]. *)
Definition githubRequest (s : State) (w : World) (method endpoint : string)
                         (body : option string) : result Response * World :=
  match present (token s) with
  | None => (Throw (Error "Not authenticated"), w)
  | Some t =>
      match fetch (mkRequest method endpoint ("Bearer " +++ t) body) w with
      | (Throw e, w') => (Throw e, w')
      | (Ok response, w') =>
          if ok response then (Ok response, w')
          else
            let error := match json response with
                         | Ok v => v
                         | Throw _ => VObj []
                         end in
            (do m <- JS.Get error "message";
             if JS.truthy m then do text <- JS.toString m; Throw (Error text)
             else Throw (Error ("GitHub API error: " +++ Num.toString (Int (status response)))),
             w')
      end
  end.

(** The condition under which [getAllItems] answers from the cache;
    [now] is the reading of the clock. *)
Definition cacheFresh (s : State) (forceRefresh : bool) (now : Z) : bool :=
  negb forceRefresh && JS.truthy (itemsCache s) &&
  match cacheTimestamp s with
  | Some ts => negb (ts =? 0) && (now - ts <? CACHE_DURATION)
  | None => false
  end.

(** The items decoded from the document [data] of the gist. *)
Definition decodeItems (data : value) : result value :=
  do files <- JS.Get data "files";
  do file <- JS.Get files GIST_FILENAME;
  do fileContent <- match file with
                    | VUndefined | VNull => Ok VUndefined
                    | _ => JS.Get file "content"
                    end;
  if JS.truthy fileContent then
    do text <- JS.toString fileContent;
    match JSON.parse text with
    | Some items => Ok items
    | None => Throw SyntaxError
    end
  else Ok (VArr []).

(** [getAllItems(forceRefresh)]; [t0] and [t1] are the readings of the
    clock at the test of the cache and after the download. *)
Definition getAllItems (s : State) (w : World) (forceRefresh : bool) (t0 t1 : Z)
  : result (list value) * State * World :=
  if cacheFresh s forceRefresh t0 then (Ops.spread (itemsCache s), s, w)
  else
    let '(r, s', w') :=
      match present (gistId s) with
      | None => (Throw (Error "Not authenticated"), s, w)
      | Some g =>
          match githubRequest s w "GET" ("/gists/" +++ g) None with
          | (Throw e, w') => (Throw e, s, w')
          | (Ok response, w') =>
              match (do data <- json response; decodeItems data) with
              | Throw e => (Throw e, s, w')
              | Ok items =>
                  (Ops.spread items,
                   mkState (token s) (gistId s) items (Some t1), w')
              end
          end
      end in
    match r with
    | Ok items => (Ok items, s', w')
    | Throw e =>
        if JS.truthy (itemsCache s') then (Ops.spread (itemsCache s'), s', w')
        else (Throw e, s', w')
    end.

(** [saveAllItems(items)]; [t] is the reading of the clock after the
    upload. *)
Definition saveAllItems (s : State) (w : World) (items : list value) (t : Z)
  : result unit * State * World :=
  match present (gistId s) with
  | None => (Throw (Error "Not authenticated"), s, w)
  | Some g =>
      match githubRequest s w "PATCH" ("/gists/" +++ g) (fileBody (VArr items)) with
      | (Throw e, w') => (Throw e, s, w')
      | (Ok _, w') => (Ok tt, mkState (token s) (gistId s) (VArr items) (Some t), w')
      end
  end.

Definition getItemById (s : State) (w : World) (id : value) (t0 t1 : Z)
  : result value * State * World :=
  match getAllItems s w false t0 t1 with
  | (Throw e, s', w') => (Throw e, s', w')
  | (Ok items, s', w') =>
      (do found <- Arr.find (Storage.hasId id) items; Ok (JS.or found VNull), s', w')
  end.

(** [removeStock(id, quantity)]; [t1] and [t2] are the readings of the
    clock after the download and after the upload, [now] is
    [new Date().toISOString()]. *)
Definition removeStock (s : State) (w : World) (id quantity : value)
                       (t1 t2 : Z) (now : string)
  : result value * State * World :=
  match getAllItems s w true t1 t1 with
  | (Throw e, s1, w1) => (Throw e, s1, w1)
  | (Ok items, s1, w1) =>
      match removeStockBody items id quantity now with
      | Throw e => (Throw e, s1, w1)
      | Ok (res, None) => (Ok res, s1, w1)
      | Ok (res, Some items') =>
          match saveAllItems s1 w1 items' t2 with
          | (Throw e, s2, w2) => (Throw e, s2, w2)
          | (Ok _, s2, w2) => (Ok res, s2, w2)
          end
      end
  end.

Definition clearAll (s : State) (w : World) (t : Z) : result unit * State * World :=
  saveAllItems s w [] t.

Definition exportData (s : State) (w : World) (t0 t1 : Z)
  : result (option string) * State * World :=
  match getAllItems s w false t0 t1 with
  | (Throw e, s', w') => (Throw e, s', w')
  | (Ok items, s', w') => (Ok (JSON.stringify (VArr items) 2), s', w')
  end.

Definition importData (s : State) (w : World) (jsonString : string) (t : Z)
  : result nat * State * World :=
  match JSON.parse jsonString with
  | None => (Throw SyntaxError, s, w)
  | Some (VArr items) =>
      match saveAllItems s w items t with
      | (Throw e, s', w') => (Throw e, s', w')
      | (Ok _, s', w') => (Ok (List.length items), s', w')
      end
  | Some _ => (Throw (Error "Invalid data format"), s, w)
  end.

(** [createGist]: the identifier of the new gist. *)
Definition createGist (s : State) (w : World) : result value * World :=
  let body :=
    match JSON.stringify (VArr []) 2 with
    | Some text =>
        JSON.stringify
          (VObj [("description", VStr "Stock Manager Inventory Data");
                 ("public", VBool false);
                 ("files", VObj [(GIST_FILENAME, VObj [("content", VStr text)])])]) 0
    | None => None
    end in
  match githubRequest s w "POST" "/gists" body with
  | (Throw e, w') => (Throw e, w')
  | (Ok response, w') => (do data <- json response; JS.Get data "id", w')
  end.

(** The check [authenticate] makes of an existing gist: the file is
    added when the gist does not have it; any failure is reported as
    an inaccessible gist. *)
Definition connectGist (s : State) (w : World) (g : string) : result unit * World :=
  let failed := Throw (Error "Could not access the specified Gist. Please check the ID.") in
  match githubRequest s w "GET" ("/gists/" +++ g) None with
  | (Throw _, w1) => (failed, w1)
  | (Ok response, w1) =>
      match (do data <- json response;
             do files <- JS.Get data "files";
             JS.Get files GIST_FILENAME) with
      | Throw _ => (failed, w1)
      | Ok file =>
          if JS.truthy file then (Ok tt, w1)
          else
            match githubRequest s w1 "PATCH" ("/gists/" +++ g) (fileBody (VArr [])) with
            | (Throw _, w2) => (failed, w2)
            | (Ok _, w2) => (Ok tt, w2)
            end
      end
  end.

(** [authenticate(token, existingGistId)]. *)
Definition authenticate (s : State) (w : World) (newToken : string)
                        (existingGistId : option string)
  : result value * State * World :=
  let s0 := mkState (Some newToken) (gistId s) (itemsCache s) (cacheTimestamp s) in
  let '(r, w') :=
    match githubRequest s0 w "GET" "/user" None with
    | (Throw e, w1) => (Throw e, w1)
    | (Ok _, w1) =>
        match present existingGistId with
        | Some g =>
            match connectGist s0 w1 g with
            | (Throw e, w2) => (Throw e, w2)
            | (Ok _, w2) => (Ok (VStr g), w2)
            end
        | None => createGist s0 w1
        end
    end in
  match (do g <- r; do text <- JS.toString g; Ok (g, text)) with
  | Ok (g, text) =>
      (Ok (VObj [("success", VBool true); ("gistId", g)]),
       mkState (Some newToken) (Some text) (itemsCache s) (cacheTimestamp s), w')
  | Throw e => (Throw e, logout s0, w')
  end.

End Network.

End Gist.

(* ================================================================== *)
(** * Example data: a server with one gist *)
(* ================================================================== *)

Module Server.

(** The world of the example: whether the network is up, and the
    content of the inventory file of the gist ["g1"], if it has one. *)
Record World : Type := mkWorld {
  online : bool;
  content : option string
}.

Definition answer (v : value) : Gist.Response := Gist.mkResponse true 200 (Ok v).

Definition refuse (status : Z) (message : string) : Gist.Response :=
  Gist.mkResponse false status (Ok (VObj [("message", VStr message)])).

(** The document of the gist. *)
Definition document (w : World) : value :=
  VObj [("id", VStr "g1");
        ("files",
         VObj match content w with
              | Some text => [(Gist.GIST_FILENAME, VObj [("content", VStr text)])]
              | None => []
              end)].

(** The content a request body carries for the inventory file. *)
Definition uploaded (body : option string) : option string :=
  match body with
  | Some text =>
      match JSON.parse text with
      | Some data =>
          match (do files <- JS.Get data "files";
                 do file <- JS.Get files Gist.GIST_FILENAME;
                 JS.Get file "content") with
          | Ok (VStr c) => Some c
          | _ => None
          end
      | None => None
      end
  | None => None
  end.

(** The server accepts the token ["secret"]. *)
Definition fetch (req : Gist.Request) (w : World) : result Gist.Response * World :=
  if negb (online w) then (Throw TypeError, w)
  else if negb (String.eqb (Gist.authorization req) "Bearer secret")
  then (Ok (refuse 401 "Bad credentials"), w)
  else if String.eqb (Gist.endpoint req) "/user"
  then (Ok (answer (VObj [("login", VStr "team")])), w)
  else if String.eqb (Gist.endpoint req) "/gists/g1"
  then if String.eqb (Gist.method req) "PATCH"
       then let w' := mkWorld true (match uploaded (Gist.body req) with
                                    | Some c => Some c
                                    | None => content w
                                    end) in
            (Ok (answer (document w')), w')
       else (Ok (answer (document w)), w)
  else if String.eqb (Gist.endpoint req) "/gists"
  then let w' := mkWorld true (uploaded (Gist.body req)) in
       (Ok (answer (document w')), w')
  else (Ok (refuse 404 "Not Found"), w).

(** A session that is logged in and has nothing cached. *)
Definition session : Gist.State := Gist.mkState (Some "secret") (Some "g1") VNull None.

(** A session that cached the two records of [Example.store] at
    time 1000. *)
Definition cached : Gist.State :=
  Gist.mkState (Some "secret") (Some "g1")
               (VArr (embed [Example.widget; Example.gadget])) (Some 1000).

(** The server out of reach. *)
Definition unreachable : World := mkWorld false None.

(** The server holding the two records of [Example.store]. *)
Definition stocked : World :=
  mkWorld true (JSON.stringify (VArr (embed [Example.widget; Example.gadget])) 2).

End Server.

(* ================================================================== *)
(** * The scanner modules *)
(* ================================================================== *)

(** The scanner that decodes the camera stream continuously.  Its
    state is the module's variables that the detection handler reads
    and writes; the camera and the decoder are the environment, which
    says how [start] ends and which texts are detected when.  A call of
    the registered callback is returned as an event, with the text it
    is called with.  The elements of the page the module updates are
    taken to exist. *)
Module Scanner.

Definition DETECTION_COOLDOWN : Z := 2000.

Section Callback.

Variable Callback : Type.

Record State : Type := mkState {
  isRunning : bool;
  onDetectCallback : option Callback;
  lastDetectedCode : option string;
  lastDetectionTime : Z
}.

(** How the start of the decoder ends. *)
Inductive Camera : Type :=
| LibraryMissing
| NoCamera
| CameraFailure
| Streaming.

Definition start (s : State) (onDetect : Callback) (camera : Camera)
  : result unit * State :=
  if isRunning s then (Ok tt, s)
  else
    let s1 := mkState false (Some onDetect) (lastDetectedCode s) (lastDetectionTime s) in
    match camera with
    | LibraryMissing =>
        (Throw (Error "ZXing library not loaded. Please refresh the page."), s1)
    | NoCamera => (Throw (Error "No camera found on this device."), s1)
    | CameraFailure =>
        (Throw (Error "Could not access camera. Please check permissions."), s1)
    | Streaming =>
        (Ok tt, mkState true (Some onDetect) (lastDetectedCode s) (lastDetectionTime s))
    end.

Definition stop (s : State) : State :=
  if negb (isRunning s) then s
  else mkState false None None (lastDetectionTime s).

(** [handleDetection(decodedText)] at the clock reading [now]: the
    state afterwards and the call of the callback, if it is called. *)
Definition handleDetection (s : State) (decodedText : string) (now : Z)
  : State * option (Callback * string) :=
  if Str.isEmpty decodedText then (s, None)
  else if match lastDetectedCode s with
          | Some code => String.eqb decodedText code
          | None => false
          end && (now - lastDetectionTime s <? DETECTION_COOLDOWN)
  then (s, None)
  else
    let s1 := mkState (isRunning s) (onDetectCallback s) (Some decodedText) now in
    let s2 := stop s1 in
    (s2, match onDetectCallback s2 with
         | Some callback => Some (callback, decodedText)
         | None => None
         end).

Definition isActive (s : State) : bool := isRunning s.

(** The scanner runs, or no callback is registered. *)
Definition quiet (s : State) : Prop :=
  isRunning s = true \/ onDetectCallback s = None.

(** What happens to a scanner: a text is detected at some time, or
    [stop] is called. *)
Inductive Event : Type :=
| Detected (decodedText : string) (now : Z)
| Stopped.

(** The calls of the callback over a sequence of events. *)
Fixpoint calls (s : State) (events : list Event) : list (Callback * string) :=
  match events with
  | [] => []
  | Detected text now :: rest =>
      let '(s', call) := handleDetection s text now in
      match call with
      | Some c => c :: calls s' rest
      | None => calls s' rest
      end
  | Stopped :: rest => calls (stop s) rest
  end.

End Callback.

End Scanner.

(** The scanner that decodes a snapshot on request.  Whether a
    decoding engine is present, whether a camera is granted, and what
    the engines decode from the snapshot are the environment's. *)
Module SnapshotScanner.

Section Callback.

Variable Callback : Type.

Record State : Type := mkState {
  isCameraActive : bool;
  videoElement : bool;
  canvasElement : bool;
  onDetectCallback : option Callback
}.

Definition startCamera (s : State) (onDetect : Callback) (engine camera : bool)
  : result unit * State :=
  if isCameraActive s then (Ok tt, s)
  else if negb engine then
    (Throw (Error "Scanner library not loaded and native API not supported. Please use Chrome/Edge or refresh."),
     mkState false (videoElement s) (canvasElement s) (Some onDetect))
  else if camera then (Ok tt, mkState true true true (Some onDetect))
  else (Throw (Error "Could not access camera. Please check permissions."),
        mkState false true true (Some onDetect)).

Definition stopCamera (s : State) : State :=
  mkState false (videoElement s) (canvasElement s) None.

(** [onScanSuccess(decodedText)]. *)
Definition onScanSuccess (s : State) (decodedText : string)
  : State * option (Callback * string) :=
  let s' := stopCamera s in
  (s', match onDetectCallback s' with
       | Some callback => Some (callback, decodedText)
       | None => None
       end).

(** [captureAndScan()]; [decoded] is what the engines read from the
    snapshot, if anything. *)
Definition captureAndScan (s : State) (decoded : option string)
  : result string * State * option (Callback * string) :=
  if negb (isCameraActive s) || negb (videoElement s) || negb (canvasElement s)
  then (Throw (Error "Camera is not active"), s, None)
  else
    match decoded with
    | Some decodedText =>
        let '(s', call) := onScanSuccess s decodedText in
        (Ok decodedText, s', call)
    | None => (Throw (Error "No barcode detected. Try moving closer."), s, None)
    end.

Definition isActive (s : State) : bool := isCameraActive s.

End Callback.

End SnapshotScanner.

(* ================================================================== *)
(** * Proofs *)
(* ================================================================== *)

Ltac Zify.zify_post_hook ::= Z.to_euclidean_division_equations.

(** ** Strings and decimal digits *)

Lemma append_assoc (a b c : string) : (a +++ b) +++ c = a +++ b +++ c.
Proof. induction a; simpl; congruence. Qed.

Lemma append_nil_r (a : string) : a +++ EmptyString = a.
Proof. induction a; simpl; congruence. Qed.

Lemma length_append (a b : string) :
  String.length (a +++ b) = (String.length a + String.length b)%nat.
Proof. induction a; simpl; congruence. Qed.

Lemma code_digitChar d : (d < 10)%N -> Str.code (Str.digitChar d) = (48 + d)%N.
Proof.
  intros H. unfold Str.code, Str.digitChar.
  apply N_ascii_embedding. lia.
Qed.

Lemma isDigit_digitChar d : (d < 10)%N -> Str.isDigit (Str.digitChar d) = true.
Proof.
  intros H. unfold Str.isDigit. rewrite code_digitChar by assumption.
  apply andb_true_intro; split; apply N.leb_le; lia.
Qed.

Lemma digitVal_digitChar d : (d < 10)%N -> Str.digitVal (Str.digitChar d) = d.
Proof.
  intros H. unfold Str.digitVal. rewrite code_digitChar by assumption. lia.
Qed.

(** Scanning the [k] digits printed for [n] continues after them. *)
Lemma scanDigits_printFixed k : forall n acc cnt rest,
  (n < 10 ^ N.of_nat k)%N ->
  Str.scanDigits acc cnt (Str.printFixed k n +++ rest)
  = Str.scanDigits (acc * 10 ^ N.of_nat k + n) (cnt + k) rest.
Proof.
  induction k as [|k IH]; intros n acc cnt rest Hn.
  - simpl in *. replace n with 0%N by lia.
    f_equal; [lia | lia].
  - cbn [Str.printFixed]. rewrite append_assoc. cbn [String.append].
    assert (Hd : (n mod 10 < 10)%N) by (apply N.mod_lt; lia).
    assert (Hq : (n / 10 < 10 ^ N.of_nat k)%N).
    { apply N.Div0.div_lt_upper_bound.
      rewrite Nat2N.inj_succ, N.pow_succ_r' in Hn. lia. }
    rewrite IH by assumption.
    cbn [Str.scanDigits]. rewrite isDigit_digitChar, digitVal_digitChar by assumption.
    f_equal; [| lia].
    rewrite Nat2N.inj_succ, N.pow_succ_r'.
    pose proof (N.div_mod n 10 ltac:(lia)). lia.
Qed.

Lemma ndigitsFuel_spec fuel : forall n,
  (n < 2 ^ N.of_nat fuel)%N ->
  let d := Str.ndigitsFuel fuel n in
  (1 <= d)%nat /\ (n < 10 ^ N.of_nat d)%N /\
  (n = 0%N \/ 10 ^ N.of_nat (d - 1) <= n)%N.
Proof.
  induction fuel as [|f IH]; intros n Hn.
  - change (2 ^ N.of_nat 0)%N with 1%N in Hn.
    assert (n = 0%N) by lia. subst n. cbn. repeat split; try lia.
  - cbn [Str.ndigitsFuel]. destruct (N.ltb_spec n 10) as [Hlt|Hge].
    + simpl. repeat split; try lia. 
    + assert (Hq : (n / 10 < 2 ^ N.of_nat f)%N).
      { apply N.Div0.div_lt_upper_bound.
        rewrite Nat2N.inj_succ, N.pow_succ_r' in Hn. lia. }
      specialize (IH _ Hq). cbv zeta in IH. destruct IH as (H1 & H2 & H3).
      set (d := Str.ndigitsFuel f (n / 10)) in *.
      pose proof (N.div_mod n 10 ltac:(lia)) as Hdm.
      assert (Hm : (n mod 10 < 10)%N) by (apply N.mod_lt; lia).
      cbv zeta. repeat split; try lia.
      * rewrite Nat2N.inj_succ, N.pow_succ_r'. lia.
      * right. replace (S d - 1)%nat with (S (d - 1)) by lia.
        rewrite Nat2N.inj_succ, N.pow_succ_r'.
        destruct H3 as [H3|H3];
          [| lia].
        assert (1 <= n / 10)%N.
        { apply N.div_le_lower_bound; lia. } lia.
Qed.

Lemma ndigits_spec n :
  (1 <= Str.ndigits n)%nat /\ (n < 10 ^ N.of_nat (Str.ndigits n))%N /\
  (n = 0%N \/ 10 ^ N.of_nat (Str.ndigits n - 1) <= n)%N.
Proof.
  apply ndigitsFuel_spec. rewrite N2Nat.id. apply N.size_gt.
Qed.

(** Digit counts are determined by the decade the number lies in. *)
Lemma ndigits_unique n d :
  (1 <= d)%nat -> (10 ^ N.of_nat (d - 1) <= n)%N -> (n < 10 ^ N.of_nat d)%N ->
  Str.ndigits n = d.
Proof.
  intros Hd Hlo Hhi.
  destruct (ndigits_spec n) as (H1 & H2 & H3).
  assert (Hn : n <> 0%N).
  { intros ->. assert (0 < 10 ^ N.of_nat (d - 1))%N by (apply N.neq_0_lt_0, N.pow_nonzero; lia). lia. }
  destruct H3 as [H3|H3]; [contradiction|].
  set (e := Str.ndigits n) in *.
  destruct (Nat.lt_trichotomy e d) as [Hlt|[Heq|Hgt]]; [exfalso| exact Heq | exfalso].
  - assert (10 ^ N.of_nat e <= 10 ^ N.of_nat (d - 1))%N by (apply N.pow_le_mono_r; lia). lia.
  - assert (10 ^ N.of_nat d <= 10 ^ N.of_nat (e - 1))%N by (apply N.pow_le_mono_r; lia). lia.
Qed.

Lemma scanDigits_printNat n acc cnt rest :
  Str.scanDigits acc cnt (Str.printNat n +++ rest)
  = Str.scanDigits (acc * 10 ^ N.of_nat (Str.ndigits n) + n) (cnt + Str.ndigits n) rest.
Proof.
  unfold Str.printNat. apply scanDigits_printFixed. apply ndigits_spec.
Qed.

Lemma scanDigits_stop acc cnt s : noDigit s -> Str.scanDigits acc cnt s = (acc, cnt, s).
Proof. destruct s; simpl; intros H; [reflexivity | rewrite H; reflexivity]. Qed.

Lemma mod_mul10_div p n : (0 < p)%N ->
  ((n mod (10 * p)) / 10 = (n / 10) mod p)%N.
Proof.
  intros Hp. rewrite N.Div0.mod_mul_r.
  rewrite N.add_comm, N.mul_comm, N.div_add_l by lia.
  rewrite (N.div_small (n mod 10) 10) by (apply N.mod_lt; lia). lia.
Qed.

Lemma mod_mul10_mod p n : (0 < p)%N ->
  ((n mod (10 * p)) mod 10 = n mod 10)%N.
Proof.
  intros Hp. rewrite N.Div0.mod_mul_r.
  rewrite (N.mul_comm 10), N.Div0.mod_add.
  apply N.Div0.mod_mod.
Qed.

Lemma pow10_pos k : (0 < 10 ^ N.of_nat k)%N.
Proof. apply N.neq_0_lt_0, N.pow_nonzero; lia. Qed.

(** The first digit printed. *)
Lemma printFixed_head k : forall n,
  Str.printFixed (S k) n
  = String (Str.digitChar ((n / 10 ^ N.of_nat k) mod 10))
           (Str.printFixed k (n mod 10 ^ N.of_nat k)).
Proof.
  induction k as [|k IH]; intros n.
  - cbn. rewrite N.div_1_r. reflexivity.
  - change (Str.printFixed (S (S k)) n)
      with (Str.printFixed (S k) (n / 10) +++ String (Str.digitChar (n mod 10)) EmptyString).
    rewrite IH. cbn [String.append Str.printFixed].
    rewrite (Nat2N.inj_succ k), N.pow_succ_r'.
    pose proof (pow10_pos k) as Hp.
    rewrite N.Div0.div_div, mod_mul10_div, mod_mul10_mod by assumption.
    reflexivity.
Qed.

Lemma printNat_head n :
  exists d r, Str.printNat n = String (Str.digitChar d) r /\ (d < 10)%N /\
              (n <> 0%N -> d <> 0%N).
Proof.
  unfold Str.printNat. destruct (ndigits_spec n) as (H1 & H2 & H3).
  destruct (Str.ndigits n) as [|k] eqn:E; [lia|].
  rewrite printFixed_head.
  exists ((n / 10 ^ N.of_nat k) mod 10)%N. eexists. split; [reflexivity|].
  split; [apply N.mod_lt; lia|].
  intros Hn. destruct H3 as [H3|H3]; [contradiction|].
  replace (S k - 1)%nat with k in H3 by lia.
  pose proof (pow10_pos k) as Hp.
  rewrite Nat2N.inj_succ, N.pow_succ_r' in H2.
  rewrite N.mod_small.
  - intros Hz. apply N.div_small_iff in Hz; lia.
  - apply N.Div0.div_lt_upper_bound. lia.
Qed.

(* ================================================================== *)
(** ** Numbers: reading back what [Number::toString] prints *)
(* ================================================================== *)

Lemma stopNum_noDigit s : stopNum s -> noDigit s.
Proof. destruct s; simpl; tauto. Qed.

Ltac digit_cases d H :=
  let E := fresh in
  assert (E : d = 0%N \/ d = 1%N \/ d = 2%N \/ d = 3%N \/ d = 4%N \/ d = 5%N \/
              d = 6%N \/ d = 7%N \/ d = 8%N \/ d = 9%N) by lia;
  clear H;
  destruct E as [E|[E|[E|[E|[E|[E|[E|[E|[E|E]]]]]]]]]; subst d.

Lemma scanMinus_digit d r : (d < 10)%N ->
  JSON.scanMinus (String (Str.digitChar d) r) = (false, String (Str.digitChar d) r).
Proof. intros H. digit_cases d H; reflexivity. Qed.

Lemma parseInteger_digit d r : (d < 10)%N -> d <> 0%N ->
  JSON.parseInteger (String (Str.digitChar d) r)
  = match Str.scanDigits 0 0 (String (Str.digitChar d) r) with
    | (_, O, _) => None
    | (ip, S _, r') => Some (ip, r')
    end.
Proof. intros H H0. digit_cases d H; try reflexivity. congruence. Qed.

Lemma printNat_0 : Str.printNat 0 = "0".
Proof. reflexivity. Qed.

Lemma parseInteger_printNat a rest : noDigit rest ->
  JSON.parseInteger (Str.printNat a +++ rest) = Some (a, rest).
Proof.
  intros Hrest. destruct (N.eq_dec a 0) as [->|Ha].
  - reflexivity.
  - destruct (printNat_head a) as (d & r & E & Hd & Hnz).
    pose proof (scanDigits_printNat a 0 0 rest) as Hs.
    rewrite E in *. cbn [String.append] in *.
    rewrite parseInteger_digit by auto. rewrite Hs.
    rewrite scanDigits_stop by assumption.
    destruct (ndigits_spec a) as (H1 & _).
    destruct (Str.ndigits a); [lia|]. cbn. f_equal. 
Qed.

Lemma parseFraction_none rest : stopNum rest ->
  JSON.parseFraction rest = Some (0%N, O, rest).
Proof.
  destruct rest as [|c r]; [reflexivity|]. intros (_ & Hp & _).
  destruct c as [[] [] [] [] [] [] [] []]; try reflexivity. congruence.
Qed.

Lemma parseFraction_point k x rest :
  (x < 10 ^ N.of_nat (S k))%N -> noDigit rest ->
  JSON.parseFraction (String "." (Str.printFixed (S k) x +++ rest)) = Some (x, S k, rest).
Proof.
  intros Hx Hrest. unfold JSON.parseFraction.
  rewrite scanDigits_printFixed by assumption.
  rewrite scanDigits_stop by assumption. cbn. reflexivity.
Qed.

Lemma parseExponent_none rest : stopNum rest ->
  JSON.parseExponent rest = Some (0, rest).
Proof.
  destruct rest as [|c r]; [reflexivity|]. intros (_ & _ & He & HE).
  unfold JSON.parseExponent.
  apply Ascii.eqb_neq in He, HE. rewrite He, HE. reflexivity.
Qed.

Lemma parseExponent_print e rest : noDigit rest ->
  JSON.parseExponent (String "e" (String (Num.expSign e) (Str.printNat (Z.abs_N e) +++ rest)))
  = Some (e, rest).
Proof.
  intros Hrest. unfold JSON.parseExponent, Num.expSign.
  cbn [Ascii.eqb Bool.eqb orb].
  destruct (Z.ltb_spec e 0) as [Hneg|Hpos]; cbn [NumParse.scanSign];
    rewrite scanDigits_printNat, scanDigits_stop by assumption;
    destruct (ndigits_spec (Z.abs_N e)) as (H1 & _);
    destruct (Str.ndigits (Z.abs_N e)); try lia; cbn [Nat.add];
    do 2 f_equal; lia.
Qed.

Ltac norm_app :=
  repeat first [rewrite append_assoc | progress cbn [String.append]].

Ltac norm_app_in H :=
  repeat first [rewrite append_assoc in H | progress cbn [String.append] in H].

Lemma pow10_N k : Z.of_N (10 ^ N.of_nat k) = Num.pow10 k.
Proof. unfold Num.pow10. rewrite N2Z.inj_pow, nat_N_Z. reflexivity. Qed.

Lemma parseUnsigned_plain a rest : stopNum rest ->
  JSON.parseUnsigned (Str.printNat a +++ rest) = Some (Z.of_N a, 0, rest).
Proof.
  intros H. unfold JSON.parseUnsigned.
  rewrite parseInteger_printNat by (apply stopNum_noDigit; assumption).
  rewrite parseFraction_none, parseExponent_none by assumption.
  do 2 f_equal. f_equal. unfold Num.pow10. simpl. lia.
Qed.

Lemma noDigit_point r : noDigit (String "." r).
Proof. reflexivity. Qed.

Lemma noDigit_e r : noDigit (String "e" r).
Proof. reflexivity. Qed.

Lemma parseUnsigned_point ip k x rest :
  (x < 10 ^ N.of_nat (S k))%N -> stopNum rest ->
  JSON.parseUnsigned (Str.printNat ip +++ String "." (Str.printFixed (S k) x +++ rest))
  = Some (Z.of_N ip * Num.pow10 (S k) + Z.of_N x, - Z.of_nat (S k), rest).
Proof.
  intros Hx H. unfold JSON.parseUnsigned.
  rewrite parseInteger_printNat by apply noDigit_point.
  rewrite parseFraction_point by (auto using stopNum_noDigit).
  rewrite parseExponent_none by assumption.
  reflexivity.
Qed.

Lemma parseFraction_e r : JSON.parseFraction (String "e" r) = Some (0%N, O, String "e" r).
Proof. reflexivity. Qed.

Lemma parseUnsigned_exponential s n rest :
  (0 < s)%N -> noDigit rest ->
  JSON.parseUnsigned (Num.exponential s n +++ rest)
  = Some (Z.of_N s, n - Z.of_nat (Str.ndigits s), rest).
Proof.
  intros Hs Hrest. unfold Num.exponential, JSON.parseUnsigned.
  destruct (ndigits_spec s) as (H1 & H2 & H3).
  destruct (Str.ndigits s) as [|[|j]] eqn:E; [lia| |].
  - (* one digit *)
    cbn [Nat.eqb Nat.sub N.of_nat]. rewrite N.pow_0_r, N.div_1_r.
    norm_app.
    rewrite parseInteger_printNat by apply noDigit_e.
    rewrite parseFraction_e, parseExponent_print by assumption.
    do 2 f_equal. f_equal; unfold Num.pow10; simpl; lia.
  - cbn [Nat.eqb]. replace (S (S j) - 1)%nat with (S j) by lia.
    set (p := (10 ^ N.of_nat (S j))%N).
    assert (Hp : (0 < p)%N) by apply pow10_pos.
    norm_app.
    rewrite parseInteger_printNat by apply noDigit_point.
    rewrite parseFraction_point; [| apply N.mod_lt; lia | apply noDigit_e].
    rewrite parseExponent_print by assumption.
    do 2 f_equal. f_equal.
    + rewrite <- pow10_N. fold p.
      rewrite <- N2Z.inj_mul, <- N2Z.inj_add. f_equal.
      pose proof (N.div_mod s p ltac:(lia)). lia.
    + lia.
Qed.

Lemma scanMinus_printNat a r :
  JSON.scanMinus (Str.printNat a +++ r) = (false, Str.printNat a +++ r).
Proof.
  destruct (printNat_head a) as (d & r0 & E & Hd & _). rewrite E.
  cbn [String.append]. apply scanMinus_digit; assumption.
Qed.

Lemma scanMinus_exponential s n r :
  JSON.scanMinus (Num.exponential s n +++ r) = (false, Num.exponential s n +++ r).
Proof.
  unfold Num.exponential. rewrite append_assoc. apply scanMinus_printNat.
Qed.

Lemma ndigits_mul10 n : (0 < n)%N -> Str.ndigits (n * 10) = S (Str.ndigits n).
Proof.
  intros Hn. destruct (ndigits_spec n) as (H1 & H2 & [H3|H3]); [lia|].
  apply ndigits_unique; [lia| |].
  - replace (S (Str.ndigits n) - 1)%nat with (S (Str.ndigits n - 1)) by lia.
    rewrite Nat2N.inj_succ, N.pow_succ_r'. lia.
  - rewrite Nat2N.inj_succ, N.pow_succ_r'. lia.
Qed.

Lemma stripZerosFuel_spec fuel : forall n, (0 < n)%N ->
  exists t, (n = Num.stripZerosFuel fuel n * 10 ^ N.of_nat t)%N /\
            Str.ndigits n = (Str.ndigits (Num.stripZerosFuel fuel n) + t)%nat /\
            (0 < Num.stripZerosFuel fuel n)%N.
Proof.
  induction fuel as [|f IH]; intros n Hn.
  - exists O. cbn [Num.stripZerosFuel]. rewrite N.pow_0_r. split; [lia|]. split; [lia|assumption].
  - cbn [Num.stripZerosFuel]. destruct (N.eqb_spec (n mod 10) 0) as [Hz|Hnz].
    + assert (Hq : (0 < n / 10)%N) by lia.
      destruct (IH _ Hq) as (t & E1 & E2 & E3).
      exists (S t). set (s := Num.stripZerosFuel f (n / 10)) in *.
      assert (En : n = (n / 10 * 10)%N) by lia.
      split; [| split; [| assumption]].
      * rewrite Nat2N.inj_succ, N.pow_succ_r'. lia.
      * rewrite En at 1. rewrite ndigits_mul10 by assumption. lia.
    + exists O. rewrite N.pow_0_r. split; [lia|]. split; [lia|assumption].
Qed.

Lemma stripZeros_spec n : (0 < n)%N ->
  exists t, (n = Num.stripZeros n * 10 ^ N.of_nat t)%N /\
            Str.ndigits n = (Str.ndigits (Num.stripZeros n) + t)%nat /\
            (0 < Num.stripZeros n)%N.
Proof.
  intros Hn. unfold Num.stripZeros.
  destruct (N.eqb_spec n 0); [lia|]. apply stripZerosFuel_spec; assumption.
Qed.

Lemma normFrac_wf m kk : m mod 10 <> 0 -> Num.normFrac m (Pos.to_nat kk) = FFrac m kk.
Proof.
  intros H. destruct (Pos2Nat.is_succ kk) as (k' & E). rewrite E.
  cbn [Num.normFrac]. destruct (Z.eqb_spec (m mod 10) 0); [contradiction|].
  f_equal. apply Pos2Nat.inj. rewrite E. apply SuccNat2Pos.id_succ.
Qed.

Lemma mkDec_frac m kk : m mod 10 <> 0 ->
  Num.mkDec m (- Z.pos kk) = FFrac m kk.
Proof.
  intros H. unfold Num.mkDec. destruct (Z.leb_spec 0 (- Z.pos kk)); [lia|].
  rewrite Z.opp_involutive. change (Z.to_nat (Z.pos kk)) with (Pos.to_nat kk).
  apply normFrac_wf; assumption.
Qed.

Lemma abs_N_signed m :
  (if m <? 0 then - Z.of_N (Z.abs_N m) else Z.of_N (Z.abs_N m)) = m.
Proof. destruct (Z.ltb_spec m 0); rewrite N2Z.inj_abs_N; lia. Qed.

Lemma parseNumber_signed (neg : bool) tail :
  JSON.scanMinus tail = (false, tail) ->
  JSON.parseNumber ((if neg then "-" else EmptyString) +++ tail)
  = match JSON.parseUnsigned tail with
    | None => None
    | Some (m, e, r) => Some (Fin (Num.mkDec (if neg then - m else m) e), r)
    end.
Proof.
  intros H. unfold JSON.parseNumber. destruct neg; cbn [String.append].
  - reflexivity.
  - rewrite H. reflexivity.
Qed.

Lemma mkDec_int m t : Num.mkDec m (Z.of_nat t) = FInt (m * Num.pow10 t).
Proof.
  unfold Num.mkDec. destruct (Z.leb_spec 0 (Z.of_nat t)); [reflexivity | lia].
Qed.

(** Reading back the text of a finite number gives the number. *)
Lemma parseNumber_finiteToString f rest :
  Num.wfFinite f = true -> stopNum rest ->
  JSON.parseNumber (Num.finiteToString f +++ rest) = Some (Fin f, rest).
Proof.
  intros Hwf Hrest. pose proof (stopNum_noDigit _ Hrest) as Hnd.
  destruct f as [z|m kk]; cbn [Num.finiteToString].
  - (* integers *)
    pose proof (abs_N_signed z) as Hsig.
    set (a := Z.abs_N z) in *.
    destruct (N.eqb_spec a 0) as [Ha|Ha].
    + assert (z = 0) by lia. subst z.
      unfold JSON.parseNumber. cbn [String.append JSON.scanMinus].
      change (String "0" rest) with (Str.printNat 0 +++ rest).
      rewrite parseUnsigned_plain by assumption. reflexivity.
    + destruct (Nat.leb_spec (Str.ndigits a) 21) as [Hsmall|Hbig].
      * rewrite append_assoc, parseNumber_signed by apply scanMinus_printNat.
        rewrite parseUnsigned_plain by assumption.
        rewrite Hsig. change (Num.mkDec z 0) with (FInt (z * 10 ^ 0)).
        rewrite Z.pow_0_r, Z.mul_1_r. reflexivity.
      * destruct (stripZeros_spec a ltac:(lia)) as (t & E1 & E2 & E3).
        rewrite append_assoc, parseNumber_signed by apply scanMinus_exponential.
        rewrite parseUnsigned_exponential by assumption.
        rewrite E2.
        replace (Z.of_nat (Str.ndigits (Num.stripZeros a) + t) -
                 Z.of_nat (Str.ndigits (Num.stripZeros a)))
          with (Z.of_nat t) by lia.
        rewrite mkDec_int. rewrite <- pow10_N. f_equal. f_equal. f_equal.
        assert (Ez : Z.of_N a = Z.of_N (Num.stripZeros a) * Z.of_N (10 ^ N.of_nat t))
          by (rewrite <- N2Z.inj_mul; f_equal; exact E1).
        destruct (z <? 0); f_equal; lia.
  - (* decimals *)
    cbn [Num.wfFinite] in Hwf. apply negb_true_iff in Hwf. apply Z.eqb_neq in Hwf.
    pose proof (abs_N_signed m) as Hsig.
    set (s := Z.abs_N m) in *.
    assert (Hs : (0 < s)%N) by (subst s; lia).
    destruct (Pos2Nat.is_succ kk) as (k' & Ek).
    set (n := Z.of_nat (Str.ndigits s) - Z.of_nat (Pos.to_nat kk)).
    destruct ((-6 <? n) && (n <=? 21)) eqn:Hrange.
    + rewrite Ek.
      set (p := (10 ^ N.of_nat (S k'))%N).
      assert (Hp : (0 < p)%N) by apply pow10_pos.
      norm_app.
      rewrite parseNumber_signed by apply scanMinus_printNat.
      rewrite parseUnsigned_point; [| apply N.mod_lt; lia | assumption].
      rewrite <- pow10_N. fold p.
      rewrite <- N2Z.inj_mul, <- N2Z.inj_add.
      replace (s / p * p + s mod p)%N with s
        by (pose proof (N.div_mod s p ltac:(lia)); lia).
      rewrite <- Ek, positive_nat_Z, Hsig.
      rewrite mkDec_frac by assumption. reflexivity.
    + rewrite append_assoc, parseNumber_signed by apply scanMinus_exponential.
      rewrite parseUnsigned_exponential by assumption.
      subst n.
      replace (Z.of_nat (Str.ndigits s) - Z.of_nat (Pos.to_nat kk) -
               Z.of_nat (Str.ndigits s)) with (- Z.pos kk) by lia.
      rewrite Hsig, mkDec_frac by assumption. reflexivity.
Qed.

(* ================================================================== *)
(** ** JSON: the parser inverts the printer *)
(* ================================================================== *)

Lemma parseChars_escapeChar c tail :
  JSON.parseChars (JSON.escapeChar c +++ tail) = JSON.consChar c (JSON.parseChars tail).
Proof.
  destruct c as [[] [] [] [] [] [] [] []]; reflexivity.
Qed.

(** Reading back a quoted string gives the string. *)
Lemma parseChars_escape s rest :
  JSON.parseChars (JSON.escape s +++ String JSON.dquote rest) = Some (s, rest).
Proof.
  induction s as [|c s IH]; [reflexivity|].
  cbn [JSON.escape]. rewrite append_assoc, parseChars_escapeChar, IH. reflexivity.
Qed.

Lemma parseChars_quote s rest :
  exists t, JSON.quote s +++ rest = String JSON.dquote t /\
            JSON.parseChars t = Some (s, rest).
Proof.
  unfold JSON.quote. eexists. split; [reflexivity|].
  rewrite append_assoc. apply parseChars_escape.
Qed.

(** *** Unfolding lemmas *)

Lemma ser_arr space ind l :
  JSON.ser space ind (VArr l)
  = Some (JSON.block "[" "]" space ind (map (elemText space (S ind)) l)).
Proof.
  reflexivity.
Qed.

Lemma ser_obj space ind ps :
  JSON.ser space ind (VObj ps)
  = Some (JSON.block "{" "}" space ind (memberTexts space (S ind) ps)).
Proof.
  cbn [JSON.ser]. f_equal. f_equal.
  induction ps as [|[k x] ps IH]; [reflexivity|]. cbn [memberTexts].
  destruct (JSON.ser space (S ind) x); rewrite <- IH; reflexivity.
Qed.

Lemma clone_arr l : clone (VArr l) = VArr (map clone l).
Proof.
  reflexivity.
Qed.

Lemma clone_obj ps : clone (VObj ps) = VObj (cloneMembers ps).
Proof.
  reflexivity.
Qed.

Lemma value_nested_ind (P : value -> Prop) :
  P VUndefined -> P VNull -> (forall b, P (VBool b)) -> (forall n, P (VNum n)) ->
  (forall s, P (VStr s)) ->
  (forall l, Forall P l -> P (VArr l)) ->
  (forall ps, Forall (fun kx => P (snd kx)) ps -> P (VObj ps)) ->
  forall v, P v.
Proof.
  intros HU HN HB HNum HS HA HO.
  fix IH 1. intros [| |b|n|s|l|ps];
    [apply HU | apply HN | apply HB | apply HNum | apply HS | | ].
  - apply HA. revert l. fix IHl 1. intros [|x l]; constructor; [apply IH | apply IHl].
  - apply HO. revert ps. fix IHl 1. intros [|[k x] ps]; constructor; [apply IH | apply IHl].
Qed.

Lemma delim_stopNum s : delim s -> stopNum s.
Proof.
  destruct s as [|c r]; [exact id|]. simpl.
  intros [ -> | [ -> | [ -> | -> ] ] ]; repeat split; try reflexivity; discriminate.
Qed.

Lemma skipWs_spaces n s : JSON.skipWs (JSON.spaces n +++ s) = JSON.skipWs s.
Proof. induction n as [|n IH]; [reflexivity|]. cbn. exact IH. Qed.

Lemma skipWs_newline space ind s :
  JSON.skipWs (JSON.newline space ind +++ s) = JSON.skipWs s.
Proof.
  destruct space as [|sp]; [reflexivity|].
  cbn [JSON.newline String.append]. cbn [JSON.skipWs].
  change (JSON.isWs JSON.LF) with true. cbv iota. apply skipWs_spaces.
Qed.

Lemma next_newline space ind s :
  JSON.next (JSON.newline space ind +++ s) = JSON.next s.
Proof. unfold JSON.next. rewrite skipWs_newline. reflexivity. Qed.

Lemma closes_newline c space ind s :
  JSON.closes c (JSON.newline space ind +++ s) = JSON.closes c s.
Proof. unfold JSON.closes. rewrite next_newline. reflexivity. Qed.

Lemma parseValue_newline f space ind s :
  JSON.parseValue f (JSON.newline space ind +++ s) = JSON.parseValue f s.
Proof. destruct f; [reflexivity|]. cbn [JSON.parseValue]. rewrite next_newline. reflexivity. Qed.

Lemma next_colon space s :
  JSON.closes ":" (JSON.colon space +++ s) = Some (match space with O => s | S _ => String " " s end).
Proof. destruct space; reflexivity. Qed.

Lemma parseValue_space f s : JSON.parseValue f (String " " s) = JSON.parseValue f s.
Proof. destruct f; reflexivity. Qed.

Lemma printNat_app_head a r :
  exists c t, Str.printNat a +++ r = String c t /\ numberStart c.
Proof.
  destruct (printNat_head a) as (d & r0 & E & Hd & _).
  rewrite E. cbn [String.append]. do 2 eexists. split; [reflexivity|].
  right. eauto.
Qed.

Lemma signed_head (neg : bool) body :
  (exists c t, body = String c t /\ numberStart c) ->
  exists c t, (if neg then "-" else EmptyString) +++ body = String c t /\ numberStart c.
Proof.
  intros H. destruct neg; cbn [String.append]; [|exact H].
  do 2 eexists. split; [reflexivity|]. left. reflexivity.
Qed.

Lemma finiteToString_head f :
  exists c t, Num.finiteToString f = String c t /\ numberStart c.
Proof.
  destruct f as [z|m kk]; cbn [Num.finiteToString].
  - destruct (Z.abs_N z =? 0)%N.
    + exists "0"%char, EmptyString. split; [reflexivity|].
      right. exists 0%N. split; [lia|reflexivity].
    + destruct (Str.ndigits (Z.abs_N z) <=? 21)%nat; apply signed_head.
      * rewrite <- (append_nil_r (Str.printNat _)). apply printNat_app_head.
      * unfold Num.exponential. apply printNat_app_head.
  - destruct ((-6 <? _) && _); apply signed_head.
    + apply printNat_app_head.
    + unfold Num.exponential. apply printNat_app_head.
Qed.

Lemma digit_startsValue c t : numberStart c -> startsValue (String c t).
Proof.
  intros [ -> | (d & Hd & ->) ]; [repeat split; discriminate|].
  digit_cases d Hd; repeat split; discriminate.
Qed.

Lemma parseValue_number f c t :
  numberStart c ->
  JSON.parseValue (S f) (String c t)
  = match JSON.parseNumber (String c t) with
    | Some (n, r') => Some (VNum n, r')
    | None => None
    end.
Proof.
  intros [ -> | (d & Hd & ->) ]; [reflexivity|].
  digit_cases d Hd; reflexivity.
Qed.

Lemma block_head o c space ind parts :
  exists t, JSON.block o c space ind parts = String o t.
Proof. destruct parts; cbn; eauto. Qed.

Lemma elemText_starts space ind x : startsValue (elemText space ind x).
Proof.
  unfold elemText. destruct x as [| |[]|n|s|l|ps].
  1-4: repeat split; discriminate.
  - cbn [JSON.ser]. unfold JSON.serNumber. destruct n as [| |f]; cbn [Num.isFinite].
    1-2: repeat split; discriminate.
    destruct (finiteToString_head f) as (c & t & E & H). cbn [Num.toString]. rewrite E.
    apply digit_startsValue; assumption.
  - repeat split; discriminate.
  - rewrite ser_arr. destruct (block_head "[" "]" space (ind) (map (elemText space (S ind)) l)) as (t & ->).
    repeat split; discriminate.
  - rewrite ser_obj. destruct (block_head "{" "}" space (ind) (memberTexts space (S ind) ps)) as (t & ->).
    repeat split; discriminate.
Qed.

Lemma next_starts s : startsValue s ->
  exists c r, s = String c r /\ JSON.next s = Some (c, r) /\ c <> "]"%char /\ c <> "}"%char.
Proof.
  destruct s as [|c r]; [contradiction|]. intros (Hw & H1 & H2).
  exists c, r. unfold JSON.next. cbn [JSON.skipWs]. rewrite Hw. auto.
Qed.

Lemma closes_starts c s r : startsValue (s +++ r) -> (c = "]" \/ c = "}")%char ->
  JSON.closes c (s +++ r) = None.
Proof.
  intros H Hc. destruct (next_starts _ H) as (c' & r' & E & En & H1 & H2).
  unfold JSON.closes. rewrite En.
  destruct (Ascii.eqb_spec c' c); [|reflexivity]. subst c'. destruct Hc; congruence.
Qed.

Lemma startsValue_app s r : startsValue s -> startsValue (s +++ r).
Proof. destruct s; [contradiction|]. exact id. Qed.

(** *** Dispatch on the first character *)

Lemma parseValue_arr f r :
  JSON.parseValue (S f) (String "[" r)
  = match JSON.closes "]" r with
    | Some r' => Some (VArr [], r')
    | None => match JSON.parseElems (JSON.parseValue f) f r with
              | Some (vs, r') => Some (VArr vs, r')
              | None => None
              end
    end.
Proof. reflexivity. Qed.

Lemma parseValue_obj f r :
  JSON.parseValue (S f) (String "{" r)
  = match JSON.closes "}" r with
    | Some r' => Some (VObj [], r')
    | None => match JSON.parseMembers (JSON.parseValue f) f r with
              | Some (ms, r') => Some (VObj (JS.extend [] ms), r')
              | None => None
              end
    end.
Proof. reflexivity. Qed.

Lemma parseValue_str f r :
  JSON.parseValue (S f) (String JSON.dquote r)
  = match JSON.parseChars r with
    | Some (str, r') => Some (VStr str, r')
    | None => None
    end.
Proof. reflexivity. Qed.

(** *** Arrays *)

Lemma delim_tailText space ind closing parts rest :
  (closing = "]" \/ closing = "}")%char ->
  delim (tailText space ind closing parts rest).
Proof.
  intros Hc. unfold tailText. destruct parts as [|p ps].
  - cbn [JSON.joinParts String.append]. destruct space; cbn; tauto.
  - cbn. tauto.
Qed.

Lemma block_cons o c space ind p ps rest :
  JSON.block o c space ind (p :: ps) +++ rest
  = String o (JSON.newline space (S ind) +++ p +++ tailText space ind c ps rest).
Proof. unfold tailText. cbn [JSON.block]. norm_app. reflexivity. Qed.

Lemma next_close space ind closing rest : (closing = "]" \/ closing = "}")%char ->
  JSON.next (JSON.newline space ind +++ String closing rest) = Some (closing, rest).
Proof. intros [ -> | -> ]; rewrite next_newline; reflexivity. Qed.

Lemma parseElems_ok f space ind rest : forall l x n,
  roundTrips f x -> Forall (roundTrips f) l -> (S (List.length l) <= n)%nat ->
  JSON.parseElems (JSON.parseValue f) n
    (JSON.newline space (S ind) +++ elemText space (S ind) x +++
     tailText space ind "]" (map (elemText space (S ind)) l) rest)
  = Some (clone x :: map clone l, rest).
Proof.
  induction l as [|y l IH]; intros x n Hx Hl Hn; (destruct n as [|n]; [simpl in Hn; lia|]);
    cbn [JSON.parseElems]; rewrite parseValue_newline;
    rewrite Hx by (apply delim_tailText; auto).
  - unfold tailText. cbn [map JSON.joinParts String.append].
    rewrite next_close by auto. reflexivity.
  - unfold tailText. cbn [map JSON.joinParts]. norm_app.
    change (JSON.next (String "," ?r)) with (Some (","%char, r)).
    cbv beta iota. cbn [Ascii.eqb Bool.eqb].
    inversion Hl as [|? ? Hy Hl']; subst.
    fold (tailText space ind "]" (map (elemText space (S ind)) l) rest).
    rewrite IH by (auto; simpl in Hn; lia). reflexivity.
Qed.

(** *** Objects *)

Lemma ser_None space ind x : JSON.ser space ind x = None -> x = VUndefined.
Proof. destruct x as [| |[]| | | |]; cbn; congruence. Qed.

Lemma elemText_ser space ind x t : JSON.ser space ind x = Some t -> elemText space ind x = t.
Proof. unfold elemText. intros ->. reflexivity. Qed.

Lemma parseMember_ok f space ind k x t rest :
  roundTrips f x -> JSON.ser space ind x = Some t -> delim rest ->
  JSON.parseMember (JSON.parseValue f)
    (JSON.newline space ind +++ (JSON.quote k +++ JSON.colon space +++ t) +++ rest)
  = Some (k, clone x, rest).
Proof.
  intros Hx Ht Hrest. unfold JSON.parseMember.
  rewrite closes_newline. unfold JSON.quote. norm_app.
  change (JSON.closes JSON.dquote (String JSON.dquote ?r)) with (Some r).
  cbv beta iota. rewrite parseChars_escape, next_colon.
  apply elemText_ser in Ht. subst t.
  destruct space; [| rewrite parseValue_space]; rewrite Hx by assumption; reflexivity.
Qed.

Lemma parseMembers_ok f space ind rest : forall ps k x t n,
  roundTrips f x -> JSON.ser space (S ind) x = Some t ->
  Forall (fun kx => snd kx <> VUndefined -> roundTrips f (snd kx)) ps ->
  (S (List.length (cloneMembers ps)) <= n)%nat ->
  JSON.parseMembers (JSON.parseValue f) n
    (JSON.newline space (S ind) +++ (JSON.quote k +++ JSON.colon space +++ t) +++
     tailText space ind "}" (memberTexts space (S ind) ps) rest)
  = Some ((k, clone x) :: cloneMembers ps, rest).
Proof.
  induction ps as [|[k' x'] ps IH]; intros k x t n Hx Ht Hps Hn.
  - destruct n as [|n]; [simpl in Hn; lia|].
    cbn [JSON.parseMembers].
    rewrite (parseMember_ok f space (S ind) k x t) by (auto; apply delim_tailText; auto).
    unfold tailText. cbn [memberTexts JSON.joinParts String.append].
    rewrite next_close by auto. reflexivity.
  - inversion Hps as [|? ? Hx' Hps']; subst. cbn [snd] in Hx'.
    cbn [memberTexts].
    destruct (JSON.ser space (S ind) x') as [t'|] eqn:Et'.
    + destruct n as [|n]; [simpl in Hn; lia|].
      cbn [JSON.parseMembers].
      rewrite (parseMember_ok f space (S ind) k x t) by (auto; apply delim_tailText; auto).
      unfold tailText. cbn [JSON.joinParts]. norm_app.
      change (JSON.next (String "," ?r)) with (Some (","%char, r)).
      cbv beta iota. cbn [Ascii.eqb Bool.eqb].
      assert (Hd : cloneMembers ((k', x') :: ps) = (k', clone x') :: cloneMembers ps)
        by (destruct x'; try reflexivity; discriminate).
      rewrite Hd in *. cbn [List.length] in Hn.
      assert (Hx'' : roundTrips f x') by (apply Hx'; intros ->; discriminate).
      pose proof (IH k' x' t' n Hx'' Et' Hps' ltac:(lia)) as E.
      unfold tailText in E. norm_app_in E. rewrite E. reflexivity.
    + apply ser_None in Et'. subst x'.
      apply IH; auto.
Qed.

(** *** Building the object *)

Lemma setProp_fresh k x ps :
  existsb (String.eqb k) (map fst ps) = false -> JS.setProp k x ps = ps ++ [(k, x)].
Proof.
  induction ps as [|[k' y] ps IH]; [reflexivity|].
  cbn [map fst existsb JS.setProp]. intros H. apply orb_false_iff in H as [H1 H2].
  rewrite String.eqb_sym, H1. cbn [app]. f_equal. auto.
Qed.

Lemma existsb_app_false k l1 l2 :
  existsb (String.eqb k) (l1 ++ l2) = false <->
  existsb (String.eqb k) l1 = false /\ existsb (String.eqb k) l2 = false.
Proof. rewrite existsb_app. apply orb_false_iff. Qed.

Lemma extend_unique ms : forall acc,
  uniqueKeys (map fst ms) = true ->
  (forall k, In k (map fst ms) -> existsb (String.eqb k) (map fst acc) = false) ->
  JS.extend acc ms = acc ++ ms.
Proof.
  unfold JS.extend.
  induction ms as [|[k x] ms IH]; intros acc Hu Hd; cbn [fold_left].
  - symmetry. apply app_nil_r.
  - cbn [map fst uniqueKeys] in Hu. apply andb_true_iff in Hu as [Hk Hu].
    apply negb_true_iff in Hk. cbn [fst snd].
    rewrite setProp_fresh by (apply Hd; left; reflexivity).
    rewrite IH; [rewrite <- app_assoc; reflexivity | assumption |].
    intros k' Hin. rewrite map_app. apply existsb_app_false. split.
    + apply Hd. right. assumption.
    + cbn. rewrite orb_false_r. apply String.eqb_neq. intros ->.
      assert (existsb (String.eqb k) (map fst ms) = true).
      { apply existsb_exists. exists k. split; [assumption | apply String.eqb_refl]. }
      congruence.
Qed.

Lemma extend_nil_unique ms : uniqueKeys (map fst ms) = true -> JS.extend [] ms = ms.
Proof. intros H. apply (extend_unique ms []); auto. Qed.

Lemma cloneMembers_keys ps k :
  existsb (String.eqb k) (map fst ps) = false ->
  existsb (String.eqb k) (map fst (cloneMembers ps)) = false.
Proof.
  induction ps as [|[k' x] ps IH]; [reflexivity|].
  cbn [map fst existsb cloneMembers]. intros H. apply orb_false_iff in H as [H1 H2].
  destruct x; cbn [map fst existsb]; rewrite ?H1; auto.
Qed.

Lemma cloneMembers_unique ps :
  uniqueKeys (map fst ps) = true -> uniqueKeys (map fst (cloneMembers ps)) = true.
Proof.
  induction ps as [|[k x] ps IH]; [reflexivity|].
  cbn [map fst uniqueKeys cloneMembers]. intros H. apply andb_true_iff in H as [H1 H2].
  apply negb_true_iff in H1.
  destruct x; cbn [map fst uniqueKeys]; auto;
    rewrite cloneMembers_keys by assumption; auto.
Qed.

(** *** Sizes *)

Lemma vsize_arr l : vsize (VArr l) = S (sumSizes l).
Proof. reflexivity. Qed.

Lemma vsize_obj ps : vsize (VObj ps) = S (sumMemberSizes ps).
Proof. reflexivity. Qed.

Lemma vsize_pos x : (1 <= vsize x)%nat.
Proof. destruct x; cbn; lia. Qed.

Lemma sumSizes_length l : (List.length l <= sumSizes l)%nat.
Proof.
  induction l as [|x l IH]; [reflexivity|]. cbn [List.length sumSizes].
  pose proof (vsize_pos x). lia.
Qed.

Lemma wellFormed_arr l : wellFormed (VArr l) = wellFormedAll l.
Proof. reflexivity. Qed.

Lemma wellFormed_obj ps :
  wellFormed (VObj ps) = uniqueKeys (map fst ps) && wellFormedMembers ps.
Proof. reflexivity. Qed.

(** *** The round trip *)

Lemma cloneMembers_length ps : (List.length (cloneMembers ps) <= sumMemberSizes ps)%nat.
Proof.
  induction ps as [|[k x] ps IH]; [reflexivity|].
  destruct x; cbn [cloneMembers sumMemberSizes List.length vsize]; lia.
Qed.

Lemma closes_quote c k r : c <> JSON.dquote ->
  JSON.closes c (JSON.quote k +++ r) = None.
Proof.
  intros H. unfold JSON.quote. cbn [String.append].
  change (JSON.closes c (String JSON.dquote ?r))
    with (if Ascii.eqb JSON.dquote c then Some r else None).
  destruct (Ascii.eqb_spec JSON.dquote c); congruence.
Qed.

Lemma parseObject_ok f space ind rest : forall ps,
  Forall (fun kx => snd kx <> VUndefined -> roundTrips f (snd kx)) ps ->
  (List.length (cloneMembers ps) <= f)%nat ->
  JSON.parseValue (S f)
    (JSON.block "{" "}" space ind (memberTexts space (S ind) ps) +++ rest)
  = Some (VObj (JS.extend [] (cloneMembers ps)), rest).
Proof.
  induction ps as [|[k x] ps IH]; intros Hps Hn.
  - reflexivity.
  - inversion Hps as [|? ? Hx Hps']; subst. cbn [snd] in Hx.
    cbn [memberTexts].
    destruct (JSON.ser space (S ind) x) as [t|] eqn:Et.
    + assert (Hd : cloneMembers ((k, x) :: ps) = (k, clone x) :: cloneMembers ps)
        by (destruct x; try reflexivity; discriminate).
      rewrite Hd in *. cbn [List.length] in Hn.
      rewrite block_cons, parseValue_obj.
      match goal with
      | |- context [JSON.closes ?c ?txt] =>
          assert (Hc : JSON.closes c txt = None)
            by (rewrite closes_newline, !append_assoc; apply closes_quote; discriminate)
      end.
      rewrite Hc.
      assert (Hx' : roundTrips f x) by (apply Hx; intros ->; discriminate).
      rewrite (parseMembers_ok f space ind rest ps k x t f) by auto.
      reflexivity.
    + apply ser_None in Et. subst x. apply IH; auto.
Qed.

Lemma roundTrips_all f l :
  Forall (fun x => wellFormed x = true -> forall f, (vsize x <= f)%nat -> roundTrips f x) l ->
  wellFormedAll l = true -> (sumSizes l <= f)%nat -> Forall (roundTrips f) l.
Proof.
  induction 1 as [|x l Hx Hl IH]; intros Hwf Hsz; constructor;
    cbn [wellFormedAll sumSizes] in *; apply andb_true_iff in Hwf as [H1 H2].
  - apply Hx; [assumption | lia].
  - apply IH; [assumption | lia].
Qed.

Lemma roundTrips_members f ps :
  Forall (fun kx => wellFormed (snd kx) = true ->
                    forall f, (vsize (snd kx) <= f)%nat -> roundTrips f (snd kx)) ps ->
  wellFormedMembers ps = true -> (sumMemberSizes ps <= f)%nat ->
  Forall (fun kx => snd kx <> VUndefined -> roundTrips f (snd kx)) ps.
Proof.
  induction 1 as [|[k x] ps Hx Hl IH]; intros Hwf Hsz; constructor;
    cbn [wellFormedMembers] in *; apply andb_true_iff in Hwf as [H1 H2]; cbn [snd] in *.
  - intros Hd. apply Hx; [assumption|].
    destruct x; cbn [sumMemberSizes] in Hsz; try lia. congruence.
  - apply IH; [assumption |]. destruct x; cbn [sumMemberSizes] in Hsz; lia.
Qed.

(** Parsing the text of a well-formed value gives its clone. *)
Theorem parseValue_ser : forall x,
  wellFormed x = true -> forall f, (vsize x <= f)%nat -> roundTrips f x.
Proof.
  induction x as [| |b|n|s|l IH|ps IH] using value_nested_ind;
    intros Hwf f Hf space ind rest Hrest;
    (destruct f as [|f]; [cbn in Hf; lia|]).
  - reflexivity.
  - reflexivity.
  - destruct b; reflexivity.
  - unfold elemText. cbn [JSON.ser clone]. unfold JSON.serNumber.
    destruct n as [| |fi]; cbn [Num.isFinite]; try reflexivity.
    cbn [Num.toString].
    destruct (finiteToString_head fi) as (c & t & E & Hc).
    pose proof (parseNumber_finiteToString fi rest Hwf (delim_stopNum _ Hrest)) as Hp.
    rewrite E in *. cbn [String.append] in *.
    rewrite parseValue_number, Hp by assumption. reflexivity.
  - unfold elemText. cbn [JSON.ser clone]. unfold JSON.quote. norm_app.
    rewrite parseValue_str, parseChars_escape. reflexivity.
  - unfold elemText. rewrite ser_arr, clone_arr.
    rewrite wellFormed_arr in Hwf. rewrite vsize_arr in Hf.
    pose proof (roundTrips_all f l IH Hwf ltac:(lia)) as Hall.
    pose proof (sumSizes_length l) as Hlen.
    destruct l as [|x l]; [reflexivity|].
    cbn [map]. rewrite block_cons, parseValue_arr.
    rewrite closes_newline, closes_starts
      by (auto; apply startsValue_app, elemText_starts).
    inversion Hall; subst.
    rewrite parseElems_ok by (auto; cbn [List.length] in Hlen; lia).
    reflexivity.
  - unfold elemText. rewrite ser_obj, clone_obj.
    rewrite wellFormed_obj in Hwf. apply andb_true_iff in Hwf as [Hu Hwf].
    rewrite vsize_obj in Hf.
    pose proof (roundTrips_members f ps IH Hwf ltac:(lia)) as Hall.
    pose proof (cloneMembers_length ps) as Hlen.
    rewrite parseObject_ok by (auto; lia).
    rewrite extend_nil_unique by (apply cloneMembers_unique; assumption).
    reflexivity.
Qed.

(** *** The text is long enough to serve as fuel *)

Lemma joinParts_length space ind parts :
  (sumLengths parts <= String.length (JSON.joinParts space ind parts))%nat.
Proof.
  induction parts as [|p ps IH]; [reflexivity|].
  cbn [JSON.joinParts sumLengths String.length]. rewrite !length_append. lia.
Qed.

Lemma block_length o c space ind parts :
  (S (sumLengths parts) <= String.length (JSON.block o c space ind parts))%nat.
Proof.
  destruct parts as [|p ps]; cbn [JSON.block sumLengths String.length]; [lia|].
  rewrite !length_append. pose proof (joinParts_length space (S ind) ps). lia.
Qed.

Lemma vsize_le_length : forall x space ind,
  (vsize x <= String.length (elemText space ind x))%nat.
Proof.
  induction x as [| |b|n|s|l IH|ps IH] using value_nested_ind; intros space ind.
  - cbn. lia.
  - cbn. lia.
  - destruct b; cbn; lia.
  - unfold elemText. cbn [JSON.ser vsize]. unfold JSON.serNumber.
    destruct n as [| |fi]; cbn [Num.isFinite Num.toString]; try (cbn; lia).
    destruct (finiteToString_head fi) as (c & t & E & _). rewrite E. cbn. lia.
  - cbn. lia.
  - unfold elemText. rewrite ser_arr, vsize_arr.
    pose proof (block_length "[" "]" space ind (map (elemText space (S ind)) l)) as Hb.
    assert (sumSizes l <= sumLengths (map (elemText space (S ind)) l))%nat; [|lia].
    clear Hb. induction IH as [|x l Hx Hl IHl]; [reflexivity|].
    cbn [sumSizes map sumLengths]. specialize (Hx space (S ind)). lia.
  - unfold elemText. rewrite ser_obj, vsize_obj.
    pose proof (block_length "{" "}" space ind (memberTexts space (S ind) ps)) as Hb.
    assert (sumMemberSizes ps <= sumLengths (memberTexts space (S ind) ps))%nat; [|lia].
    clear Hb. induction IH as [|[k x] ps Hx Hl IHl]; [reflexivity|].
    cbn [snd] in Hx. specialize (Hx space (S ind)). unfold elemText in Hx.
    cbn [memberTexts].
    destruct (JSON.ser space (S ind) x) as [t|] eqn:Et.
    + cbn [sumLengths]. rewrite !length_append.
      destruct x; cbn [sumMemberSizes]; lia.
    + apply ser_None in Et. subst x. cbn [sumMemberSizes]. exact IHl.
Qed.

(** [JSON.parse(JSON.stringify(v, null, space))] is the clone of [v]. *)
Theorem parse_stringify v space t :
  wellFormed v = true -> JSON.stringify v space = Some t ->
  JSON.parse t = Some (clone v).
Proof.
  intros Hwf Ht. unfold JSON.stringify in Ht.
  pose proof (elemText_ser _ _ _ _ Ht) as E.
  pose proof (vsize_le_length v space 0) as Hlen. rewrite E in Hlen.
  pose proof (parseValue_ser v Hwf (S (String.length t)) ltac:(lia) space 0%nat
                EmptyString I) as Hp.
  rewrite E, append_nil_r in Hp.
  unfold JSON.parse. rewrite Hp. reflexivity.
Qed.

Lemma isJSON_arr l : isJSON (VArr l) = allJSON l.
Proof. reflexivity. Qed.

Lemma isJSON_obj ps : isJSON (VObj ps) = uniqueKeys (map fst ps) && membersJSON ps.
Proof. reflexivity. Qed.

(** A JSON value is well formed and is its own clone. *)
Lemma isJSON_wellFormed : forall v, isJSON v = true -> wellFormed v = true.
Proof.
  induction v as [| |b|n|s|l IH|ps IH] using value_nested_ind; intros H;
    try reflexivity.
  - destruct n; try discriminate. exact H.
  - rewrite isJSON_arr in H. rewrite wellFormed_arr.
    induction IH as [|x l Hx _ IHl]; [reflexivity|].
    cbn [allJSON wellFormedAll] in *. apply andb_true_iff in H as [H1 H2].
    rewrite Hx, IHl by assumption. reflexivity.
  - rewrite isJSON_obj in H. rewrite wellFormed_obj.
    apply andb_true_iff in H as [Hu H]. rewrite Hu. cbn [andb]. clear Hu.
    induction IH as [|[k x] ps Hx _ IHl]; [reflexivity|].
    cbn [membersJSON wellFormedMembers snd] in *. apply andb_true_iff in H as [H1 H2].
    rewrite Hx, IHl by assumption. reflexivity.
Qed.

Lemma isJSON_clone : forall v, isJSON v = true -> clone v = v.
Proof.
  induction v as [| |b|n|s|l IH|ps IH] using value_nested_ind; intros H;
    try reflexivity; try discriminate.
  - destruct n; try discriminate. reflexivity.
  - rewrite isJSON_arr in H. rewrite clone_arr. f_equal.
    induction IH as [|x l Hx _ IHl]; [reflexivity|].
    cbn [allJSON map] in *. apply andb_true_iff in H as [H1 H2].
    rewrite Hx, IHl by assumption. reflexivity.
  - rewrite isJSON_obj in H. rewrite clone_obj. f_equal.
    apply andb_true_iff in H as [_ H].
    induction IH as [|[k x] ps Hx _ IHl]; [reflexivity|].
    cbn [membersJSON cloneMembers snd] in *. apply andb_true_iff in H as [H1 H2].
    rewrite Hx, IHl by assumption. destruct x; try reflexivity. discriminate.
Qed.

(** *** What the parser builds is a JSON value *)

Lemma normFrac_wfFinite k : forall m, Num.wfFinite (Num.normFrac m k) = true.
Proof.
  induction k as [|k IH]; intros m; cbn [Num.normFrac]; [reflexivity|].
  destruct (Z.eqb_spec (m mod 10) 0) as [E|E]; [apply IH|].
  cbn [Num.wfFinite]. apply negb_true_iff, Z.eqb_neq. assumption.
Qed.

Lemma mkDec_wfFinite m e : Num.wfFinite (Num.mkDec m e) = true.
Proof. unfold Num.mkDec. destruct (0 <=? e); [reflexivity | apply normFrac_wfFinite]. Qed.

Lemma parseNumber_isJSON s n r : JSON.parseNumber s = Some (n, r) -> isJSON (VNum n) = true.
Proof.
  unfold JSON.parseNumber. destruct (JSON.scanMinus s) as [neg s1].
  destruct (JSON.parseUnsigned s1) as [[[m e] r']|]; [|discriminate].
  intros H. injection H as <- _. apply mkDec_wfFinite.
Qed.

Lemma parseElems_isJSON p : yieldsJSON p -> forall n s vs r,
  JSON.parseElems p n s = Some (vs, r) -> allJSON vs = true.
Proof.
  intros Hp. induction n as [|n IH]; intros s vs r; cbn [JSON.parseElems]; [discriminate|].
  destruct (p s) as [[v r1]|] eqn:Ev; [|discriminate].
  destruct (JSON.next r1) as [[c r2]|]; [|discriminate].
  destruct (Ascii.eqb c ",").
  - destruct (JSON.parseElems p n r2) as [[vs' r3]|] eqn:Er; [|discriminate].
    intros H. injection H as <- _. cbn [allJSON].
    rewrite (Hp _ _ _ Ev), (IH _ _ _ Er). reflexivity.
  - destruct (Ascii.eqb c "]"); [|discriminate].
    intros H. injection H as <- _. cbn [allJSON]. rewrite (Hp _ _ _ Ev). reflexivity.
Qed.

Lemma parseMember_isJSON p : yieldsJSON p -> forall s k v r,
  JSON.parseMember p s = Some (k, v, r) -> isJSON v = true.
Proof.
  intros Hp s k v r. unfold JSON.parseMember.
  destruct (JSON.closes JSON.dquote s) as [r0|]; [|discriminate].
  destruct (JSON.parseChars r0) as [[k' r1]|]; [|discriminate].
  destruct (JSON.closes ":" r1) as [r2|]; [|discriminate].
  destruct (p r2) as [[v' r3]|] eqn:Ev; [|discriminate].
  intros H. injection H as _ <- _. exact (Hp _ _ _ Ev).
Qed.

Lemma parseMembers_isJSON p : yieldsJSON p -> forall n s ms r,
  JSON.parseMembers p n s = Some (ms, r) -> membersJSON ms = true.
Proof.
  intros Hp. induction n as [|n IH]; intros s ms r; cbn [JSON.parseMembers]; [discriminate|].
  destruct (JSON.parseMember p s) as [[[k v] r1]|] eqn:Em; [|discriminate].
  pose proof (parseMember_isJSON p Hp _ _ _ _ Em) as Hv.
  destruct (JSON.next r1) as [[c r2]|]; [|discriminate].
  destruct (Ascii.eqb c ",").
  - destruct (JSON.parseMembers p n r2) as [[ms' r3]|] eqn:Er; [|discriminate].
    intros H. injection H as <- _. cbn [membersJSON].
    rewrite Hv, (IH _ _ _ Er). reflexivity.
  - destruct (Ascii.eqb c "}"); [|discriminate].
    intros H. injection H as <- _. cbn [membersJSON]. rewrite Hv. reflexivity.
Qed.

(** Keys after [setProp]. *)
Lemma setProp_keys k x ps :
  map fst (JS.setProp k x ps)
  = if existsb (String.eqb k) (map fst ps) then map fst ps else map fst ps ++ [k].
Proof.
  induction ps as [|[k' y] ps IH]; [reflexivity|].
  cbn [JS.setProp map fst existsb].
  rewrite (String.eqb_sym k k').
  destruct (String.eqb_spec k' k) as [->|Hne]; [reflexivity|].
  cbn [map fst orb]. rewrite IH.
  destruct (existsb (String.eqb k) (map fst ps)); reflexivity.
Qed.

Lemma uniqueKeys_snoc ks k :
  uniqueKeys ks = true -> existsb (String.eqb k) ks = false -> uniqueKeys (ks ++ [k]) = true.
Proof.
  induction ks as [|k' ks IH]; [reflexivity|].
  cbn [uniqueKeys existsb app]. intros Hu Hk.
  apply andb_true_iff in Hu as [H1 H2]. apply orb_false_iff in Hk as [H3 H4].
  apply negb_true_iff in H1.
  rewrite existsb_app, H1, IH by assumption. cbn [existsb].
  rewrite String.eqb_sym, H3. reflexivity.
Qed.

Lemma setProp_unique k x ps :
  uniqueKeys (map fst ps) = true -> uniqueKeys (map fst (JS.setProp k x ps)) = true.
Proof.
  intros H. rewrite setProp_keys.
  destruct (existsb (String.eqb k) (map fst ps)) eqn:E; [assumption|].
  apply uniqueKeys_snoc; assumption.
Qed.

Lemma setProp_membersJSON k x ps :
  isJSON x = true -> membersJSON ps = true -> membersJSON (JS.setProp k x ps) = true.
Proof.
  intros Hx. induction ps as [|[k' y] ps IH]; cbn [JS.setProp membersJSON].
  - intros _. rewrite Hx. reflexivity.
  - intros H. apply andb_true_iff in H as [H1 H2].
    destruct (String.eqb k' k); cbn [membersJSON]; rewrite ?Hx, ?H1; auto.
Qed.

Lemma extend_isJSON ms : forall acc,
  uniqueKeys (map fst acc) = true -> membersJSON acc = true -> membersJSON ms = true ->
  isJSON (VObj (JS.extend acc ms)) = true.
Proof.
  unfold JS.extend.
  induction ms as [|[k x] ms IH]; intros acc Hu Ha Hm; cbn [fold_left].
  - rewrite isJSON_obj, Hu, Ha. reflexivity.
  - cbn [membersJSON] in Hm. apply andb_true_iff in Hm as [H1 H2]. cbn [fst snd].
    apply IH; [apply setProp_unique | apply setProp_membersJSON | ]; assumption.
Qed.

Lemma withValue_inv v o v' r : JSON.withValue v o = Some (v', r) -> v' = v.
Proof. destruct o; cbn; congruence. Qed.

Lemma parseValue_isJSON : forall f, yieldsJSON (JSON.parseValue f).
Proof.
  induction f as [|f IH]; intros s v r; cbn [JSON.parseValue]; [discriminate|].
  destruct (JSON.next s) as [[c t]|]; [|discriminate].
  destruct (Ascii.eqb c "n"); [intros H; apply withValue_inv in H; subst; reflexivity|].
  destruct (Ascii.eqb c "t"); [intros H; apply withValue_inv in H; subst; reflexivity|].
  destruct (Ascii.eqb c "f"); [intros H; apply withValue_inv in H; subst; reflexivity|].
  destruct (Ascii.eqb c JSON.dquote).
  { destruct (JSON.parseChars t) as [[str r']|]; [|discriminate].
    intros H. injection H as <- _. reflexivity. }
  destruct (Ascii.eqb c "[").
  { destruct (JSON.closes "]" t); [intros H; injection H as <- _; reflexivity|].
    destruct (JSON.parseElems (JSON.parseValue f) f t) as [[vs r']|] eqn:E; [|discriminate].
    intros H. injection H as <- _. rewrite isJSON_arr.
    exact (parseElems_isJSON _ IH _ _ _ _ E). }
  destruct (Ascii.eqb c "{").
  { destruct (JSON.closes "}" t); [intros H; injection H as <- _; reflexivity|].
    destruct (JSON.parseMembers (JSON.parseValue f) f t) as [[ms r']|] eqn:E; [|discriminate].
    intros H. injection H as <- _.
    apply extend_isJSON; [reflexivity | reflexivity |].
    exact (parseMembers_isJSON _ IH _ _ _ _ E). }
  destruct (Ascii.eqb c "-" || Str.isDigit c)%bool; [|discriminate].
  destruct (JSON.parseNumber (String c t)) as [[n r']|] eqn:E; [|discriminate].
  intros H. injection H as <- _. exact (parseNumber_isJSON _ _ _ E).
Qed.

(** Whatever [JSON.parse] returns is a JSON value. *)
Theorem parse_isJSON text v : JSON.parse text = Some v -> isJSON v = true.
Proof.
  unfold JSON.parse.
  destruct (JSON.parseValue (S (String.length text)) text) as [[v' r]|] eqn:E; [|discriminate].
  destruct (JSON.skipWs r); [|discriminate].
  intros H. injection H as <-. exact (parseValue_isJSON _ _ _ _ E).
Qed.

(* ================================================================== *)
(** ** Stock removal on typed records *)
(* ================================================================== *)

Lemma toString_prim p : JS.toString (ofPrim p) = Ok (primToString p).
Proof. destruct p as [| |[]| |]; reflexivity. Qed.

Lemma parseIntString_cases s :
  NumParse.parseIntString s = NaN \/ exists z, NumParse.parseIntString s = Int z.
Proof.
  unfold NumParse.parseIntString.
  destruct (NumParse.scanSign (Str.trimStart s)) as [neg s1].
  destruct (NumParse.scanInteger s1) as [[v cnt] r].
  destruct cnt; [left; reflexivity | right; eauto].
Qed.

Lemma orZero_int n :
  (n = NaN \/ exists z, n = Int z) -> exists z, JS.orZero n = Int z.
Proof.
  intros [ -> | (z & ->) ]; [exists 0; reflexivity|].
  unfold JS.orZero. destruct (Num.truthy (Int z)); eexists; reflexivity.
Qed.

Lemma parseIntOr0_prim p :
  Storage.parseIntOr0 (ofPrim p) = Ok (Int (parsedQuantity p)).
Proof.
  unfold Storage.parseIntOr0, JS.parseInt, parsedQuantity.
  rewrite toString_prim. cbn [rbind].
  destruct (orZero_int _ (parseIntString_cases (primToString p))) as (z & ->).
  reflexivity.
Qed.

Lemma findIndexFrom_embed id c : forall i,
  Arr.findIndexFrom (Storage.hasId (VStr id)) i (embed c)
  = Ok (match Item.indexOf id c with Some n => Some (i + n)%nat | None => None end).
Proof.
  induction c as [|it c IH]; intros i; [reflexivity|].
  cbn [embed map Arr.findIndexFrom Item.indexOf].
  change (Storage.hasId (VStr id) (Item.toValue it)) with (Ok (String.eqb (Item.id it) id)).
  cbn [rbind]. destruct (String.eqb (Item.id it) id).
  - rewrite Nat.add_0_r. reflexivity.
  - fold (embed c). rewrite IH. destruct (Item.indexOf id c); [|reflexivity].
    do 2 f_equal. lia.
Qed.

Lemma findIndex_embed id c :
  Arr.findIndex (Storage.hasId (VStr id)) (embed c) = Ok (Item.indexOf id c).
Proof.
  unfold Arr.findIndex. rewrite findIndexFrom_embed.
  destruct (Item.indexOf id c); reflexivity.
Qed.

Lemma indexOf_nth id c n : Item.indexOf id c = Some n ->
  exists it, nth_error c n = Some it /\ Item.id it = id.
Proof.
  revert n. induction c as [|it c IH]; intros n; cbn [Item.indexOf]; [discriminate|].
  destruct (String.eqb_spec (Item.id it) id) as [E|E].
  - intros H. injection H as <-. exists it. auto.
  - destruct (Item.indexOf id c) as [m|]; [|discriminate].
    intros H. injection H as <-. cbn [nth_error]. apply IH. reflexivity.
Qed.

Lemma nth_embed c n it : nth_error c n = Some it ->
  nth n (embed c) VUndefined = Item.toValue it.
Proof.
  revert n. induction c as [|x c IH]; intros [|n]; cbn; try discriminate.
  - congruence.
  - apply IH.
Qed.

Lemma setAt_embed c : forall n it',
  Arr.setAt n (Item.toValue it') (embed c) = embed (Item.replaceAt n it' c).
Proof.
  induction c as [|x c IH]; intros [|n] it'; cbn; try reflexivity.
  f_equal. apply IH.
Qed.

Lemma ltb_int a b : Num.ltb (Int a) (Int b) = (a <? b).
Proof. cbn. unfold Z.ltb. destruct (a ?= b); reflexivity. Qed.

Lemma leb_int a b : Num.leb (Int a) (Int b) = (a <=? b).
Proof. cbn. unfold Z.leb. destruct (a ?= b); reflexivity. Qed.

(** [removeStock] on a collection of records follows the state machine. *)
Lemma removeStock_refines st c id quantity q now :
  Storage.getAllItems st = VArr (embed c) ->
  Storage.parseIntOr0 quantity = Ok (Int q) ->
  Storage.removeStock st (VStr id) quantity now
  = (Ok (Spec.render (fst (Spec.removeStock c id q now))),
     persisted st (snd (Spec.removeStock c id q now))).
Proof.
  intros Hst Hq. unfold Storage.removeStock, Spec.removeStock.
  rewrite Hst. cbn [Arr.asArray rbind].
  fold (Storage.hasId (VStr id)). rewrite findIndex_embed. cbn [rbind].
  destruct (Item.indexOf id c) as [n|] eqn:En; [|reflexivity].
  destruct (indexOf_nth _ _ _ En) as (it & Hn & _). rewrite Hn.
  rewrite (nth_embed _ _ _ Hn), Hq. cbn [rbind].
  rewrite leb_int. destruct (q <=? 0); [reflexivity|].
  change (JS.Get (Item.toValue it) "quantity") with (Ok (VNum (Int (Item.quantity it)))).
  cbn [rbind JS.toNumber]. rewrite ltb_int.
  destruct (Item.quantity it <? q); [reflexivity|].
  cbn [fst snd persisted Spec.render].
  rewrite <- setAt_embed. reflexivity.
Qed.

(** *** The store *)

Lemma getAllItems_isJSON st : isJSON (Storage.getAllItems st) = true.
Proof.
  unfold Storage.getAllItems. destruct st as [data|]; [|reflexivity].
  destruct (Str.isEmpty data); [reflexivity|].
  destruct (JSON.parse data) as [v|] eqn:E; [|reflexivity].
  exact (parse_isJSON _ _ E).
Qed.

Lemma stringify_arr l space :
  exists t, JSON.stringify (VArr l) space = Some (String "[" t).
Proof.
  unfold JSON.stringify. rewrite ser_arr.
  destruct (block_head "[" "]" space 0%nat (map (elemText space 1) l)) as (t & ->). eauto.
Qed.

(** Reading back what [saveAllItems] wrote. *)
Lemma getAllItems_saveAllItems l :
  wellFormedAll l = true ->
  Storage.getAllItems (Storage.saveAllItems (VArr l)) = clone (VArr l).
Proof.
  intros Hwf. unfold Storage.saveAllItems.
  destruct (stringify_arr l 0) as (t & E). rewrite E.
  unfold Storage.getAllItems. cbn [Str.isEmpty].
  rewrite (parse_stringify (VArr l) 0%nat _ Hwf E). reflexivity.
Qed.

Lemma getAllItems_saveAllItems_json l :
  allJSON l = true ->
  Storage.getAllItems (Storage.saveAllItems (VArr l)) = VArr l.
Proof.
  intros H. rewrite getAllItems_saveAllItems.
  - apply isJSON_clone. exact H.
  - rewrite <- wellFormed_arr. apply isJSON_wellFormed. exact H.
Qed.

(** *** Records in the store *)

Lemma isJSON_toValue it : isJSON (Item.toValue it) = Item.wf it.
Proof.
  unfold Item.wf. destruct it as [i [b|] sn su d cp sp q ca ua]; cbn;
    destruct (Num.wfFinite cp), (Num.wfFinite sp); reflexivity.
Qed.

Lemma allJSON_embed c : allJSON (embed c) = forallb Item.wf c.
Proof.
  induction c as [|it c IH]; [reflexivity|].
  cbn [embed map allJSON forallb]. fold (embed c). rewrite IH, isJSON_toValue. reflexivity.
Qed.

Lemma stored_wf st c :
  Storage.getAllItems st = VArr (embed c) -> forallb Item.wf c = true.
Proof.
  intros H. pose proof (getAllItems_isJSON st) as Hj. rewrite H in Hj.
  rewrite isJSON_arr, allJSON_embed in Hj. exact Hj.
Qed.

Lemma readback c :
  forallb Item.wf c = true ->
  Storage.getAllItems (Storage.saveAllItems (VArr (embed c))) = VArr (embed c).
Proof. intros H. apply getAllItems_saveAllItems_json. rewrite allJSON_embed. exact H. Qed.

Lemma wf_replaceAt c : forall n it',
  forallb Item.wf c = true -> Item.wf it' = true ->
  forallb Item.wf (Item.replaceAt n it' c) = true.
Proof.
  induction c as [|x c IH]; intros [|n] it' Hc Hi; cbn in *; try reflexivity;
    apply andb_true_iff in Hc as [H1 H2]; apply andb_true_iff; auto.
Qed.

Lemma forallb_nth {A} (p : A -> bool) l n x :
  forallb p l = true -> nth_error l n = Some x -> p x = true.
Proof.
  revert n. induction l as [|y l IH]; intros [|n]; cbn; try discriminate;
    intros H E; apply andb_true_iff in H as [H1 H2].
  - congruence.
  - eauto.
Qed.

(** What [removeStock] persists can be read back. *)
Lemma removeStock_readback st c id q now c' :
  Storage.getAllItems st = VArr (embed c) ->
  snd (Spec.removeStock c id q now) = Some c' ->
  Storage.getAllItems (Storage.saveAllItems (VArr (embed c'))) = VArr (embed c').
Proof.
  intros Hst Hw. apply readback. apply stored_wf in Hst.
  unfold Spec.removeStock in Hw.
  destruct (Item.indexOf id c) as [n|]; [|discriminate].
  destruct (nth_error c n) as [it|] eqn:En; [|discriminate].
  destruct (q <=? 0); [discriminate|].
  destruct (Item.quantity it <? q); [discriminate|].
  cbn [snd] in Hw. injection Hw as <-.
  apply wf_replaceAt; [assumption|].
  exact (forallb_nth _ _ _ _ Hst En).
Qed.

(** *** What [parseInt] makes of a number *)

Lemma parseIntString_digit d r : (d < 10)%N -> d <> 0%N ->
  NumParse.parseIntString (String (Str.digitChar d) r)
  = match Str.scanDigits 0 0 (String (Str.digitChar d) r) with
    | (_, O, _) => NaN
    | (v, S _, _) => Int (Z.of_N v)
    end.
Proof. intros H H0. digit_cases d H; try reflexivity. congruence. Qed.

Lemma parseIntString_neg_digit d r : (d < 10)%N -> d <> 0%N ->
  NumParse.parseIntString (String "-" (String (Str.digitChar d) r))
  = match Str.scanDigits 0 0 (String (Str.digitChar d) r) with
    | (_, O, _) => NaN
    | (v, S _, _) => Int (- Z.of_N v)
    end.
Proof. intros H H0. digit_cases d H; try reflexivity. congruence. Qed.

Lemma parseIntString_zero_point (neg : bool) r :
  NumParse.parseIntString ((if neg then "-" else EmptyString) +++ String "0" (String "." r))
  = Int 0.
Proof. destruct neg; reflexivity. Qed.

(** [parseInt] of digits followed by something that is no digit. *)
Lemma parseIntString_printNat (neg : bool) a rest :
  a <> 0%N -> noDigit rest ->
  NumParse.parseIntString ((if neg then "-" else EmptyString) +++ Str.printNat a +++ rest)
  = Int (if neg then - Z.of_N a else Z.of_N a).
Proof.
  intros Ha Hrest.
  destruct (printNat_head a) as (d & r0 & E & Hd & Hnz). specialize (Hnz Ha).
  pose proof (scanDigits_printNat a 0 0 rest) as Hs.
  rewrite (scanDigits_stop _ _ rest) in Hs by assumption.
  rewrite E in *. cbn [String.append] in *.
  destruct (ndigits_spec a) as (H1 & _).
  destruct neg; cbn [String.append];
    [rewrite parseIntString_neg_digit by assumption
    | rewrite parseIntString_digit by assumption];
    rewrite Hs; destruct (Str.ndigits a); try lia; cbn [Nat.add]; do 2 f_equal; lia.
Qed.

Lemma orZero_value z :
  match JS.orZero (Int z) with Int z' => z' | _ => 0 end = z.
Proof.
  unfold JS.orZero. cbn [Num.truthy Num.finIsZero].
  destruct (Z.eqb_spec z 0) as [E|E]; cbn [negb]; [symmetry; exact E | reflexivity].
Qed.

Lemma ndigits_le_21 a : (a < 10 ^ 21)%N -> (Str.ndigits a <= 21)%nat.
Proof.
  intros H. destruct (ndigits_spec a) as (H1 & H2 & [H3|H3]).
  - subst a. cbv. lia.
  - destruct (Nat.le_gt_cases (Str.ndigits a) 21) as [Hle|Hgt]; [assumption|exfalso].
    assert (10 ^ 21 <= 10 ^ N.of_nat (Str.ndigits a - 1))%N
      by (apply N.pow_le_mono_r; lia).
    lia.
Qed.

(** A positive integer below [10^21] is its own [parseInt]. *)
Lemma parsedQuantity_int q :
  0 < q < 10 ^ 21 -> parsedQuantity (PNum (Int q)) = q.
Proof.
  intros Hq. unfold parsedQuantity. cbn [primToString Num.toString Num.finiteToString].
  destruct (N.eqb_spec (Z.abs_N q) 0) as [E|E]; [lia|].
  assert (Hs : (Z.abs_N q < 10 ^ 21)%N).
  { apply N2Z.inj_lt. rewrite N2Z.inj_abs_N, N2Z.inj_pow.
    change (Z.of_N 10) with 10. change (Z.of_N 21) with 21. lia. }
  apply ndigits_le_21 in Hs. apply Nat.leb_le in Hs. rewrite Hs.
  destruct (Z.ltb_spec q 0) as [Hn|Hn]; [lia|].
  rewrite <- (append_nil_r (Str.printNat _)).
  rewrite (parseIntString_printNat false) by (auto; exact I).
  rewrite N2Z.inj_abs_N, Z.abs_eq by lia.
  apply orZero_value.
Qed.

Lemma ndigits_range s (k : Z) :
  (0 < s)%N -> 0 < k ->
  10 ^ k <= Z.of_N s * 10 ^ 6 -> Z.of_N s < 10 ^ (21 + k) ->
  -6 < Z.of_nat (Str.ndigits s) - k <= 21.
Proof.
  intros Hs Hk Hlo Hhi.
  destruct (ndigits_spec s) as (H1 & H2 & [H3|H3]); [lia|].
  apply N2Z.inj_lt in H2. apply N2Z.inj_le in H3.
  rewrite N2Z.inj_pow, nat_N_Z in H2, H3.
  set (d := Str.ndigits s) in *. change (Z.of_N 10) with 10 in *.
  split.
  - assert (10 ^ k < 10 ^ (Z.of_nat d + 6)).
    { rewrite Z.pow_add_r by lia. nia. }
    apply Z.pow_lt_mono_r_iff in H; lia.
  - assert (10 ^ (Z.of_nat (d - 1)) < 10 ^ (21 + k)) by lia.
    apply Z.pow_lt_mono_r_iff in H; lia.
Qed.

(** [parseInt] truncates a non-integer number printed without exponent,
    that is one of magnitude at least [10^-6] (and below [10^21]). *)
Lemma parsedQuantity_frac m kk :
  m mod 10 <> 0 ->
  10 ^ Z.pos kk <= Z.abs m * 10 ^ 6 -> Z.abs m < 10 ^ (21 + Z.pos kk) ->
  parsedQuantity (PNum (Fin (FFrac m kk))) = Z.quot m (10 ^ Z.pos kk).
Proof.
  intros Hwf Hlo Hhi. unfold parsedQuantity.
  cbn [primToString Num.toString Num.finiteToString].
  set (s := Z.abs_N m).
  assert (Hs : (0 < s)%N) by (subst s; lia).
  assert (Es : Z.of_N s = Z.abs m) by apply N2Z.inj_abs_N.
  pose proof (ndigits_range s (Z.pos kk) Hs ltac:(lia) ltac:(lia) ltac:(lia)) as Hr.
  rewrite positive_nat_Z.
  replace ((-6 <? Z.of_nat (Str.ndigits s) - Z.pos kk) &&
           (Z.of_nat (Str.ndigits s) - Z.pos kk <=? 21)) with true
    by (symmetry; apply andb_true_iff; split; [apply Z.ltb_lt | apply Z.leb_le]; lia).
  set (p := (10 ^ N.of_nat (Pos.to_nat kk))%N).
  assert (Ep : Z.of_N p = 10 ^ Z.pos kk).
  { subst p. rewrite N2Z.inj_pow, nat_N_Z, positive_nat_Z. reflexivity. }
  assert (Hp : 0 < 10 ^ Z.pos kk) by (apply Z.pow_pos_nonneg; lia).
  assert (Eq : Z.quot m (10 ^ Z.pos kk)
               = if m <? 0 then - Z.of_N (s / p) else Z.of_N (s / p)).
  { rewrite N2Z.inj_div, Es, Ep.
    destruct (Z.ltb_spec m 0) as [Hn|Hn].
    - rewrite <- (Z.opp_involutive m) at 1. rewrite Z.quot_opp_l by lia.
      rewrite Z.quot_div_nonneg by lia. f_equal. f_equal. lia.
    - rewrite Z.quot_div_nonneg by lia. f_equal. lia. }
  rewrite Eq.
  destruct (N.eq_dec (s / p) 0) as [E0|E0].
  - rewrite E0. change (Str.printNat 0) with "0". cbn [String.append].
    rewrite parseIntString_zero_point. destruct (m <? 0); reflexivity.
  - rewrite parseIntString_printNat by (auto; reflexivity).
    destruct (m <? 0); apply orZero_value.
Qed.

Lemma store_items :
  Storage.getAllItems Example.store = VArr (embed [Example.widget; Example.gadget]).
Proof. vm_compute. reflexivity. Qed.

(* ================================================================== *)
(** ** The exact range *)
(* ================================================================== *)

Lemma exact_nth c n it :
  Exact.items c = true -> nth_error c n = Some it -> Exact.item it = true.
Proof. exact (forallb_nth Exact.item c n it). Qed.

Lemma exact_replaceAt c : forall n it',
  Exact.items c = true -> Exact.item it' = true ->
  Exact.items (Item.replaceAt n it' c) = true.
Proof.
  unfold Exact.items.
  induction c as [|x c IH]; intros [|n] it' Hc Hi; cbn in *; try reflexivity;
    apply andb_true_iff in Hc as [H1 H2]; apply andb_true_iff; auto.
Qed.

Lemma exact_quantity it :
  Exact.item it = true -> Z.abs (Item.quantity it) <= Exact.MAX_SAFE_INTEGER.
Proof.
  unfold Exact.item, Exact.integer. intros H.
  apply andb_true_iff in H as [H _]. apply andb_true_iff in H as [H _].
  apply Z.leb_le. exact H.
Qed.

Lemma exact_withQuantity it q now :
  Exact.item it = true -> 0 <= q <= Item.quantity it ->
  Exact.item (Item.withQuantity it q now) = true.
Proof.
  intros H Hq. pose proof (exact_quantity it H) as Hb.
  unfold Exact.item in *. cbn [Item.withQuantity Item.quantity Item.costPrice
                                Item.sellingPrice].
  apply andb_true_iff in H as [H H3]. apply andb_true_iff in H as [_ H2].
  rewrite H2, H3, !andb_true_r. apply Z.leb_le. lia.
Qed.


Lemma safe_below_21 z : z <= Exact.MAX_SAFE_INTEGER -> z < 10 ^ 21.
Proof.
  assert (H : Exact.MAX_SAFE_INTEGER < 10 ^ 21) by (vm_compute; reflexivity).
  lia.
Qed.

Lemma store_exact : Exact.items [Example.widget; Example.gadget] = true.
Proof. vm_compute. reflexivity. Qed.

Lemma store_supported : Storage.supported Example.store = true.
Proof. vm_compute. reflexivity. Qed.

(* ================================================================== *)
(** ** The state machine of [removeStock] *)
(* ================================================================== *)

(** C1.  On a slot that holds a collection of records whose numbers are
    in the exact range, and for a quantity argument in that range,
    [removeStock] is the four-step state machine of the specification,
    its checks in that order: an unknown identifier is reported as such;
    else a parsed
    quantity that is not positive is reported as invalid; else a parsed
    quantity above the stock is reported with the stock that is
    available; and otherwise the stock is decremented by the parsed
    quantity, [updatedAt] becomes the clock reading, and the collection
    is persisted.  The three failures leave the slot as it was. *)
Theorem removeStock_state_machine st c id quantity now :
  Storage.supported st = true ->
  Storage.getAllItems st = VArr (embed c) ->
  Exact.items c = true -> Exact.quantity quantity = true ->
  let q := parsedQuantity quantity in
  let r := Storage.removeStock st (VStr id) (ofPrim quantity) now in
  r = (Ok (Spec.render (fst (Spec.removeStock c id q now))),
       persisted st (snd (Spec.removeStock c id q now))) /\
  (Item.indexOf id c = None ->
   r = (Ok (VObj [("success", VBool false); ("error", VStr "Item not found")]), st)) /\
  (forall n it, Item.indexOf id c = Some n -> nth_error c n = Some it ->
     (q <= 0 ->
      r = (Ok (VObj [("success", VBool false); ("error", VStr "Invalid quantity")]),
           st)) /\
     (0 < q -> Item.quantity it < q ->
      r = (Ok (VObj [("success", VBool false);
                     ("error", VStr ("Not enough stock. Available: "
                                     +++ Num.toString (Int (Item.quantity it))))]),
           st)) /\
     (0 < q <= Item.quantity it ->
      let it' := Item.withQuantity it (Item.quantity it - q) now in
      fst r = Ok (VObj [("success", VBool true); ("item", Item.toValue it');
                        ("removed", VNum (Int q))]) /\
      Storage.getAllItems (snd r) = VArr (embed (Item.replaceAt n it' c)) /\
      Exact.items (Item.replaceAt n it' c) = true)).
Proof.
  intros _ Hst Hex Hq q r.
  assert (Hr : r = (Ok (Spec.render (fst (Spec.removeStock c id q now))),
                    persisted st (snd (Spec.removeStock c id q now)))).
  { apply removeStock_refines; [assumption | apply parseIntOr0_prim]. }
  split; [exact Hr|]. split.
  - intros Hn. rewrite Hr. unfold Spec.removeStock. rewrite Hn. reflexivity.
  - intros n it Hn Hit. rewrite Hr. unfold Spec.removeStock. rewrite Hn, Hit.
    split; [|split].
    + intros Hle. destruct (Z.leb_spec q 0); [reflexivity | lia].
    + intros Hpos Hlt. destruct (Z.leb_spec q 0); [lia|].
      destruct (Z.ltb_spec (Item.quantity it) q); [reflexivity | lia].
    + intros Hin. destruct (Z.leb_spec q 0); [lia|].
      destruct (Z.ltb_spec (Item.quantity it) q); [lia|].
      cbn [fst snd persisted Spec.render]. split; [reflexivity|]. split.
      * apply readback. apply wf_replaceAt.
        -- exact (stored_wf st c Hst).
        -- exact (forallb_nth _ _ _ _ (stored_wf st c Hst) Hit).
      * apply exact_replaceAt; [assumption|].
        apply exact_withQuantity; [exact (exact_nth c n it Hex Hit) | lia].
Qed.

Lemma removeStock_state_machine_witness :
  Storage.supported Example.store = true /\
  Storage.getAllItems Example.store = VArr (embed [Example.widget; Example.gadget]) /\
  Exact.items [Example.widget; Example.gadget] = true /\
  Exact.quantity (PNum (Int 3)) = true /\
  fst (Storage.removeStock Example.store (VStr "item_1") (VNum (Int 3)) Example.now)
  = Ok (VObj [("success", VBool true);
              ("item", Item.toValue (Item.withQuantity Example.widget 7 Example.now));
              ("removed", VNum (Int 3))]) /\
  Storage.getAllItems
    (snd (Storage.removeStock Example.store (VStr "item_1") (VNum (Int 3)) Example.now))
  = VArr (embed [Item.withQuantity Example.widget 7 Example.now; Example.gadget]).
Proof.
  assert (Hq : Exact.quantity (PNum (Int 3)) = true) by (vm_compute; reflexivity).
  assert (Hin : 0 < parsedQuantity (PNum (Int 3)) <= Item.quantity Example.widget)
    by (vm_compute; split; [reflexivity | discriminate]).
  split; [exact store_supported|].
  split; [exact store_items|]. split; [exact store_exact|]. split; [exact Hq|].
  assert (Eq : parsedQuantity (PNum (Int 3)) = 3) by (vm_compute; reflexivity).
  destruct (proj2 (proj2 (proj2 (proj2 (removeStock_state_machine Example.store
                     [Example.widget; Example.gadget] "item_1" (PNum (Int 3))
                     Example.now store_supported store_items store_exact Hq))
                   0%nat Example.widget eq_refl eq_refl)) Hin) as (H1 & H2 & _).
  rewrite Eq in H1, H2. split; [exact H1 | exact H2].
Defined.

(** *** A successful decrement *)

Lemma crate_imported :
  Storage.getAllItems (snd (Storage.importData None Example.crateText))
  = VArr (embed [Example.crate]).
Proof. vm_compute. reflexivity. Qed.

(** C4, as the code has it.  On a collection of records whose numbers
    are in the exact range, for a record with stock [n] and an integer
    request [0 < q <= n], [removeStock] succeeds with [removed = q], the
    stock becomes [n - q] exactly, and [updatedAt] becomes the clock
    reading of the operation. *)
Theorem removeStock_decrements st c id n it q now :
  Storage.getAllItems st = VArr (embed c) ->
  Exact.items c = true ->
  Item.indexOf id c = Some n -> nth_error c n = Some it ->
  0 < q <= Item.quantity it ->
  let it' := Item.withQuantity it (Item.quantity it - q) now in
  let r := Storage.removeStock st (VStr id) (VNum (Int q)) now in
  fst r = Ok (VObj [("success", VBool true); ("item", Item.toValue it');
                    ("removed", VNum (Int q))]) /\
  Storage.getAllItems (snd r) = VArr (embed (Item.replaceAt n it' c)) /\
  Item.quantity it' = Item.quantity it - q /\
  Item.updatedAt it' = now.
Proof.
  intros Hst Hex Hn Hit Hq it' r.
  pose proof (exact_quantity it (exact_nth c n it Hex Hit)) as Hb.
  assert (Hbig : q < 10 ^ 21) by (apply safe_below_21; lia).
  assert (Hr : r = (Ok (Storage.success (Item.toValue it') (Int q)),
                    Storage.saveAllItems (VArr (embed (Item.replaceAt n it' c))))).
  { subst r. rewrite (removeStock_refines st c id (VNum (Int q)) q now Hst).
    - unfold Spec.removeStock. rewrite Hn, Hit.
      destruct (Z.leb_spec q 0); [lia|]. destruct (Z.ltb_spec (Item.quantity it) q); [lia|].
      reflexivity.
    - rewrite <- (parsedQuantity_int q) at 2 by lia. exact (parseIntOr0_prim (PNum (Int q))). }
  rewrite Hr. cbn [fst snd]. repeat split.
  apply readback. apply wf_replaceAt.
  - exact (stored_wf st c Hst).
  - exact (forallb_nth _ _ _ _ (stored_wf st c Hst) Hit).
Qed.

Lemma removeStock_decrements_witness :
  Storage.getAllItems Example.store = VArr (embed [Example.widget; Example.gadget]) /\
  Exact.items [Example.widget; Example.gadget] = true /\
  0 < 3 <= Item.quantity Example.widget /\
  fst (Storage.removeStock Example.store (VStr "item_1") (VNum (Int 3)) Example.now)
  = Ok (VObj [("success", VBool true);
              ("item", Item.toValue (Item.withQuantity Example.widget 7 Example.now));
              ("removed", VNum (Int 3))]).
Proof.
  assert (Hq : 0 < 3 <= Item.quantity Example.widget)
    by (vm_compute; split; [reflexivity | discriminate]).
  split; [exact store_items|]. split; [exact store_exact|]. split; [exact Hq|].
  exact (proj1 (removeStock_decrements Example.store
                  [Example.widget; Example.gadget] "item_1" 0%nat Example.widget 3
                  Example.now store_items store_exact eq_refl eq_refl Hq)).
Defined.

(** C4 fails as stated: a record imported with a later time stamp gets an
    earlier [updatedAt] when stock is removed; and a request of 2.5 from a
    stock of 10 removes 2 and leaves 8. *)
Lemma removeStock_updatedAt_not_advanced :
  fst (Storage.removeStock Example.crateStore (VStr "item_9") (VNum (Int 3)) Example.now)
  = Ok (VObj [("success", VBool true);
              ("item", Item.toValue (Item.withQuantity Example.crate 7 Example.now));
              ("removed", VNum (Int 3))]) /\
  String.ltb (Item.updatedAt Example.crate)
             (Item.updatedAt (Item.withQuantity Example.crate 7 Example.now)) = false /\
  fst (Storage.removeStock Example.store (VStr "item_1") (VNum (Fin (FFrac 25 1)))
         Example.now)
  = Ok (VObj [("success", VBool true);
              ("item", Item.toValue (Item.withQuantity Example.widget 8 Example.now));
              ("removed", VNum (Int 2))]).
Proof. vm_compute. repeat split. Qed.

(** *** Failures leave the store alone *)

Lemma success_not_failure item removed msg :
  Storage.success item removed <> Storage.failure msg.
Proof. discriminate. Qed.

(** A call that does not report success leaves the slot as it was. *)
Lemma removeStock_unchanged st id quantity now :
  snd (Storage.removeStock st id quantity now) = st \/
  exists item removed,
    fst (Storage.removeStock st id quantity now) = Ok (Storage.success item removed).
Proof.
  unfold Storage.removeStock.
  repeat match goal with
         | |- context [rbind ?x _] =>
             match x with
             | Ok _ => cbn [rbind]
             | _ => destruct x as [?|?]; cbn [rbind]
             end
         | |- context [match ?x with Some _ => _ | None => _ end] => destruct x
         | |- context [if ?b then _ else _] => destruct b
         end;
    first [left; reflexivity | right; do 2 eexists; reflexivity].
Qed.

(** C5, as the code has it.  Whenever [removeStock] reports a failure
    (unknown item, invalid quantity, not enough stock) the slot is left
    as it was, whatever it holds; and for a record of a collection in
    the exact range this is the outcome whenever the parsed quantity, of
    an argument in that range, exceeds its stock. *)
Theorem removeStock_failure_leaves_store st id quantity now :
  (forall msg,
     fst (Storage.removeStock st id quantity now)
     = Ok (VObj [("success", VBool false); ("error", VStr msg)]) ->
     snd (Storage.removeStock st id quantity now) = st) /\
  (forall c i n it q,
     Storage.getAllItems st = VArr (embed c) ->
     Exact.items c = true -> Exact.quantity q = true ->
     id = VStr i -> quantity = ofPrim q ->
     Item.indexOf i c = Some n -> nth_error c n = Some it ->
     Item.quantity it < parsedQuantity q ->
     (0 < parsedQuantity q ->
      Storage.removeStock st id quantity now
      = (Ok (VObj [("success", VBool false);
                   ("error", VStr ("Not enough stock. Available: "
                                   +++ Num.toString (Int (Item.quantity it))))]),
         st)) /\
     (parsedQuantity q <= 0 ->
      Storage.removeStock st id quantity now
      = (Ok (VObj [("success", VBool false); ("error", VStr "Invalid quantity")]),
         st))).
Proof.
  split.
  - intros msg H. destruct (removeStock_unchanged st id quantity now) as [E|(item & removed & E)];
      [exact E|]. rewrite E in H. injection H as H. discriminate.
  - intros c i n it q Hst Hex Hx -> -> Hn Hit Hq.
    rewrite (removeStock_refines st c i (ofPrim q) (parsedQuantity q) now Hst
               (parseIntOr0_prim q)).
    unfold Spec.removeStock. rewrite Hn, Hit.
    split; intros Hs; destruct (Z.leb_spec (parsedQuantity q) 0); try lia;
      [|reflexivity].
    destruct (Z.ltb_spec (Item.quantity it) (parsedQuantity q)); [|lia].
    reflexivity.
Qed.

Lemma removeStock_failure_leaves_store_witness :
  fst (Storage.removeStock Example.store (VStr "item_1") (VNum (Int 100)) Example.now)
  = Ok (VObj [("success", VBool false);
              ("error", VStr "Not enough stock. Available: 10")]) /\
  snd (Storage.removeStock Example.store (VStr "item_1") (VNum (Int 100)) Example.now)
  = Example.store.
Proof.
  assert (Hx : Exact.quantity (PNum (Int 100)) = true) by (vm_compute; reflexivity).
  assert (Hq : Item.quantity Example.widget < parsedQuantity (PNum (Int 100)))
    by (vm_compute; reflexivity).
  assert (Hp : 0 < parsedQuantity (PNum (Int 100))) by (vm_compute; reflexivity).
  pose proof (proj1 (proj2 (removeStock_failure_leaves_store Example.store
                              (VStr "item_1") (VNum (Int 100)) Example.now)
                       [Example.widget; Example.gadget] "item_1" 0%nat Example.widget
                       (PNum (Int 100)) store_items store_exact Hx eq_refl eq_refl
                       eq_refl eq_refl Hq) Hp) as H.
  rewrite H. split; [vm_compute; reflexivity | reflexivity].
Defined.

(** C5 fails as stated: a request of 5.5 exceeds a stock of 5, yet it is
    parsed to 5, succeeds, and the persisted stock becomes 0. *)
Lemma removeStock_above_stock_succeeds :
  Num.ltb (Int (Item.quantity Example.gadget)) (Fin (FFrac 55 1)) = true /\
  fst (Storage.removeStock Example.store (VStr "item_2") (VNum (Fin (FFrac 55 1)))
         Example.now)
  = Ok (VObj [("success", VBool true);
              ("item", Item.toValue (Item.withQuantity Example.gadget 0 Example.now));
              ("removed", VNum (Int 5))]) /\
  Storage.getAllItems
    (snd (Storage.removeStock Example.store (VStr "item_2") (VNum (Fin (FFrac 55 1)))
            Example.now))
  = VArr (embed [Example.widget; Item.withQuantity Example.gadget 0 Example.now]) /\
  snd (Storage.removeStock Example.store (VStr "item_2") (VNum (Fin (FFrac 55 1)))
         Example.now)
  <> Example.store.
Proof. vm_compute. repeat split. discriminate. Qed.

(** *** Requests that are no integers *)

(** C10, as the code has it.  A non-integer number of at most 15
    significant digits and of magnitude at least [10^-6] is parsed by
    truncation: on a slot that holds a collection of records in the
    exact range
    [removeStock] then proceeds as the state machine does on [trunc q],
    removing [trunc q] units when [0 < trunc q <= stock] and reporting an
    invalid quantity when [trunc q] is [0]. *)
Theorem removeStock_truncates st c id m k now :
  Storage.supported st = true ->
  Storage.getAllItems st = VArr (embed c) ->
  Exact.items c = true ->
  m mod 10 <> 0 ->
  10 ^ Z.pos k <= Z.abs m * 10 ^ 6 -> Z.abs m < 10 ^ 15 ->
  let q := Z.quot m (10 ^ Z.pos k) in
  let r := Storage.removeStock st (VStr id) (VNum (Fin (FFrac m k))) now in
  r = (Ok (Spec.render (fst (Spec.removeStock c id q now))),
       persisted st (snd (Spec.removeStock c id q now))) /\
  (q = 0 -> Item.indexOf id c <> None ->
   r = (Ok (VObj [("success", VBool false); ("error", VStr "Invalid quantity")]),
        st)) /\
  (forall n it, Item.indexOf id c = Some n -> nth_error c n = Some it ->
     0 < q <= Item.quantity it ->
     let it' := Item.withQuantity it (Item.quantity it - q) now in
     fst r = Ok (VObj [("success", VBool true); ("item", Item.toValue it');
                       ("removed", VNum (Int q))]) /\
     Storage.getAllItems (snd r) = VArr (embed (Item.replaceAt n it' c))).
Proof.
  intros _ Hst Hex Hwf Hlo Hhi q r.
  assert (Hhi' : Z.abs m < 10 ^ (21 + Z.pos k)).
  { assert (10 ^ 15 <= 10 ^ (21 + Z.pos k)) by (apply Z.pow_le_mono_r; lia). lia. }
  assert (Hr : r = (Ok (Spec.render (fst (Spec.removeStock c id q now))),
                    persisted st (snd (Spec.removeStock c id q now)))).
  { apply removeStock_refines; [assumption|].
    subst q. rewrite <- (parsedQuantity_frac m k Hwf Hlo Hhi').
    exact (parseIntOr0_prim (PNum (Fin (FFrac m k)))). }
  split; [exact Hr|]. split.
  - intros Hq Hfound. rewrite Hr. unfold Spec.removeStock.
    destruct (Item.indexOf id c) as [n|] eqn:En; [|congruence].
    destruct (indexOf_nth _ _ _ En) as (it & Hit & _). rewrite Hit, Hq. reflexivity.
  - intros n it Hn Hit Hin. rewrite Hr. unfold Spec.removeStock. rewrite Hn, Hit.
    destruct (Z.leb_spec q 0); [lia|].
    destruct (Z.ltb_spec (Item.quantity it) q); [lia|].
    cbn [fst snd persisted Spec.render]. split; [reflexivity|].
    apply readback. apply wf_replaceAt.
    + exact (stored_wf st c Hst).
    + exact (forallb_nth _ _ _ _ (stored_wf st c Hst) Hit).
Qed.

Lemma removeStock_truncates_witness :
  Storage.supported Example.store = true /\
  Storage.getAllItems Example.store = VArr (embed [Example.widget; Example.gadget]) /\
  Exact.items [Example.widget; Example.gadget] = true /\
  Storage.removeStock Example.store (VStr "item_1") (VNum (Fin (FFrac 39 1))) Example.now
  = (Ok (VObj [("success", VBool true);
               ("item", Item.toValue (Item.withQuantity Example.widget 7 Example.now));
               ("removed", VNum (Int 3))]),
     Storage.saveAllItems
       (VArr (embed [Item.withQuantity Example.widget 7 Example.now; Example.gadget]))).
Proof.
  assert (H1 : 39 mod 10 <> 0) by discriminate.
  assert (H2 : 10 ^ Z.pos 1 <= Z.abs 39 * 10 ^ 6) by (vm_compute; discriminate).
  assert (H3 : Z.abs 39 < 10 ^ 15) by (vm_compute; reflexivity).
  split; [exact store_supported|]. split; [exact store_items|].
  split; [exact store_exact|].
  rewrite (proj1 (removeStock_truncates Example.store [Example.widget; Example.gadget]
                    "item_1" 39 1%positive Example.now store_supported store_items
                    store_exact H1 H2 H3)).
  vm_compute. reflexivity.
Defined.

(** C10 fails as stated: 0.0000005 truncates to 0, but it prints as
    [5e-7], is parsed to 5, and five units are removed. *)
Lemma removeStock_tiny_quantity :
  Z.quot 5 (10 ^ 7) = 0 /\
  Num.toString (Fin (FFrac 5 7)) = "5e-7" /\
  fst (Storage.removeStock Example.store (VStr "item_1") (VNum (Fin (FFrac 5 7)))
         Example.now)
  = Ok (VObj [("success", VBool true);
              ("item", Item.toValue (Item.withQuantity Example.widget 5 Example.now));
              ("removed", VNum (Int 5))]).
Proof. vm_compute. repeat split. Qed.

(* ================================================================== *)
(** ** Search and lookup *)
(* ================================================================== *)

Lemma isWhiteSpace_lowerChar c : Str.isWhiteSpace (Str.lowerChar c) = Str.isWhiteSpace c.
Proof. destruct c as [[] [] [] [] [] [] [] []]; reflexivity. Qed.

Lemma toLowerCase_trimStart s :
  Str.toLowerCase (Str.trimStart s) = Str.trimStart (Str.toLowerCase s).
Proof.
  induction s as [|c s IH]; [reflexivity|].
  cbn [Str.trimStart Str.toLowerCase]. rewrite isWhiteSpace_lowerChar.
  destruct (Str.isWhiteSpace c); [exact IH | reflexivity].
Qed.

Lemma toLowerCase_trimEnd s :
  Str.toLowerCase (Str.trimEnd s) = Str.trimEnd (Str.toLowerCase s).
Proof.
  induction s as [|c s IH]; [reflexivity|].
  cbn [Str.trimEnd Str.toLowerCase]. rewrite <- IH, isWhiteSpace_lowerChar.
  destruct (Str.trimEnd s); cbn [Str.toLowerCase]; [|reflexivity].
  destruct (Str.isWhiteSpace c); reflexivity.
Qed.

(** Trimming and lower-casing commute. *)
Lemma toLowerCase_trim s : Str.toLowerCase (Str.trim s) = Str.trim (Str.toLowerCase s).
Proof. unfold Str.trim. rewrite toLowerCase_trimEnd, toLowerCase_trimStart. reflexivity. Qed.

Lemma matches_toValue term it :
  Str.isEmpty term = false ->
  Storage.matches (Str.toLowerCase term) (Item.toValue it) = Ok (Spec.matchesQuery term it).
Proof.
  intros Hterm.
  destruct it as [i b sn su d cp sp q ca ua].
  unfold Spec.matchesQuery, Spec.contains, Storage.matches, Storage.fieldIncludes.
  cbn [Item.description Item.stockNumber Item.supplier Item.barcode].
  change (JS.Get (Item.toValue (Item.mk i b sn su d cp sp q ca ua)) "description")
    with (Ok (VStr d)).
  change (JS.Get (Item.toValue (Item.mk i b sn su d cp sp q ca ua)) "stockNumber")
    with (Ok (VStr sn)).
  change (JS.Get (Item.toValue (Item.mk i b sn su d cp sp q ca ua)) "supplier")
    with (Ok (VStr su)).
  change (JS.Get (Item.toValue (Item.mk i b sn su d cp sp q ca ua)) "barcode")
    with (Ok (Item.barcodeValue b)).
  cbn [rbind Storage.toLowerCase].
  destruct (Str.includes (Str.toLowerCase d) _); [reflexivity|].
  destruct (Str.includes (Str.toLowerCase sn) _); [reflexivity|].
  destruct (Str.includes (Str.toLowerCase su) _); [reflexivity|].
  cbn [orb].
  destruct b as [b|]; cbn [Item.barcodeValue JS.truthy]; [|reflexivity].
  destruct b as [|c b']; [|reflexivity].
  destruct term; [discriminate | reflexivity].
Qed.

Lemma filter_embed term c :
  Str.isEmpty term = false ->
  Arr.filter (Storage.matches (Str.toLowerCase term)) (embed c)
  = Ok (embed (filter (Spec.matchesQuery term) c)).
Proof.
  intros Hterm.
  induction c as [|it c IH]; [reflexivity|].
  cbn [embed map Arr.filter filter]. fold (embed c).
  rewrite matches_toValue, IH by assumption. cbn [rbind].
  destruct (Spec.matchesQuery term it); reflexivity.
Qed.

(** [searchItems] on a collection of records. *)
Lemma searchItems_embed st c query :
  Storage.getAllItems st = VArr (embed c) ->
  Storage.searchItems st (VStr query) = (Ok (embed (Spec.searchTrimmed c query)), st).
Proof.
  intros Hst. unfold Storage.searchItems, Spec.searchTrimmed, Spec.blank.
  rewrite Hst. cbn [JS.truthy].
  destruct query as [|ch q]; [reflexivity|]. cbn [Str.isEmpty negb].
  destruct (Str.isEmpty (Str.trim (String ch q))) eqn:Eb; [reflexivity|].
  cbn [Arr.asArray rbind]. rewrite <- toLowerCase_trim, filter_embed by assumption.
  reflexivity.
Qed.


(** *** Search *)




(** *** Routing of a scanned code *)

Lemma hasBarcode_toValue code it :
  Storage.hasBarcode (VStr code) (Item.toValue it) = Ok (Spec.hasBarcode code it).
Proof. destruct it as [i [b|] sn su d cp sp q ca ua]; reflexivity. Qed.

Lemma find_embed code c :
  Arr.find (Storage.hasBarcode (VStr code)) (embed c)
  = Ok (match find (Spec.hasBarcode code) c with
        | Some it => Item.toValue it
        | None => VUndefined
        end).
Proof.
  induction c as [|it c IH]; [reflexivity|].
  cbn [embed map Arr.find find]. fold (embed c).
  rewrite hasBarcode_toValue. cbn [rbind].
  destruct (Spec.hasBarcode code it); [reflexivity | exact IH].
Qed.

Lemma getItemByBarcode_embed st c code :
  Storage.getAllItems st = VArr (embed c) ->
  fst (Storage.getItemByBarcode st (VStr code))
  = Ok (match find (Spec.hasBarcode code) c with
        | Some it => Item.toValue it
        | None => VNull
        end).
Proof.
  intros Hst. unfold Storage.getItemByBarcode. rewrite Hst. cbn [fst Arr.asArray rbind].
  fold (Storage.hasBarcode (VStr code)). rewrite find_embed. cbn [rbind].
  destruct (find (Spec.hasBarcode code) c); reflexivity.
Qed.




(* ================================================================== *)
(** ** Update, delete and add *)
(* ================================================================== *)

Lemma Get_payload fields k : JS.Get (payload fields) k = Ok (ofPrim (fieldOf k fields)).
Proof.
  unfold payload, JS.Get. f_equal.
  induction fields as [|[k' p] fields IH]; [reflexivity|].
  cbn [map fst snd JS.lookup fieldOf]. destruct (String.eqb k' k); [reflexivity | exact IH].
Qed.

Lemma parseFloat_prim p : JS.parseFloat (ofPrim p) = Ok (NumParse.parseFloatString (primToString p)).
Proof. unfold JS.parseFloat. rewrite toString_prim. reflexivity. Qed.

Lemma parseInt_prim p : JS.parseInt (ofPrim p) = Ok (NumParse.parseIntString (primToString p)).
Proof. unfold JS.parseInt. rewrite toString_prim. reflexivity. Qed.

Lemma overlayField_payload fields old k x :
  JS.Get old k = Ok x ->
  Storage.overlayField (payload fields) old k = Ok (Spec.overlayText (fieldOf k fields) x).
Proof.
  intros H. unfold Storage.overlayField, Spec.overlayText. rewrite Get_payload. cbn [rbind].
  destruct (JS.truthy (ofPrim (fieldOf k fields))); [reflexivity | exact H].
Qed.

Lemma overlayNumber_payload parse parseString fields old k x :
  (forall p, parse (ofPrim p) = Ok (parseString (primToString p))) ->
  JS.Get old k = Ok x ->
  Storage.overlayNumber parse (payload fields) old k
  = Ok (Spec.overlayNumber parseString (fieldOf k fields) x).
Proof.
  intros Hp H. unfold Storage.overlayNumber, Spec.overlayNumber. rewrite Get_payload.
  cbn [rbind].
  pose proof (Hp (fieldOf k fields)) as E.
  destruct (fieldOf k fields) as [| |b|n|s]; cbn [ofPrim] in *; try exact H;
    rewrite E; reflexivity.
Qed.

Lemma sameId_payload fields i it :
  fieldOf "id" fields = PStr i ->
  Storage.sameId (payload fields) (Item.toValue it) = Ok (String.eqb (Item.id it) i).
Proof.
  intros H. unfold Storage.sameId. rewrite Get_payload, H. reflexivity.
Qed.

Lemma findIndexFrom_payload fields i c : fieldOf "id" fields = PStr i -> forall j,
  Arr.findIndexFrom (Storage.sameId (payload fields)) j (embed c)
  = Ok (match Item.indexOf i c with Some n => Some (j + n)%nat | None => None end).
Proof.
  intros H. induction c as [|it c IH]; intros j; [reflexivity|].
  cbn [embed map Arr.findIndexFrom Item.indexOf].
  rewrite (sameId_payload fields i it H).
  cbn [rbind]. destruct (String.eqb (Item.id it) i).
  - rewrite Nat.add_0_r. reflexivity.
  - fold (embed c). rewrite IH. destruct (Item.indexOf i c); [|reflexivity].
    do 2 f_equal. lia.
Qed.

(** [updateItem] on a record of the collection. *)
Lemma updateItem_embed st c fields now i n it :
  Storage.getAllItems st = VArr (embed c) ->
  fieldOf "id" fields = PStr i ->
  Item.indexOf i c = Some n -> nth_error c n = Some it ->
  Storage.updateItem st (payload fields) now
  = (Ok (Spec.updated it fields now),
     Storage.saveAllItems (VArr (Arr.setAt n (Spec.updated it fields now) (embed c)))).
Proof.
  intros Hst Hid Hn Hit. unfold Storage.updateItem. rewrite Hst. cbn [Arr.asArray rbind].
  unfold Arr.findIndex. rewrite (findIndexFrom_payload fields i c Hid), Hn.
  cbn [rbind Nat.add]. rewrite (nth_embed _ _ _ Hit).
  rewrite (overlayField_payload fields _ "barcode" (Item.barcodeValue (Item.barcode it)))
    by reflexivity.
  rewrite (overlayField_payload fields _ "stockNumber" (VStr (Item.stockNumber it)))
    by reflexivity.
  rewrite (overlayField_payload fields _ "supplier" (VStr (Item.supplier it)))
    by reflexivity.
  rewrite (overlayField_payload fields _ "description" (VStr (Item.description it)))
    by reflexivity.
  rewrite (overlayNumber_payload JS.parseFloat NumParse.parseFloatString fields _
             "costPrice" (VNum (Fin (Item.costPrice it))) parseFloat_prim)
    by reflexivity.
  rewrite (overlayNumber_payload JS.parseFloat NumParse.parseFloatString fields _
             "sellingPrice" (VNum (Fin (Item.sellingPrice it))) parseFloat_prim)
    by reflexivity.
  rewrite (overlayNumber_payload JS.parseInt NumParse.parseIntString fields _
             "quantity" (VNum (Int (Item.quantity it))) parseInt_prim)
    by reflexivity.
  cbn [rbind]. reflexivity.
Qed.

(** *** The overlay of an update *)











(** *** [deleteItem] *)

Lemma filter_otherId i c :
  Arr.filter (Storage.otherId (VStr i)) (embed c) = Ok (embed (filter (Spec.keepOthers i) c)).
Proof.
  induction c as [|it c IH]; [reflexivity|].
  cbn [embed map Arr.filter filter]. fold (embed c).
  change (Storage.otherId (VStr i) (Item.toValue it)) with (Ok (Spec.keepOthers i it)).
  rewrite IH. cbn [rbind]. destruct (Spec.keepOthers i it); reflexivity.
Qed.

Lemma deleteItem_embed st c i :
  Storage.getAllItems st = VArr (embed c) ->
  Storage.deleteItem st (VStr i)
  = if (List.length (filter (Spec.keepOthers i) c) =? List.length c)%nat
    then (Ok false, st)
    else (Ok true, Storage.saveAllItems (VArr (embed (filter (Spec.keepOthers i) c)))).
Proof.
  intros Hst. unfold Storage.deleteItem. rewrite Hst. cbn [Arr.asArray rbind].
  fold (Storage.otherId (VStr i)). rewrite filter_otherId. cbn [rbind].
  unfold embed. rewrite !length_map. reflexivity.
Qed.

Lemma forallb_filter {A} (p q : A -> bool) l :
  forallb p l = true -> forallb p (filter q l) = true.
Proof.
  induction l as [|x l IH]; [reflexivity|]. cbn [forallb filter]. intros H.
  apply andb_true_iff in H as [H1 H2].
  destruct (q x); cbn [forallb]; rewrite ?H1; auto.
Qed.

Lemma nonNegative_replaceAt c : forall n it',
  Spec.nonNegative c -> 0 <= Item.quantity it' ->
  Spec.nonNegative (Item.replaceAt n it' c).
Proof.
  unfold Spec.nonNegative.
  induction c as [|x c IH]; intros [|n] it' Hc Hi; cbn [Item.replaceAt]; try assumption;
    inversion Hc; subst; constructor; auto.
Qed.

Lemma nonNegative_filter p c : Spec.nonNegative c -> Spec.nonNegative (filter p c).
Proof.
  unfold Spec.nonNegative. rewrite !Forall_forall. intros H x Hx.
  apply filter_In in Hx as [Hx _]. auto.
Qed.

(** *** [addItem] *)

Lemma parseFloatOr0_prim p :
  Storage.parseFloatOr0 (ofPrim p)
  = Ok (JS.orZero (NumParse.parseFloatString (primToString p))).
Proof. unfold Storage.parseFloatOr0. rewrite parseFloat_prim. reflexivity. Qed.

Lemma addItem_result st l fields newId created updated :
  Storage.getAllItems st = VArr l ->
  exists newItem,
    Storage.addItem st (payload fields) newId created updated
    = (Ok newItem, Storage.saveAllItems (VArr (l ++ [newItem]))) /\
    JS.Get newItem "quantity"
    = Ok (VNum (Int (parsedQuantity (fieldOf "quantity" fields)))).
Proof.
  intros Hst. unfold Storage.addItem. rewrite Hst.
  rewrite !Get_payload. cbn [rbind].
  rewrite !parseFloatOr0_prim. cbn [rbind].
  rewrite parseIntOr0_prim. cbn [rbind Arr.asArray].
  eexists. split; reflexivity.
Qed.

(** *** The sign of quantities *)

(** C2, as the code has it.  From a slot that holds a collection in the
    exact range whose quantities are all non-negative, [removeStock] (with a quantity
    argument in that range) and [deleteItem] lead to a persisted
    collection whose quantities are all non-negative, and a decrement
    that would make a quantity negative is rejected, the slot being left
    as it was; [addItem] stores [parseInt(quantity) || 0] as it is,
    without a check of its sign. *)
Theorem quantities_stay_nonnegative st c :
  Storage.supported st = true ->
  Storage.getAllItems st = VArr (embed c) ->
  Exact.items c = true ->
  Spec.nonNegative c ->
  (forall id q now,
     Exact.quantity q = true ->
     exists c', Storage.getAllItems (snd (Storage.removeStock st (VStr id) (ofPrim q) now))
                = VArr (embed c') /\ Spec.nonNegative c' /\ Exact.items c' = true) /\
  (forall id q now n it,
     Exact.quantity q = true ->
     Item.indexOf id c = Some n -> nth_error c n = Some it ->
     Item.quantity it - parsedQuantity q < 0 ->
     (exists msg,
        Storage.removeStock st (VStr id) (ofPrim q) now
        = (Ok (VObj [("success", VBool false); ("error", VStr msg)]), st))) /\
  (forall id,
     exists c', Storage.getAllItems (snd (Storage.deleteItem st (VStr id)))
                = VArr (embed c') /\ Spec.nonNegative c' /\ Exact.items c' = true) /\
  (forall fields newId created updated,
     (forall k, Exact.given (fieldOf k fields) = true) ->
     Exact.quantity (fieldOf "quantity" fields) = true ->
     Exact.price (fieldOf "costPrice" fields) = true ->
     Exact.price (fieldOf "sellingPrice" fields) = true ->
     exists newItem,
       Storage.addItem st (payload fields) newId created updated
       = (Ok newItem, Storage.saveAllItems (VArr (embed c ++ [newItem]))) /\
       JS.Get newItem "quantity"
       = Ok (VNum (Int (parsedQuantity (fieldOf "quantity" fields))))).
Proof.
  intros _ Hst Hex Hnn. pose proof (stored_wf st c Hst) as Hwf.
  split; [|split; [|split]].
  - intros id q now Hq.
    rewrite (removeStock_refines st c id (ofPrim q) (parsedQuantity q) now Hst
               (parseIntOr0_prim q)).
    cbn [snd].
    destruct (snd (Spec.removeStock c id (parsedQuantity q) now)) as [c'|] eqn:Ew;
      cbn [persisted]; [|exists c; auto].
    exists c'. split; [exact (removeStock_readback st c id _ now c' Hst Ew)|].
    unfold Spec.removeStock in Ew.
    destruct (Item.indexOf id c) as [n|]; [|discriminate].
    destruct (nth_error c n) as [it|] eqn:En; [|discriminate].
    destruct (Z.leb_spec (parsedQuantity q) 0); [discriminate|].
    destruct (Z.ltb_spec (Item.quantity it) (parsedQuantity q)); [discriminate|].
    cbn [snd] in Ew. injection Ew as <-. split.
    + apply nonNegative_replaceAt; [assumption | cbn; lia].
    + apply exact_replaceAt; [assumption|].
      apply exact_withQuantity; [exact (exact_nth c n it Hex En) | lia].
  - intros id q now n it Hq Hn Hit Hneg.
    rewrite (removeStock_refines st c id (ofPrim q) (parsedQuantity q) now Hst
               (parseIntOr0_prim q)).
    unfold Spec.removeStock. rewrite Hn, Hit.
    destruct (parsedQuantity q <=? 0); [eexists; reflexivity|].
    destruct (Z.ltb_spec (Item.quantity it) (parsedQuantity q)); [eexists; reflexivity | lia].
  - intros id. rewrite (deleteItem_embed st c id Hst).
    destruct (_ =? _)%nat; cbn [snd]; [exists c; auto|].
    exists (filter (Spec.keepOthers id) c). split; [|split].
    + apply readback. apply forallb_filter. assumption.
    + apply nonNegative_filter. assumption.
    + apply forallb_filter. assumption.
  - intros fields newId created updated _ _ _ _.
    apply addItem_result. assumption.
Qed.

Lemma quantities_stay_nonnegative_witness :
  Storage.supported Example.store = true /\
  Storage.getAllItems Example.store = VArr (embed [Example.widget; Example.gadget]) /\
  Exact.items [Example.widget; Example.gadget] = true /\
  Spec.nonNegative [Example.widget; Example.gadget] /\
  Exact.quantity (PNum (Int 6)) = true /\
  Item.quantity Example.gadget - parsedQuantity (PNum (Int 6)) < 0 /\
  exists msg,
    Storage.removeStock Example.store (VStr "item_2") (VNum (Int 6)) Example.now
    = (Ok (VObj [("success", VBool false); ("error", VStr msg)]), Example.store).
Proof.
  assert (Hnn : Spec.nonNegative [Example.widget; Example.gadget])
    by (repeat constructor; vm_compute; discriminate).
  assert (Hx : Exact.quantity (PNum (Int 6)) = true) by (vm_compute; reflexivity).
  assert (Hq : Item.quantity Example.gadget - parsedQuantity (PNum (Int 6)) < 0)
    by (vm_compute; reflexivity).
  split; [exact store_supported|].
  split; [exact store_items|]. split; [exact store_exact|]. split; [exact Hnn|].
  split; [exact Hx|]. split; [exact Hq|].
  exact (proj1 (proj2 (quantities_stay_nonnegative Example.store
                         [Example.widget; Example.gadget] store_supported store_items
                         store_exact Hnn))
           "item_2" (PNum (Int 6)) Example.now 1%nat Example.gadget Hx eq_refl eq_refl Hq).
Defined.

(** C2 fails as stated: a new item whose quantity is given as [-5] is
    stored with quantity [-5]; an update and an import store a negative
    quantity likewise. *)
Lemma addItem_stores_negative_quantity :
  Storage.getAllItems
    (snd (Storage.addItem None (payload Example.nails) "item_7" Example.now Example.now))
  = VArr (embed [Item.mk "item_7" None "SN7" "Acme" "Nails" (FInt 1) (FInt 2) (-5)
                   Example.now Example.now]) /\
  ~ Spec.nonNegative [Item.mk "item_7" None "SN7" "Acme" "Nails" (FInt 1) (FInt 2) (-5)
                        Example.now Example.now] /\
  Storage.getAllItems
    (snd (Storage.updateItem Example.store
            (payload [("id", PStr "item_1"); ("quantity", PStr "-5")]) Example.now))
  = VArr (embed [Item.withQuantity Example.widget (-5) Example.now; Example.gadget]) /\
  Storage.getAllItems
    (snd (Storage.importData Example.store
            (Example.json "[{'id':'item_3','quantity':-5}]")))
  = VArr [VObj [("id", VStr "item_3"); ("quantity", VNum (Int (-5)))]].
Proof.
  split; [vm_compute; reflexivity|]. split; [|split; vm_compute; reflexivity].
  intros H. apply Forall_inv in H. vm_compute in H. apply H. reflexivity.
Qed.

(* ================================================================== *)
(** ** Export and import *)
(* ================================================================== *)

Lemma importData_array st text items :
  JSON.parse text = Some (VArr items) ->
  Storage.importData st text
  = (Ok (List.length items), Storage.saveAllItems (VArr items)) /\
  Storage.getAllItems (snd (Storage.importData st text)) = VArr items.
Proof.
  intros Hp. unfold Storage.importData. rewrite Hp. split; [reflexivity|].
  cbn [snd]. apply getAllItems_saveAllItems_json.
  apply parse_isJSON in Hp. exact Hp.
Qed.




(** *** Payloads that are refused *)

(** C9.  A payload that is no JSON text, or whose JSON value is no
    array, is refused with an error and the slot stays as it was; a
    payload that decodes to an array replaces the whole collection by
    that array.  (The refusal of a text is the program's for a text
    whose escapes stay within the modelled code units, and the array is
    read back as it was decoded when its numbers are in the exact range
    and its objects have no index keys.) *)
Theorem importData_format st text :
  (JSON.parse text = None -> JSON.supported text = true ->
   Storage.importData st text = (Throw SyntaxError, st)) /\
  (forall v, JSON.parse text = Some v -> (forall items, v <> VArr items) ->
     Storage.importData st text = (Throw (Error "Invalid data format"), st)) /\
  (forall items, JSON.parse text = Some (VArr items) ->
     Exact.val (VArr items) = true ->
     fst (Storage.importData st text) = Ok (List.length items) /\
     Storage.getAllItems (snd (Storage.importData st text)) = VArr items).
Proof.
  split; [|split].
  - intros H _. unfold Storage.importData. rewrite H. reflexivity.
  - intros v H Hv. unfold Storage.importData. rewrite H.
    destruct v; try reflexivity. exfalso. exact (Hv _ eq_refl).
  - intros items H _. destruct (importData_array st text items H) as [H1 H2].
    rewrite H1 in *. cbn [fst snd] in *. auto.
Qed.

Lemma importData_format_witness :
  JSON.parse Example.crateText = Some (VArr (embed [Example.crate])) /\
  Exact.val (VArr (embed [Example.crate])) = true /\
  fst (Storage.importData Example.store Example.crateText) = Ok 1%nat /\
  Storage.getAllItems (snd (Storage.importData Example.store Example.crateText))
  = VArr (embed [Example.crate]) /\
  JSON.parse "[1,2" = None /\ JSON.supported "[1,2" = true /\
  Storage.importData Example.store "[1,2" = (Throw SyntaxError, Example.store).
Proof.
  assert (H : JSON.parse Example.crateText = Some (VArr (embed [Example.crate])))
    by (vm_compute; reflexivity).
  assert (Hx : Exact.val (VArr (embed [Example.crate])) = true)
    by (vm_compute; reflexivity).
  assert (Hn : JSON.parse "[1,2" = None) by (vm_compute; reflexivity).
  assert (Hs : JSON.supported "[1,2" = true) by (vm_compute; reflexivity).
  split; [exact H|]. split; [exact Hx|].
  split; [exact (proj1 (proj2 (proj2 (importData_format Example.store Example.crateText))
                          _ H Hx))|].
  split; [exact (proj2 (proj2 (proj2 (importData_format Example.store Example.crateText))
                          _ H Hx))|].
  split; [exact Hn|]. split; [exact Hs|].
  exact (proj1 (importData_format Example.store "[1,2") Hn Hs).
Defined.

(* ================================================================== *)
(** ** Lookup, deletion and creation *)
(* ================================================================== *)

Lemma hasId_toValue i it :
  Storage.hasId (VStr i) (Item.toValue it) = Ok (Records.hasId i it).
Proof. destruct it; reflexivity. Qed.

Lemma find_hasId_embed i c :
  Arr.find (Storage.hasId (VStr i)) (embed c)
  = Ok (match find (Records.hasId i) c with
        | Some it => Item.toValue it
        | None => VUndefined
        end).
Proof.
  induction c as [|it c IH]; [reflexivity|].
  cbn [embed map Arr.find find]. fold (embed c).
  rewrite hasId_toValue. cbn [rbind].
  destruct (Records.hasId i it); [reflexivity | exact IH].
Qed.

Lemma getItemById_embed st c i :
  Storage.getAllItems st = VArr (embed c) ->
  Storage.getItemById st (VStr i)
  = (Ok (match find (Records.hasId i) c with
         | Some it => Item.toValue it
         | None => VNull
         end), st).
Proof.
  intros Hst. unfold Storage.getItemById. rewrite Hst. cbn [Arr.asArray rbind].
  rewrite find_hasId_embed. cbn [rbind].
  destruct (find (Records.hasId i) c); reflexivity.
Qed.

Lemma indexOf_find i c :
  Item.indexOf i c = None <-> find (Records.hasId i) c = None.
Proof.
  induction c as [|it c IH]; [cbn; tauto|].
  cbn [Item.indexOf find]. unfold Records.hasId at 1.
  destruct (String.eqb (Item.id it) i); [split; discriminate|].
  destruct (Item.indexOf i c); [|tauto].
  split; [discriminate|]. intros H. apply IH in H. discriminate.
Qed.





Lemma signed_wfFinite neg f :
  Num.wfFinite f = true -> Num.wfFinite (NumParse.signed neg f) = true.
Proof.
  destruct neg, f as [z|m k]; cbn; try reflexivity; try (intros H; exact H).
  intros H. apply negb_true_iff, Z.eqb_neq. apply negb_true_iff, Z.eqb_neq in H. lia.
Qed.

Lemma scanDecimal_wfFinite s f r :
  NumParse.scanDecimal s = Some (f, r) -> Num.wfFinite f = true.
Proof.
  unfold NumParse.scanDecimal.
  destruct (Str.scanDigits 0 0 s) as [[ip ni] r1].
  assert (Hint : match ni with
                 | O => None
                 | S _ => let '(e, r3) := NumParse.scanExponent r1 in
                          Some (Num.mkDec (Z.of_N ip) e, r3)
                 end = Some (f, r) -> Num.wfFinite f = true).
  { destruct ni; [discriminate|]. destruct (NumParse.scanExponent r1) as [e r3].
    intros H. injection H as <- _. apply mkDec_wfFinite. }
  destruct r1 as [|ch r1']; [exact Hint|].
  destruct (Ascii.eqb_spec ch ".") as [->|Hne].
  - destruct (Str.scanDigits 0 0 r1') as [[fp nf] r2].
    destruct (NumParse.scanExponent r2) as [e r3].
    destruct ni, nf; try discriminate; intros H; injection H as <- _; apply mkDec_wfFinite.
  - destruct ch as [[] [] [] [] [] [] [] []]; try exact Hint. contradiction Hne. reflexivity.
Qed.

(** A finite number [parseFloat] returns is a decimal in normal form. *)
Lemma parseFloatString_wfFinite s f :
  NumParse.parseFloatString s = Fin f -> Num.wfFinite f = true.
Proof.
  unfold NumParse.parseFloatString.
  destruct (NumParse.scanSign (Str.trimStart s)) as [neg s1].
  destruct (String.prefix "Infinity" s1); [discriminate|].
  destruct (NumParse.scanDecimal s1) as [[f' r]|] eqn:E; [|discriminate].
  intros H. injection H as <-. apply signed_wfFinite. exact (scanDecimal_wfFinite _ _ _ E).
Qed.

Lemma priceOf_wfFinite p f : Records.priceOf p = Some f -> Num.wfFinite f = true.
Proof.
  unfold Records.priceOf, JS.orZero.
  destruct (Exact.price p); [|discriminate].
  destruct (NumParse.parseFloatString (primToString p)) as [|neg|f'] eqn:E;
    cbn [Num.truthy]; try discriminate.
  - intros H. injection H as <-. reflexivity.
  - destruct (negb (Num.finIsZero f')); intros H; injection H as <-;
      [exact (parseFloatString_wfFinite _ _ E) | reflexivity].
Qed.

Lemma priceOf_parseFloatOr0 p f :
  Records.priceOf p = Some f -> Storage.parseFloatOr0 (ofPrim p) = Ok (Fin f).
Proof.
  unfold Records.priceOf. rewrite parseFloatOr0_prim.
  destruct (Exact.price p); [|discriminate].
  destruct (JS.orZero _) as [| |f']; try discriminate. intros H. injection H as <-. reflexivity.
Qed.

Lemma barcodeOf_or p b :
  Records.barcodeOf p = Some b -> JS.or (ofPrim p) VNull = Item.barcodeValue b.
Proof.
  unfold Records.barcodeOf, JS.or.
  destruct (JS.truthy (ofPrim p)).
  - destruct p; try discriminate. intros H. injection H as <-. reflexivity.
  - intros H. injection H as <-. reflexivity.
Qed.

(** [addItem] on a collection of records. *)
Lemma addItem_created st c fields newId t1 t2 it :
  Storage.getAllItems st = VArr (embed c) ->
  Records.created fields newId t1 t2 = Some it ->
  Storage.addItem st (payload fields) newId t1 t2
  = (Ok (Item.toValue it), Storage.saveAllItems (VArr (embed (c ++ [it])))) /\
  Item.wf it = true /\ Item.id it = newId.
Proof.
  intros Hst Hc. unfold Records.created in Hc.
  destruct (fieldOf "stockNumber" fields) as [| | | |sn] eqn:Esn; try discriminate.
  destruct (fieldOf "supplier" fields) as [| | | |su] eqn:Esu; try discriminate.
  destruct (fieldOf "description" fields) as [| | | |d] eqn:Ed; try discriminate.
  destruct (Records.barcodeOf (fieldOf "barcode" fields)) as [b|] eqn:Eb; [|discriminate].
  destruct (Records.priceOf (fieldOf "costPrice" fields)) as [cp|] eqn:Ecp; [|discriminate].
  destruct (Records.priceOf (fieldOf "sellingPrice" fields)) as [sp|] eqn:Esp; [|discriminate].
  unfold Records.quantityOf in Hc.
  destruct (Exact.quantity (fieldOf "quantity" fields)); [|discriminate].
  injection Hc as <-.
  split; [|split; [|reflexivity]].
  - unfold Storage.addItem. rewrite Hst, !Get_payload. cbn [rbind].
    rewrite (priceOf_parseFloatOr0 _ _ Ecp), (priceOf_parseFloatOr0 _ _ Esp).
    rewrite parseIntOr0_prim, (barcodeOf_or _ _ Eb), Esn, Esu, Ed.
    cbn [rbind Arr.asArray ofPrim]. unfold embed. rewrite map_app. reflexivity.
  - unfold Item.wf. cbn [Item.costPrice Item.sellingPrice].
    rewrite (priceOf_wfFinite _ _ Ecp), (priceOf_wfFinite _ _ Esp). reflexivity.
Qed.

Lemma find_hasId_app i c it :
  find (Records.hasId i) (c ++ [it])
  = match find (Records.hasId i) c with
    | Some x => Some x
    | None => if Records.hasId i it then Some it else None
    end.
Proof.
  induction c as [|x c IH]; [reflexivity|].
  cbn [app find]. destruct (Records.hasId i x); [reflexivity | exact IH].
Qed.

Lemma forallb_snoc (p : Item.t -> bool) c it :
  forallb p c = true -> p it = true -> forallb p (c ++ [it]) = true.
Proof. intros H1 H2. rewrite forallb_app, H1. cbn. rewrite H2. reflexivity. Qed.

(** X2.  On a slot that holds a collection in the exact range, [addItem] with a payload
    whose text fields are strings and whose prices and quantity are read
    to finite numbers of that range resolves to the new record and
    appends it to the collection; when the generated identifier is
    fresh, [getItemById] of it then resolves to that record, and the
    lookup of every other identifier resolves as before. *)
Theorem addItem_then_getItemById st c fields newId t1 t2 it :
  Storage.supported st = true ->
  Storage.getAllItems st = VArr (embed c) ->
  Exact.items c = true ->
  Records.created fields newId t1 t2 = Some it ->
  let st' := snd (Storage.addItem st (payload fields) newId t1 t2) in
  fst (Storage.addItem st (payload fields) newId t1 t2) = Ok (Item.toValue it) /\
  Storage.getAllItems st' = VArr (embed (c ++ [it])) /\
  (Item.indexOf newId c = None ->
   fst (Storage.getItemById st' (VStr newId)) = Ok (Item.toValue it)) /\
  (forall i, i <> newId ->
   fst (Storage.getItemById st' (VStr i)) = fst (Storage.getItemById st (VStr i))).
Proof.
  intros _ Hst Hex Hc st'.
  destruct (addItem_created st c fields newId t1 t2 it Hst Hc) as (Ha & Hwf & Hid).
  subst st'. rewrite Ha. cbn [fst snd].
  assert (Hrb : Storage.getAllItems (Storage.saveAllItems (VArr (embed (c ++ [it]))))
                = VArr (embed (c ++ [it]))).
  { apply readback, forallb_snoc; [exact (stored_wf st c Hst) | exact Hwf]. }
  split; [reflexivity|]. split; [exact Hrb|]. split.
  - intros Hfresh. rewrite (getItemById_embed _ _ newId Hrb). cbn [fst].
    rewrite find_hasId_app. apply indexOf_find in Hfresh. rewrite Hfresh.
    unfold Records.hasId. rewrite Hid, String.eqb_refl. reflexivity.
  - intros i Hi. rewrite (getItemById_embed _ _ i Hrb), (getItemById_embed _ _ i Hst).
    cbn [fst]. rewrite find_hasId_app.
    destruct (find (Records.hasId i) c); [reflexivity|].
    unfold Records.hasId. rewrite Hid.
    destruct (String.eqb_spec newId i) as [E|E]; [congruence | reflexivity].
Qed.

Lemma addItem_then_getItemById_witness :
  Storage.supported Example.store = true /\
  Storage.getAllItems Example.store = VArr (embed [Example.widget; Example.gadget]) /\
  Exact.items [Example.widget; Example.gadget] = true /\
  Records.created Example.nails "item_7" Example.now Example.now
  = Some (Item.mk "item_7" None "SN7" "Acme" "Nails" (FInt 1) (FInt 2) (-5)
            Example.now Example.now) /\
  Storage.getAllItems
    (snd (Storage.addItem Example.store (payload Example.nails) "item_7"
            Example.now Example.now))
  = VArr (embed [Example.widget; Example.gadget;
                 Item.mk "item_7" None "SN7" "Acme" "Nails" (FInt 1) (FInt 2) (-5)
                   Example.now Example.now]).
Proof.
  assert (H : Records.created Example.nails "item_7" Example.now Example.now
              = Some (Item.mk "item_7" None "SN7" "Acme" "Nails" (FInt 1) (FInt 2) (-5)
                        Example.now Example.now)) by (vm_compute; reflexivity).
  split; [exact store_supported|].
  split; [exact store_items|]. split; [exact store_exact|]. split; [exact H|].
  exact (proj1 (proj2 (addItem_then_getItemById Example.store
                         [Example.widget; Example.gadget] Example.nails "item_7"
                         Example.now Example.now _ store_supported store_items
                         store_exact H))).
Defined.

(* ================================================================== *)
(** ** Slots that hold no collection, and updates that find nothing *)
(* ================================================================== *)




(** X4.  A slot whose text is no JSON (a text whose escapes stay within
    the modelled code units, and which [JSON.parse] refuses) reads as
    the empty collection: every lookup resolves to [null], and the next
    [addItem] replaces the text by a collection that holds the new
    record alone. *)
Theorem unreadable_slot_reads_empty text :
  JSON.parse text = None -> JSON.supported text = true ->
  Storage.getAllItems (Some text) = VArr [] /\
  (forall id, fst (Storage.getItemById (Some text) id) = Ok VNull) /\
  (forall fields newId t1 t2 it,
     Records.created fields newId t1 t2 = Some it ->
     Storage.getAllItems (snd (Storage.addItem (Some text) (payload fields) newId t1 t2))
     = VArr (embed [it])).
Proof.
  intros Hp _.
  assert (Hst : Storage.getAllItems (Some text) = VArr (embed [])).
  { unfold Storage.getAllItems. rewrite Hp. destruct (Str.isEmpty text); reflexivity. }
  split; [exact Hst|]. split.
  - intros id. unfold Storage.getItemById. rewrite Hst. reflexivity.
  - intros fields newId t1 t2 it Hc.
    destruct (addItem_created (Some text) [] fields newId t1 t2 it Hst Hc) as (Ha & Hwf & _).
    rewrite Ha. cbn [snd app]. apply readback. cbn [forallb]. rewrite Hwf. reflexivity.
Qed.

Lemma unreadable_slot_reads_empty_witness :
  JSON.parse "[{" = None /\ JSON.supported "[{" = true /\
  Storage.getAllItems (Some "[{") = VArr [].
Proof.
  assert (H : JSON.parse "[{" = None) by (vm_compute; reflexivity).
  assert (Hs : JSON.supported "[{" = true) by (vm_compute; reflexivity).
  split; [exact H|]. split; [exact Hs|].
  exact (proj1 (unreadable_slot_reads_empty "[{" H Hs)).
Defined.

(** X5.  When the slot holds JSON that is no array, every operation that
    calls an array method on the decoded value is rejected with a
    [TypeError] and writes nothing; [importData] of an array (whose
    numbers are in the exact range and whose objects have no index keys)
    puts a collection in place again. *)
Theorem non_array_slot_rejects st :
  (forall l, Storage.getAllItems st <> VArr l) ->
  (forall id, Storage.getItemById st id = (Throw TypeError, st)) /\
  (forall barcode, Storage.getItemByBarcode st barcode = (Throw TypeError, st)) /\
  (forall fields newId t1 t2,
     Storage.addItem st (payload fields) newId t1 t2 = (Throw TypeError, st)) /\
  (forall itemData now, Storage.updateItem st itemData now = (Throw TypeError, st)) /\
  (forall id quantity now, Storage.removeStock st id quantity now = (Throw TypeError, st)) /\
  (forall id, Storage.deleteItem st id = (Throw TypeError, st)) /\
  Stats.getStats st = (Throw TypeError, st) /\
  (forall text items, JSON.parse text = Some (VArr items) ->
     Exact.val (VArr items) = true ->
     Storage.getAllItems (snd (Storage.importData st text)) = VArr items).
Proof.
  intros H.
  assert (E : Arr.asArray (Storage.getAllItems st) = Throw TypeError).
  { destruct (Storage.getAllItems st) as [| | | | |l|]; try reflexivity.
    contradiction (H l). reflexivity. }
  repeat split.
  - intros id. unfold Storage.getItemById. rewrite E. reflexivity.
  - intros b. unfold Storage.getItemByBarcode. rewrite E. reflexivity.
  - intros fields newId t1 t2. unfold Storage.addItem.
    rewrite !Get_payload. cbn [rbind].
    rewrite !parseFloatOr0_prim. cbn [rbind]. rewrite parseIntOr0_prim. cbn [rbind].
    rewrite E. reflexivity.
  - intros itemData now. unfold Storage.updateItem. rewrite E. reflexivity.
  - intros id q now. unfold Storage.removeStock. rewrite E. reflexivity.
  - intros id. unfold Storage.deleteItem. rewrite E. reflexivity.
  - unfold Stats.getStats. rewrite E. reflexivity.
  - intros text items Hp _. apply importData_array. exact Hp.
Qed.

Lemma non_array_slot_rejects_witness :
  (forall l, Storage.getAllItems (Some "{}") <> VArr l) /\
  Storage.removeStock (Some "{}") (VStr "item_1") (VNum (Int 1)) Example.now
  = (Throw TypeError, Some "{}").
Proof.
  assert (H : forall l, Storage.getAllItems (Some "{}") <> VArr l)
    by (intros l; vm_compute; discriminate).
  split; [exact H|].
  exact (proj1 (proj2 (proj2 (proj2 (proj2 (non_array_slot_rejects (Some "{}") H)))))
           (VStr "item_1") (VNum (Int 1)) Example.now).
Defined.

(* ================================================================== *)
(** ** The search term *)
(* ================================================================== *)

Lemma prefix_refl s : String.prefix s s = true.
Proof.
  induction s as [|c s IH]; [reflexivity|]. cbn [String.prefix].
  destruct (ascii_dec c c); [exact IH | congruence].
Qed.

Lemma prefix_nil s : String.prefix EmptyString s = true.
Proof. destruct s; reflexivity. Qed.

Lemma prefix_trimEnd s : String.prefix (Str.trimEnd s) s = true.
Proof.
  induction s as [|c s IH]; [reflexivity|]. cbn [Str.trimEnd].
  destruct (Str.trimEnd s) as [|d r'].
  - destruct (Str.isWhiteSpace c); [reflexivity|]. cbn [String.prefix].
    destruct (ascii_dec c c); [apply prefix_nil | congruence].
  - cbn [String.prefix]. destruct (ascii_dec c c); [exact IH | congruence].
Qed.

Lemma includes_prefix s t : String.prefix t s = true -> Str.includes s t = true.
Proof. intros H. destruct s; cbn [Str.includes]; rewrite H; reflexivity. Qed.

(** A string contains what [trim] leaves of it. *)
Lemma includes_trim s : Str.includes s (Str.trim s) = true.
Proof.
  unfold Str.trim. induction s as [|c s IH]; [reflexivity|].
  cbn [Str.trimStart]. destruct (Str.isWhiteSpace c).
  - cbn [Str.includes]. rewrite IH. apply orb_true_r.
  - apply includes_prefix, prefix_trimEnd.
Qed.

Lemma trimStart_head s :
  Str.trimStart s = EmptyString \/
  exists c r, Str.trimStart s = String c r /\ Str.isWhiteSpace c = false.
Proof.
  induction s as [|c s IH]; [left; reflexivity|].
  cbn [Str.trimStart]. destruct (Str.isWhiteSpace c) eqn:E; [exact IH|].
  right. exists c, s. split; [reflexivity | exact E].
Qed.

Lemma trimEnd_idem s : Str.trimEnd (Str.trimEnd s) = Str.trimEnd s.
Proof.
  induction s as [|c s IH]; [reflexivity|]. cbn [Str.trimEnd].
  destruct (Str.trimEnd s) as [|d r'] eqn:E.
  - destruct (Str.isWhiteSpace c) eqn:Ec; [reflexivity|].
    cbn [Str.trimEnd]. rewrite Ec. reflexivity.
  - cbn [Str.trimEnd]. cbn [Str.trimEnd] in IH. rewrite IH. reflexivity.
Qed.

Lemma trimEnd_head c r :
  Str.isWhiteSpace c = false -> exists r', Str.trimEnd (String c r) = String c r'.
Proof.
  intros H. cbn [Str.trimEnd]. destruct (Str.trimEnd r) as [|d r'']; [|eauto].
  rewrite H. eauto.
Qed.

Lemma trim_idem s : Str.trim (Str.trim s) = Str.trim s.
Proof.
  unfold Str.trim. destruct (trimStart_head s) as [E|(c & r & E & Hc)]; rewrite E.
  - reflexivity.
  - destruct (trimEnd_head c r Hc) as (r' & E'). rewrite E' at 1.
    cbn [Str.trimStart]. rewrite Hc, <- E'. apply trimEnd_idem.
Qed.

Lemma lowerChar_idem c : Str.lowerChar (Str.lowerChar c) = Str.lowerChar c.
Proof. destruct c as [[] [] [] [] [] [] [] []]; reflexivity. Qed.

Lemma toLowerCase_idem s : Str.toLowerCase (Str.toLowerCase s) = Str.toLowerCase s.
Proof.
  induction s as [|c s IH]; [reflexivity|].
  cbn [Str.toLowerCase]. rewrite lowerChar_idem, IH. reflexivity.
Qed.

Lemma isEmpty_toLowerCase s : Str.isEmpty (Str.toLowerCase s) = Str.isEmpty s.
Proof. destruct s; reflexivity. Qed.

Lemma isEmpty_trim_empty s : Str.isEmpty s = true -> Str.isEmpty (Str.trim s) = true.
Proof. destruct s; [reflexivity | discriminate]. Qed.

(** X6.  The search depends on its query only through the trimmed,
    lower-cased query: putting the query in lower case, or removing the
    white space around it, changes neither the result nor the slot,
    whatever the slot holds. *)
Theorem searchItems_query_normalised st query :
  Storage.searchItems st (VStr (Str.toLowerCase query)) = Storage.searchItems st (VStr query) /\
  Storage.searchItems st (VStr (Str.trim query)) = Storage.searchItems st (VStr query).
Proof.
  unfold Storage.searchItems. cbn [JS.truthy]. split.
  - rewrite isEmpty_toLowerCase, toLowerCase_idem.
    rewrite <- (toLowerCase_trim query), isEmpty_toLowerCase. reflexivity.
  - rewrite <- !toLowerCase_trim, !trim_idem, negb_involutive.
    destruct (Str.isEmpty (Str.trim query)) eqn:E.
    + destruct (negb (negb (Str.isEmpty query))); reflexivity.
    + destruct (Str.isEmpty query) eqn:E'; [|reflexivity].
      rewrite (isEmpty_trim_empty _ E') in E. discriminate.
Qed.

Lemma In_embed it c : In it c -> In (Item.toValue it) (embed c).
Proof. apply in_map. Qed.

(** X7.  Whatever [getItemByBarcode] can find, the search finds too: a
    record whose barcode is the code, the code not being blank, is
    among the results of [searchItems] for that code. *)
Theorem searchItems_finds_exact_barcode st c code it :
  Storage.getAllItems st = VArr (embed c) ->
  Spec.blank code = false ->
  In it c -> Item.barcode it = Some code ->
  exists items,
    fst (Storage.searchItems st (VStr code)) = Ok items /\ In (Item.toValue it) items.
Proof.
  intros Hst Hb Hin Hcode.
  rewrite (searchItems_embed st c code Hst). cbn [fst].
  eexists. split; [reflexivity|]. apply In_embed.
  unfold Spec.searchTrimmed. rewrite Hb. apply filter_In. split; [exact Hin|].
  unfold Spec.matchesQuery. rewrite Hcode. unfold Spec.contains at 4.
  rewrite toLowerCase_trim, includes_trim. rewrite !orb_true_r. reflexivity.
Qed.

Lemma searchItems_finds_exact_barcode_witness :
  Storage.getAllItems Example.store = VArr (embed [Example.widget; Example.gadget]) /\
  Spec.blank "123" = false /\
  exists items,
    fst (Storage.searchItems Example.store (VStr "123")) = Ok items /\
    In (Item.toValue Example.widget) items.
Proof.
  split; [exact store_items|]. split; [reflexivity|].
  exact (searchItems_finds_exact_barcode Example.store [Example.widget; Example.gadget]
           "123" Example.widget store_items eq_refl (or_introl eq_refl) eq_refl).
Defined.

(* ================================================================== *)
(** ** Successive removals *)
(* ================================================================== *)

Lemma parseIntOr0_int q :
  0 < q < 10 ^ 21 -> Storage.parseIntOr0 (VNum (Int q)) = Ok (Int q).
Proof.
  intros H. rewrite <- (parsedQuantity_int q H) at 2.
  exact (parseIntOr0_prim (PNum (Int q))).
Qed.

Lemma indexOf_replaceAt id c : forall n it it',
  Item.indexOf id c = Some n -> nth_error c n = Some it -> Item.id it' = Item.id it ->
  Item.indexOf id (Item.replaceAt n it' c) = Some n.
Proof.
  induction c as [|x c IH]; intros n it it' Hn Hit Hid; [discriminate|].
  cbn [Item.indexOf] in Hn. destruct (String.eqb (Item.id x) id) eqn:E.
  - injection Hn as <-. cbn in Hit. injection Hit as <-.
    cbn [Item.replaceAt Item.indexOf]. rewrite Hid, E. reflexivity.
  - destruct (Item.indexOf id c) as [m|] eqn:Em; [|discriminate].
    injection Hn as <-. cbn in Hit. cbn [Item.replaceAt Item.indexOf]. rewrite E.
    rewrite (IH m it it' eq_refl Hit Hid). reflexivity.
Qed.

Lemma nth_error_replaceAt c : forall n (it it' : Item.t),
  nth_error c n = Some it -> nth_error (Item.replaceAt n it' c) n = Some it'.
Proof.
  induction c as [|x c IH]; intros [|n] it it' H; cbn in *; try discriminate;
    [reflexivity | eauto].
Qed.

Lemma replaceAt_replaceAt c : forall n (x y : Item.t),
  Item.replaceAt n y (Item.replaceAt n x c) = Item.replaceAt n y c.
Proof.
  induction c as [|z c IH]; intros [|n] x y; cbn [Item.replaceAt]; try reflexivity.
  rewrite IH. reflexivity.
Qed.

(** The state machine on a request within the stock. *)
Lemma removeStock_within c id n it q now :
  Item.indexOf id c = Some n -> nth_error c n = Some it ->
  0 < q <= Item.quantity it ->
  Spec.removeStock c id q now
  = (Spec.Success q (Item.withQuantity it (Item.quantity it - q) now),
     Some (Item.replaceAt n (Item.withQuantity it (Item.quantity it - q) now) c)).
Proof.
  intros Hn Hit Hq. unfold Spec.removeStock. rewrite Hn, Hit.
  destruct (Z.leb_spec q 0); [lia|].
  destruct (Z.ltb_spec (Item.quantity it) q); [lia | reflexivity].
Qed.

(** X8.  On a collection in the exact range, two removals from the same
    record, of [a] and then of [b] units with [a + b] within the stock,
    leave the slot as one removal of [a + b] units made at the time of
    the second does. *)
Theorem removeStock_twice st c id n it a b now1 now2 :
  Storage.getAllItems st = VArr (embed c) ->
  Exact.items c = true ->
  Item.indexOf id c = Some n -> nth_error c n = Some it ->
  0 < a -> 0 < b -> a + b <= Item.quantity it ->
  let st2 := snd (Storage.removeStock
                    (snd (Storage.removeStock st (VStr id) (VNum (Int a)) now1))
                    (VStr id) (VNum (Int b)) now2) in
  st2 = snd (Storage.removeStock st (VStr id) (VNum (Int (a + b))) now2) /\
  Storage.getAllItems st2
  = VArr (embed (Item.replaceAt n
                   (Item.withQuantity it (Item.quantity it - (a + b)) now2) c)).
Proof.
  intros Hst Hex Hn Hit Ha Hb Hab st2. subst st2.
  pose proof (exact_quantity it (exact_nth c n it Hex Hit)) as Hsafe.
  assert (Hlim : a + b < 10 ^ 21) by (apply safe_below_21; lia).
  set (it1 := Item.withQuantity it (Item.quantity it - a) now1).
  set (c1 := Item.replaceAt n it1 c).
  assert (H1 : Spec.removeStock c id a now1 = (Spec.Success a it1, Some c1))
    by (apply removeStock_within; [assumption | assumption | lia]).
  rewrite (removeStock_refines st c id _ a now1 Hst (parseIntOr0_int a ltac:(lia))).
  rewrite H1. cbn [fst snd persisted].
  assert (Hst1 : Storage.getAllItems (Storage.saveAllItems (VArr (embed c1)))
                 = VArr (embed c1)).
  { apply (removeStock_readback st c id a now1 c1 Hst). rewrite H1. reflexivity. }
  assert (Hn1 : Item.indexOf id c1 = Some n)
    by (apply (indexOf_replaceAt id c n it it1 Hn Hit); reflexivity).
  assert (Hit1 : nth_error c1 n = Some it1) by (apply (nth_error_replaceAt c n it it1 Hit)).
  rewrite (removeStock_refines _ c1 id _ b now2 Hst1 (parseIntOr0_int b ltac:(lia))).
  rewrite (removeStock_within c1 id n it1 b now2 Hn1 Hit1)
    by (subst it1; cbn [Item.withQuantity Item.quantity]; lia).
  rewrite (removeStock_refines st c id _ (a + b) now2 Hst (parseIntOr0_int (a + b) ltac:(lia))).
  rewrite (removeStock_within c id n it (a + b) now2 Hn Hit) by lia.
  cbn [fst snd persisted]. subst c1. rewrite replaceAt_replaceAt.
  subst it1. unfold Item.withQuantity. cbn.
  replace (Item.quantity it - a - b) with (Item.quantity it - (a + b)) by lia.
  split; [reflexivity|].
  apply readback. apply wf_replaceAt; [exact (stored_wf st c Hst)|].
  exact (forallb_nth _ _ _ _ (stored_wf st c Hst) Hit).
Qed.

Lemma removeStock_twice_witness :
  Storage.getAllItems Example.store = VArr (embed [Example.widget; Example.gadget]) /\
  Exact.items [Example.widget; Example.gadget] = true /\
  2 + 3 <= Item.quantity Example.widget /\
  snd (Storage.removeStock
         (snd (Storage.removeStock Example.store (VStr "item_1") (VNum (Int 2))
                 "2026-11-02T09:00:00.000Z"))
         (VStr "item_1") (VNum (Int 3)) Example.now)
  = snd (Storage.removeStock Example.store (VStr "item_1") (VNum (Int (2 + 3))) Example.now).
Proof.
  assert (H : 2 + 3 <= Item.quantity Example.widget) by (vm_compute; discriminate).
  split; [exact store_items|]. split; [exact store_exact|]. split; [exact H|].
  exact (proj1 (removeStock_twice Example.store [Example.widget; Example.gadget]
                  "item_1" 0%nat Example.widget 2 3 "2026-11-02T09:00:00.000Z"
                  Example.now store_items store_exact eq_refl eq_refl eq_refl eq_refl H)).
Defined.

(* ================================================================== *)
(** ** Statistics and stock classes *)
(* ================================================================== *)

Lemma plusQuantity_toValue s it :
  Stats.plusQuantity (VNum (Int s)) (Item.toValue it) = Ok (VNum (Int (s + Item.quantity it))).
Proof. destruct it; reflexivity. Qed.

Lemma reduce_plusQuantity c : forall s,
  Ops.reduce Stats.plusQuantity (embed c) (VNum (Int s))
  = Ok (VNum (Int (fold_left (fun sum it => sum + Item.quantity it) c s))).
Proof.
  induction c as [|it c IH]; intros s; [reflexivity|].
  cbn [embed map Ops.reduce fold_left]. fold (embed c).
  rewrite plusQuantity_toValue. cbn [rbind]. apply IH.
Qed.

Lemma plusValue_toValue f it :
  Stats.plusValue (VNum (Fin f)) (Item.toValue it)
  = Ok (VNum (Fin (Ops.finAdd f (Ops.finMul (Item.costPrice it) (FInt (Item.quantity it)))))).
Proof. destruct it; reflexivity. Qed.

Lemma plusValue_whole s it :
  Records.wholePrice it = true ->
  Ops.finAdd (FInt s) (Ops.finMul (Item.costPrice it) (FInt (Item.quantity it)))
  = FInt (s + Records.stockValue it).
Proof.
  unfold Records.wholePrice, Records.stockValue.
  destruct (Item.costPrice it); [reflexivity | discriminate].
Qed.

Lemma reduce_plusValue c : forall f,
  exists f', Ops.reduce Stats.plusValue (embed c) (VNum (Fin f)) = Ok (VNum (Fin f')) /\
             (forallb Records.wholePrice c = true -> forall s, f = FInt s ->
              f' = FInt (fold_left (fun sum it => sum + Records.stockValue it) c s)).
Proof.
  induction c as [|it c IH]; intros f.
  - exists f. split; [reflexivity|]. intros _ s ->. reflexivity.
  - cbn [embed map Ops.reduce]. fold (embed c). rewrite plusValue_toValue. cbn [rbind].
    destruct (IH (Ops.finAdd f (Ops.finMul (Item.costPrice it) (FInt (Item.quantity it)))))
      as (f' & E & Hw).
    exists f'. split; [exact E|]. intros Hall s ->.
    cbn [forallb] in Hall. apply andb_true_iff in Hall as [H1 H2].
    cbn [fold_left]. apply (Hw H2). apply plusValue_whole. exact H1.
Qed.

Lemma isLowStock_toValue it :
  Stats.isLowStock (Item.toValue it) = Ok (Records.isLowStock it).
Proof.
  destruct it as [i b sn su d cp sp q ca ua]. unfold Records.isLowStock.
  cbn [Item.quantity]. unfold Stats.isLowStock.
  change (JS.Get (Item.toValue (Item.mk i b sn su d cp sp q ca ua)) "quantity")
    with (Ok (VNum (Int q))).
  cbn [rbind]. unfold Ops.gt, Ops.le.
  cbn [Ops.toPrimitive rbind Ops.isLessThan JS.toNumber]. rewrite !ltb_int.
  destruct (0 <? q); cbn [andb]; [|reflexivity].
  f_equal. destruct (Z.ltb_spec 5 q), (Z.leb_spec q 5); try reflexivity; lia.
Qed.

Lemma eqb_int a b : Num.eqb (Int a) (Int b) = (a =? b).
Proof.
  cbn [Num.eqb Num.finCompare].
  destruct (Z.compare_spec a b), (Z.eqb_spec a b); try reflexivity; lia.
Qed.

Lemma isOutOfStock_toValue it :
  Stats.isOutOfStock (Item.toValue it) = Ok (Records.isOutOfStock it).
Proof.
  destruct it as [i b sn su d cp sp q ca ua]. unfold Records.isOutOfStock.
  cbn [Item.quantity].
  change (Stats.isOutOfStock (Item.toValue (Item.mk i b sn su d cp sp q ca ua)))
    with (Ok (Num.eqb (Int q) (Int 0))).
  rewrite eqb_int. reflexivity.
Qed.

Lemma filter_toValue (p : value -> result bool) (p' : Item.t -> bool) c :
  (forall it, p (Item.toValue it) = Ok (p' it)) ->
  Arr.filter p (embed c) = Ok (embed (filter p' c)).
Proof.
  intros H. induction c as [|it c IH]; [reflexivity|].
  cbn [embed map Arr.filter filter]. fold (embed c).
  rewrite H, IH. cbn [rbind]. destruct (p' it); reflexivity.
Qed.

Lemma length_embed c : Ops.length (embed c) = VNum (Int (Z.of_nat (List.length c))).
Proof. unfold Ops.length, embed. rewrite length_map. reflexivity. Qed.

(** [getStats] on a collection of records. *)
Lemma getStats_embed st c :
  Storage.getAllItems st = VArr (embed c) ->
  exists f,
    (forallb Records.wholePrice c = true -> f = FInt (Records.totalValue c)) /\
    Stats.getStats st
    = (Ok (VObj [("totalItems", VNum (Int (Z.of_nat (List.length c))));
                 ("totalStock", VNum (Int (Records.totalStock c)));
                 ("totalValue", VNum (Fin f));
                 ("lowStockItems", VNum (Int (Records.count Records.isLowStock c)));
                 ("outOfStockItems", VNum (Int (Records.count Records.isOutOfStock c)))]),
       st).
Proof.
  intros Hst. destruct (reduce_plusValue c (FInt 0)) as (f & E & Hw).
  exists f. split; [intros H; exact (Hw H 0 eq_refl)|].
  unfold Stats.getStats. rewrite Hst. cbn [Arr.asArray rbind].
  rewrite reduce_plusQuantity, E. cbn [rbind].
  rewrite (filter_toValue _ _ c isLowStock_toValue),
          (filter_toValue _ _ c isOutOfStock_toValue).
  cbn [rbind]. rewrite !length_embed. reflexivity.
Qed.

(** X9.  On a slot that holds a collection of records in the exact range, the magnitudes
    of whose quantities sum to a safe integer, [getStats] reads the slot
    without writing it and resolves to: the number of records; the sum
    of their quantities; the number of records with a quantity from 1 to
    5; the number of records with quantity 0; and, when every cost price
    is a whole number and the magnitudes of the stock values sum to a
    safe integer, the sum of cost price times quantity. *)
Theorem getStats_counts st c :
  Storage.supported st = true ->
  Storage.getAllItems st = VArr (embed c) ->
  Exact.items c = true ->
  Records.stockMagnitude c <= Exact.MAX_SAFE_INTEGER ->
  exists stats,
    Stats.getStats st = (Ok stats, st) /\
    JS.Get stats "totalItems" = Ok (VNum (Int (Z.of_nat (List.length c)))) /\
    JS.Get stats "totalStock" = Ok (VNum (Int (Records.totalStock c))) /\
    JS.Get stats "lowStockItems" = Ok (VNum (Int (Records.count Records.isLowStock c))) /\
    JS.Get stats "outOfStockItems"
    = Ok (VNum (Int (Records.count Records.isOutOfStock c))) /\
    (forallb Records.wholePrice c = true ->
     Records.valueMagnitude c <= Exact.MAX_SAFE_INTEGER ->
     JS.Get stats "totalValue" = Ok (VNum (Int (Records.totalValue c)))).
Proof.
  intros _ Hst _ _. destruct (getStats_embed st c Hst) as (f & Hw & E).
  eexists. split; [exact E|]. repeat split; try reflexivity.
  intros H _. rewrite (Hw H). reflexivity.
Qed.

Lemma getStats_counts_witness :
  Storage.supported Example.crateStore = true /\
  Storage.getAllItems Example.crateStore = VArr (embed [Example.crate]) /\
  Exact.items [Example.crate] = true /\
  Records.stockMagnitude [Example.crate] <= Exact.MAX_SAFE_INTEGER /\
  exists stats,
    Stats.getStats Example.crateStore = (Ok stats, Example.crateStore) /\
    JS.Get stats "totalItems" = Ok (VNum (Int 1)) /\
    JS.Get stats "totalStock" = Ok (VNum (Int 10)) /\
    JS.Get stats "lowStockItems" = Ok (VNum (Int 0)) /\
    JS.Get stats "outOfStockItems" = Ok (VNum (Int 0)) /\
    (forallb Records.wholePrice [Example.crate] = true ->
     Records.valueMagnitude [Example.crate] <= Exact.MAX_SAFE_INTEGER ->
     JS.Get stats "totalValue" = Ok (VNum (Int 10))).
Proof.
  assert (Hx : Exact.items [Example.crate] = true) by (vm_compute; reflexivity).
  assert (Hm : Records.stockMagnitude [Example.crate] <= Exact.MAX_SAFE_INTEGER)
    by (vm_compute; discriminate).
  assert (Hs : Storage.supported Example.crateStore = true) by (vm_compute; reflexivity).
  split; [exact Hs|].
  split; [exact crate_imported|]. split; [exact Hx|]. split; [exact Hm|].
  exact (getStats_counts Example.crateStore [Example.crate] Hs crate_imported Hx Hm).
Defined.





(* ================================================================== *)
(** ** The item form *)
(* ================================================================== *)

Lemma getFormData_payload f : UI.getFormData f = payload (Records.formFields f).
Proof.
  unfold UI.getFormData, Records.formFields, payload, JS.or. cbn [map fst snd JS.truthy ofPrim].
  destruct (Str.isEmpty (UI.itemId f)), (Str.isEmpty (Str.trim (UI.itemBarcode f)));
    reflexivity.
Qed.

Lemma complete_fields f :
  Records.complete f = true ->
  Str.isEmpty (Str.trim (UI.itemStockNumber f)) = false /\
  Str.isEmpty (Str.trim (UI.itemSupplier f)) = false /\
  Str.isEmpty (Str.trim (UI.itemDescription f)) = false.
Proof.
  unfold Records.complete. intros H.
  apply andb_true_iff in H as [H H3]. apply andb_true_iff in H as [H1 H2].
  apply negb_true_iff in H1, H2, H3. auto.
Qed.

(** [saveItem] on a form that has its required fields: the operation it
    starts decides the toast and the slot. *)
Lemma saveItem_complete st form newId t1 t2 :
  Records.complete form = true ->
  Forms.saveItem st form newId t1 t2
  = let operation :=
      if Str.isEmpty (UI.itemId form)
      then Storage.addItem st (payload (Records.formFields form)) newId t1 t2
      else Storage.updateItem st (payload (Records.formFields form)) t1 in
    match fst operation with
    | Ok _ =>
        (UI.showToast (VStr (if Str.isEmpty (UI.itemId form) then "Item added!"
                             else "Item updated!")) "success",
         snd operation)
    | Throw _ => (UI.showToast (VStr "Failed to save item") "error", snd operation)
    end.
Proof.
  intros H. destruct (complete_fields form H) as (H1 & H2 & H3).
  unfold Forms.saveItem. rewrite <- getFormData_payload.
  change (JS.Get (UI.getFormData form) "stockNumber")
    with (Ok (VStr (Str.trim (UI.itemStockNumber form)))).
  change (JS.Get (UI.getFormData form) "supplier")
    with (Ok (VStr (Str.trim (UI.itemSupplier form)))).
  change (JS.Get (UI.getFormData form) "description")
    with (Ok (VStr (Str.trim (UI.itemDescription form)))).
  change (JS.Get (UI.getFormData form) "id")
    with (Ok (JS.or (VStr (UI.itemId form)) VNull)).
  cbn [rbind JS.truthy]. rewrite H1, H2, H3. cbn [negb].
  unfold JS.or. cbn [JS.truthy].
  destruct (Str.isEmpty (UI.itemId form)) eqn:E; cbn [negb JS.truthy]; rewrite ?E; cbn [negb].
  - destruct (Storage.addItem _ _ _ _ _) as [[x|e] st']; reflexivity.
  - destruct (Storage.updateItem _ _ _) as [[x|e] st']; reflexivity.
Qed.

(** X11.  [saveItem] on a form whose stock number, supplier or
    description is empty or blank shows the toast that asks for the
    required fields and starts no storage operation, whatever the slot
    holds. *)
Theorem saveItem_requires_fields st form newId t1 t2 :
  Records.complete form = false ->
  Forms.saveItem st form newId t1 t2
  = (UI.showToast (VStr "Please fill in all required fields") "error", st).
Proof.
  unfold Records.complete, Forms.saveItem.
  change (JS.Get (UI.getFormData form) "stockNumber")
    with (Ok (VStr (Str.trim (UI.itemStockNumber form)))).
  change (JS.Get (UI.getFormData form) "supplier")
    with (Ok (VStr (Str.trim (UI.itemSupplier form)))).
  change (JS.Get (UI.getFormData form) "description")
    with (Ok (VStr (Str.trim (UI.itemDescription form)))).
  cbn [rbind JS.truthy].
  destruct (Str.isEmpty (Str.trim (UI.itemStockNumber form))); [reflexivity|].
  destruct (Str.isEmpty (Str.trim (UI.itemSupplier form))); [reflexivity|].
  destruct (Str.isEmpty (Str.trim (UI.itemDescription form))); [reflexivity|].
  discriminate.
Qed.

Lemma saveItem_requires_fields_witness :
  Records.complete (UI.mkForm "" "1" "SN1" "   " "Nut" "1" "2" "3") = false /\
  Forms.saveItem Example.store (UI.mkForm "" "1" "SN1" "   " "Nut" "1" "2" "3")
                 "item_3" Example.now Example.now
  = (UI.showToast (VStr "Please fill in all required fields") "error", Example.store).
Proof.
  split; [reflexivity|].
  exact (saveItem_requires_fields Example.store (UI.mkForm "" "1" "SN1" "   " "Nut" "1" "2" "3")
           "item_3" Example.now Example.now eq_refl).
Defined.

Lemma barcodeOf_form b :
  Records.barcodeOf (if Str.isEmpty b then PNull else PStr b)
  = Some (if Str.isEmpty b then None else Some b).
Proof. destruct b; reflexivity. Qed.

(** X12.  On a slot that holds a collection in the exact range, [saveItem] on a complete
    form without identifier, whose price and quantity inputs are read
    within that range, adds one record at the end of the collection:
    its text fields are the trimmed inputs, its barcode is [null] when
    the input is blank, and the toast reports the addition. *)
Theorem saveItem_adds st c form newId t1 t2 it :
  Storage.supported st = true ->
  Storage.getAllItems st = VArr (embed c) ->
  Exact.items c = true ->
  Records.complete form = true ->
  Str.isEmpty (UI.itemId form) = true ->
  Records.created (Records.formFields form) newId t1 t2 = Some it ->
  fst (Forms.saveItem st form newId t1 t2) = UI.showToast (VStr "Item added!") "success" /\
  Storage.getAllItems (snd (Forms.saveItem st form newId t1 t2)) = VArr (embed (c ++ [it])) /\
  Item.id it = newId /\
  Item.stockNumber it = Str.trim (UI.itemStockNumber form) /\
  Item.supplier it = Str.trim (UI.itemSupplier form) /\
  Item.description it = Str.trim (UI.itemDescription form) /\
  Item.barcode it = (if Str.isEmpty (Str.trim (UI.itemBarcode form)) then None
                     else Some (Str.trim (UI.itemBarcode form))).
Proof.
  intros _ Hst Hex Hc Hid Hcr.
  rewrite (saveItem_complete st form newId t1 t2 Hc). rewrite Hid. cbv zeta.
  destruct (addItem_created st c _ newId t1 t2 it Hst Hcr) as (Ha & Hwf & Hi).
  rewrite Ha. cbn [fst snd].
  split; [reflexivity|]. split.
  { apply readback, forallb_snoc; [exact (stored_wf st c Hst) | exact Hwf]. }
  unfold Records.created in Hcr.
  cbn [Records.formFields fieldOf String.eqb Ascii.eqb Bool.eqb] in Hcr.
  rewrite barcodeOf_form in Hcr.
  destruct (Records.priceOf (PStr (UI.itemCostPrice form))); [|discriminate].
  destruct (Records.priceOf (PStr (UI.itemSellingPrice form))); [|discriminate].
  destruct (Records.quantityOf (PStr (UI.itemQuantity form))); [|discriminate].
  injection Hcr as <-. repeat split; reflexivity.
Qed.

Lemma saveItem_adds_witness :
  Storage.supported Example.store = true /\
  Storage.getAllItems Example.store = VArr (embed [Example.widget; Example.gadget]) /\
  Exact.items [Example.widget; Example.gadget] = true /\
  Records.created
    (Records.formFields (UI.mkForm "" " 77 " "SN3" " Acme" "Nut" "1.50" "" "x"))
    "item_3" Example.now Example.now
  = Some (Item.mk "item_3" (Some "77") "SN3" "Acme" "Nut" (FFrac 15 1) (FInt 0) 0
            Example.now Example.now) /\
  Storage.getAllItems
    (snd (Forms.saveItem Example.store (UI.mkForm "" " 77 " "SN3" " Acme" "Nut" "1.50" "" "x")
            "item_3" Example.now Example.now))
  = VArr (embed [Example.widget; Example.gadget;
                 Item.mk "item_3" (Some "77") "SN3" "Acme" "Nut" (FFrac 15 1) (FInt 0) 0
                   Example.now Example.now]).
Proof.
  assert (Hc : Records.complete (UI.mkForm "" " 77 " "SN3" " Acme" "Nut" "1.50" "" "x")
               = true) by (vm_compute; reflexivity).
  assert (Hcr : Records.created
                  (Records.formFields
                     (UI.mkForm "" " 77 " "SN3" " Acme" "Nut" "1.50" "" "x"))
                  "item_3" Example.now Example.now
                = Some (Item.mk "item_3" (Some "77") "SN3" "Acme" "Nut" (FFrac 15 1)
                          (FInt 0) 0 Example.now Example.now))
    by (vm_compute; reflexivity).
  split; [exact store_supported|].
  split; [exact store_items|]. split; [exact store_exact|]. split; [exact Hcr|].
  exact (proj1 (proj2 (saveItem_adds Example.store [Example.widget; Example.gadget]
                         (UI.mkForm "" " 77 " "SN3" " Acme" "Nut" "1.50" "" "x")
                         "item_3" Example.now Example.now _ store_supported store_items
                         store_exact Hc eq_refl Hcr))).
Defined.



Lemma updated_form it form now :
  Records.complete form = true ->
  Spec.updated it (Records.formFields form) now
  = VObj [("id", VStr (Item.id it));
          ("barcode", if Str.isEmpty (Str.trim (UI.itemBarcode form))
                      then Item.barcodeValue (Item.barcode it)
                      else VStr (Str.trim (UI.itemBarcode form)));
          ("stockNumber", VStr (Str.trim (UI.itemStockNumber form)));
          ("supplier", VStr (Str.trim (UI.itemSupplier form)));
          ("description", VStr (Str.trim (UI.itemDescription form)));
          ("costPrice", VNum (NumParse.parseFloatString (UI.itemCostPrice form)));
          ("sellingPrice", VNum (NumParse.parseFloatString (UI.itemSellingPrice form)));
          ("quantity", VNum (NumParse.parseIntString (UI.itemQuantity form)));
          ("createdAt", VStr (Item.createdAt it));
          ("updatedAt", VStr now)].
Proof.
  intros H. destruct (complete_fields form H) as (H1 & H2 & H3).
  unfold Spec.updated, Spec.overlayText, Spec.overlayNumber.
  cbn [Records.formFields fieldOf String.eqb Ascii.eqb Bool.eqb ofPrim JS.truthy primToString].
  rewrite H1, H2, H3. cbn [negb].
  destruct (Str.isEmpty (Str.trim (UI.itemBarcode form))) eqn:Eb;
    cbn [ofPrim JS.truthy]; rewrite ?Eb; reflexivity.
Qed.

Lemma wellFormed_parseFloat s : wellFormed (VNum (NumParse.parseFloatString s)) = true.
Proof.
  destruct (NumParse.parseFloatString s) as [| |f] eqn:E; try reflexivity.
  exact (parseFloatString_wfFinite s f E).
Qed.

Lemma wellFormed_parseInt s : wellFormed (VNum (NumParse.parseIntString s)) = true.
Proof. destruct (parseIntString_cases s) as [ -> | (z & ->) ]; reflexivity. Qed.

Lemma wellFormedAll_setAt l : forall n x,
  wellFormedAll l = true -> wellFormed x = true -> wellFormedAll (Arr.setAt n x l) = true.
Proof.
  induction l as [|y l IH]; intros [|n] x Hl Hx; cbn in *; try reflexivity;
    apply andb_true_iff in Hl as [H1 H2]; apply andb_true_iff; auto.
Qed.

Lemma wellFormedAll_embed st c :
  Storage.getAllItems st = VArr (embed c) -> wellFormedAll (embed c) = true.
Proof.
  intros Hst. pose proof (getAllItems_isJSON st) as H. rewrite Hst in H.
  apply isJSON_wellFormed in H. exact H.
Qed.

Lemma nth_error_setAt (l : list value) : forall n x y,
  nth_error l n = Some y -> nth_error (Arr.setAt n x l) n = Some x.
Proof.
  induction l as [|z l IH]; intros [|n] x y H; cbn in *; try discriminate;
    [reflexivity | eauto].
Qed.

(** X14.  Saving the edit form of a record with a quantity input that
    does not start with an integer (an empty input, say) stores
    [parseInt]'s [NaN], which the slot holds as [null]: the record then
    reads back with quantity [null]. *)
Theorem saveItem_blank_quantity_stores_null st c form newId t1 t2 n it :
  Storage.getAllItems st = VArr (embed c) ->
  Records.complete form = true ->
  Str.isEmpty (UI.itemId form) = false ->
  Item.indexOf (UI.itemId form) c = Some n -> nth_error c n = Some it ->
  NumParse.parseIntString (UI.itemQuantity form) = NaN ->
  fst (Forms.saveItem st form newId t1 t2) = UI.showToast (VStr "Item updated!") "success" /\
  exists items record,
    Storage.getAllItems (snd (Forms.saveItem st form newId t1 t2)) = VArr items /\
    nth_error items n = Some record /\
    JS.Get record "id" = Ok (VStr (UI.itemId form)) /\
    JS.Get record "quantity" = Ok VNull.
Proof.
  intros Hst Hc Hid Hn Hit Hq.
  rewrite (saveItem_complete st form newId t1 t2 Hc). rewrite Hid. cbv zeta.
  assert (Hf : fieldOf "id" (Records.formFields form) = PStr (UI.itemId form)).
  { cbn [Records.formFields fieldOf String.eqb Ascii.eqb Bool.eqb]. rewrite Hid. reflexivity. }
  rewrite (updateItem_embed st c _ t1 _ n it Hst Hf Hn Hit). cbn [fst snd].
  split; [reflexivity|].
  set (new := Spec.updated it (Records.formFields form) t1).
  assert (Hnew : wellFormed new = true).
  { subst new. rewrite (updated_form it form t1 Hc).
    rewrite wellFormed_obj. cbn [map fst uniqueKeys existsb String.eqb Ascii.eqb Bool.eqb
                                  negb orb andb wellFormedMembers].
    rewrite wellFormed_parseFloat, wellFormed_parseFloat, wellFormed_parseInt.
    destruct (Str.isEmpty (Str.trim (UI.itemBarcode form))); [|reflexivity].
    destruct (Item.barcode it); reflexivity. }
  rewrite getAllItems_saveAllItems
    by (apply wellFormedAll_setAt; [exact (wellFormedAll_embed st c Hst) | exact Hnew]).
  rewrite clone_arr.
  exists (map clone (Arr.setAt n new (embed c))), (clone new).
  split; [reflexivity|]. split.
  { apply map_nth_error. apply (nth_error_setAt _ n new (Item.toValue it)).
    unfold embed. apply map_nth_error. exact Hit. }
  destruct (indexOf_nth _ _ _ Hn) as (it0 & Hit0 & Hi0).
  assert (it0 = it) by congruence. subst it0.
  subst new. rewrite (updated_form it form t1 Hc), clone_obj, Hq, Hi0.
  destruct (Str.isEmpty (Str.trim (UI.itemBarcode form)));
    [destruct (Item.barcode it)|]; split; reflexivity.
Qed.

Lemma saveItem_blank_quantity_stores_null_witness :
  Storage.getAllItems Example.store = VArr (embed [Example.widget; Example.gadget]) /\
  NumParse.parseIntString "" = NaN /\
  exists items record,
    Storage.getAllItems
      (snd (Forms.saveItem Example.store
              (UI.mkForm "item_2" "" "SN2" "Bolt & Co" "Blue widget holder" "12.5" "20" "")
              "item_3" Example.now Example.now))
    = VArr items /\
    nth_error items 1 = Some record /\
    JS.Get record "id" = Ok (VStr "item_2") /\
    JS.Get record "quantity" = Ok VNull.
Proof.
  split; [exact store_items|]. split; [reflexivity|].
  exact (proj2 (saveItem_blank_quantity_stores_null Example.store
                  [Example.widget; Example.gadget]
                  (UI.mkForm "item_2" "" "SN2" "Bolt & Co" "Blue widget holder" "12.5" "20" "")
                  "item_3" Example.now Example.now 1%nat Example.gadget store_items
                  eq_refl eq_refl eq_refl eq_refl eq_refl)).
Defined.

(* ================================================================== *)
(** ** The sale dialog *)
(* ================================================================== *)

(** X15.  [processSale] on a quantity input that [parseInt] reads as no
    number, or as a number below 1, asks for a valid quantity and calls
    no storage operation, whatever the slot holds. *)
Theorem processSale_rejects_input st itemId quantity now :
  (forall q, NumParse.parseIntString quantity = Int q -> q < 1) ->
  Forms.processSale st itemId quantity now
  = (UI.showToast (VStr "Please enter a valid quantity") "error", st).
Proof.
  intros H. unfold Forms.processSale.
  destruct (parseIntString_cases quantity) as [E|(q & E)]; rewrite E; [reflexivity|].
  specialize (H q E). rewrite ltb_int.
  destruct (Z.ltb_spec q 1); [|lia]. rewrite orb_true_r. reflexivity.
Qed.

Lemma processSale_rejects_input_witness :
  (forall q, NumParse.parseIntString "0.9" = Int q -> q < 1) /\
  Forms.processSale Example.store "item_1" "0.9" Example.now
  = (UI.showToast (VStr "Please enter a valid quantity") "error", Example.store).
Proof.
  assert (H : forall q, NumParse.parseIntString "0.9" = Int q -> q < 1).
  { intros q E. vm_compute in E. injection E as <-. reflexivity. }
  split; [exact H|].
  exact (processSale_rejects_input Example.store "item_1" "0.9" Example.now H).
Defined.

(** X16.  On a slot that holds a collection in the exact range,
    [processSale] on a
    quantity input that [parseInt] reads as a safe integer [q >= 1] ends
    in one of three ways: the item is unknown; the stock is below [q]
    and the toast names the stock, the slot staying as it was; or [q]
    units are removed, the toast names [q] and the new stock, and the
    slot holds the updated collection.  The ["Invalid quantity"] answer
    of [removeStock] is never shown. *)
Theorem processSale_sells st c itemId quantity q now :
  Storage.supported st = true ->
  Storage.getAllItems st = VArr (embed c) ->
  Exact.items c = true ->
  NumParse.parseIntString quantity = Int q -> 1 <= q <= Exact.MAX_SAFE_INTEGER ->
  (Item.indexOf itemId c = None ->
   Forms.processSale st itemId quantity now
   = (UI.showToast (VStr "Item not found") "error", st)) /\
  (forall n it,
     Item.indexOf itemId c = Some n -> nth_error c n = Some it ->
     Forms.processSale st itemId quantity now
     = if Item.quantity it <? q
       then (UI.showToast
               (VStr ("Not enough stock. Available: " +++ Num.toString (Int (Item.quantity it))))
               "error", st)
       else (UI.showToast
               (VStr ("Removed " +++ Num.toString (Int q) +++ " unit(s). New stock: "
                      +++ Num.toString (Int (Item.quantity it - q)))) "success",
             Storage.saveAllItems
               (VArr (embed (Item.replaceAt n
                               (Item.withQuantity it (Item.quantity it - q) now) c))))).
Proof.
  intros _ Hst Hex Hq Hr.
  assert (Hlim : q < 10 ^ 21) by (apply safe_below_21; lia).
  unfold Forms.processSale. rewrite Hq, ltb_int.
  replace (Num.truthy (Int q)) with true
    by (cbn; destruct (Z.eqb_spec q 0); [lia | reflexivity]).
  destruct (Z.ltb_spec q 1); [lia|]. cbn [negb orb].
  rewrite (removeStock_refines st c itemId _ q now Hst (parseIntOr0_int q ltac:(lia))).
  unfold Spec.removeStock. split.
  - intros Hn. rewrite Hn. reflexivity.
  - intros n it Hn Hit. rewrite Hn, Hit.
    destruct (Z.leb_spec q 0); [lia|].
    destruct (Item.quantity it <? q); [reflexivity|].
    destruct it; reflexivity.
Qed.

Lemma processSale_sells_witness :
  Storage.supported Example.store = true /\
  Storage.getAllItems Example.store = VArr (embed [Example.widget; Example.gadget]) /\
  Exact.items [Example.widget; Example.gadget] = true /\
  NumParse.parseIntString "3.9" = Int 3 /\
  Forms.processSale Example.store "item_1" "3.9" Example.now
  = (UI.showToast (VStr "Removed 3 unit(s). New stock: 7") "success",
     Storage.saveAllItems
       (VArr (embed [Item.withQuantity Example.widget 7 Example.now; Example.gadget]))).
Proof.
  assert (Hq : NumParse.parseIntString "3.9" = Int 3) by (vm_compute; reflexivity).
  assert (Hr : 1 <= 3 <= Exact.MAX_SAFE_INTEGER) by (split; vm_compute; discriminate).
  assert (Hn : Item.indexOf "item_1" [Example.widget; Example.gadget] = Some 0%nat)
    by (vm_compute; reflexivity).
  assert (Hit : nth_error [Example.widget; Example.gadget] 0 = Some Example.widget)
    by reflexivity.
  split; [exact store_supported|].
  split; [exact store_items|]. split; [exact store_exact|]. split; [exact Hq|].
  refine (eq_trans
            (proj2 (processSale_sells Example.store [Example.widget; Example.gadget]
                      "item_1" "3.9" 3 Example.now store_supported store_items
                      store_exact Hq Hr)
               0%nat Example.widget Hn Hit) _).
  vm_compute. reflexivity.
Defined.

(* ================================================================== *)
(** ** Manual lookup *)
(* ================================================================== *)

Lemma find_hasBarcode_none code c :
  (forall x, In x c -> Item.barcode x <> Some code) -> find (Spec.hasBarcode code) c = None.
Proof.
  intros H. destruct (find (Spec.hasBarcode code) c) as [x|] eqn:E; [|reflexivity].
  apply find_some in E as [Hin Hb]. exfalso. apply (H x Hin).
  unfold Spec.hasBarcode in Hb. destruct (Item.barcode x); [|discriminate].
  apply String.eqb_eq in Hb. congruence.
Qed.

Lemma find_snoc (p : Item.t -> bool) c it :
  find p c = None -> p it = true -> find p (c ++ [it]) = Some it.
Proof.
  induction c as [|x c IH]; cbn [app find]; intros H Hp.
  - rewrite Hp. reflexivity.
  - destruct (p x); [discriminate | auto].
Qed.

(** X17.  The manual lookup trims what was typed: a blank input only
    shows the toast that asks for a barcode, and a record added through
    the item form (on a slot that holds a collection in the exact range,
    and with inputs in that range)
    with a barcode no other record has is resolved as the exact match
    when that barcode is typed, with or without white space around
    it. *)
Theorem manualLookup_finds_saved_barcode st c form newId t1 t2 it text :
  Storage.supported st = true ->
  Storage.getAllItems st = VArr (embed c) ->
  Exact.items c = true ->
  Records.complete form = true ->
  Str.isEmpty (UI.itemId form) = true ->
  Records.created (Records.formFields form) newId t1 t2 = Some it ->
  Str.isEmpty (Str.trim (UI.itemBarcode form)) = false ->
  Str.trim text = Str.trim (UI.itemBarcode form) ->
  (forall x, In x c -> Item.barcode x <> Some (Str.trim text)) ->
  Forms.manualLookup (snd (Forms.saveItem st form newId t1 t2)) text
  = inr (App.ExactMatch (Item.toValue it)) /\
  (forall st' blank, Spec.blank blank = true ->
     Forms.manualLookup st' blank
     = inl (UI.showToast (VStr "Please enter a barcode") "warning")).
Proof.
  intros _ Hst Hex Hc Hid Hcr Hb Ht Hfresh. split.
  - rewrite (saveItem_complete st form newId t1 t2 Hc). rewrite Hid. cbv zeta.
    destruct (addItem_created st c _ newId t1 t2 it Hst Hcr) as (Ha & Hwf & Hi).
    rewrite Ha. cbn [fst snd].
    assert (Hrb : Storage.getAllItems (Storage.saveAllItems (VArr (embed (c ++ [it]))))
                  = VArr (embed (c ++ [it]))).
    { apply readback, forallb_snoc; [exact (stored_wf st c Hst) | exact Hwf]. }
    assert (Hbar : Item.barcode it = Some (Str.trim text)).
    { unfold Records.created in Hcr.
      cbn [Records.formFields fieldOf String.eqb Ascii.eqb Bool.eqb] in Hcr.
      rewrite barcodeOf_form, Hb in Hcr.
      destruct (Records.priceOf (PStr (UI.itemCostPrice form))); [|discriminate].
      destruct (Records.priceOf (PStr (UI.itemSellingPrice form))); [|discriminate].
      destruct (Records.quantityOf (PStr (UI.itemQuantity form))); [|discriminate].
      injection Hcr as <-. cbn [Item.barcode]. rewrite Ht. reflexivity. }
    unfold Forms.manualLookup. cbn [JS.truthy]. rewrite Ht, Hb. cbn [negb].
    unfold App.handleBarcodeDetected.
    rewrite (getItemByBarcode_embed _ _ _ Hrb).
    rewrite (find_snoc (Spec.hasBarcode (Str.trim (UI.itemBarcode form))) c it).
    + destruct it; reflexivity.
    + apply find_hasBarcode_none. rewrite <- Ht. exact Hfresh.
    + unfold Spec.hasBarcode. rewrite Hbar, Ht. apply String.eqb_refl.
  - intros st' blank H. unfold Forms.manualLookup, Spec.blank in *. cbn [JS.truthy].
    rewrite H. reflexivity.
Qed.

Lemma manualLookup_finds_saved_barcode_witness :
  Storage.supported Example.store = true /\
  Storage.getAllItems Example.store = VArr (embed [Example.widget; Example.gadget]) /\
  Exact.items [Example.widget; Example.gadget] = true /\
  Records.created
    (Records.formFields (UI.mkForm "" " 77 " "SN3" " Acme" "Nut" "1.50" "" "x"))
    "item_3" Example.now Example.now
  = Some (Item.mk "item_3" (Some "77") "SN3" "Acme" "Nut" (FFrac 15 1) (FInt 0) 0
            Example.now Example.now) /\
  Forms.manualLookup
    (snd (Forms.saveItem Example.store (UI.mkForm "" " 77 " "SN3" " Acme" "Nut" "1.50" "" "x")
            "item_3" Example.now Example.now))
    "77  "
  = inr (App.ExactMatch
           (Item.toValue (Item.mk "item_3" (Some "77") "SN3" "Acme" "Nut" (FFrac 15 1)
                            (FInt 0) 0 Example.now Example.now))).
Proof.
  assert (Hc : Records.complete (UI.mkForm "" " 77 " "SN3" " Acme" "Nut" "1.50" "" "x")
               = true) by (vm_compute; reflexivity).
  assert (Hcr : Records.created
                  (Records.formFields
                     (UI.mkForm "" " 77 " "SN3" " Acme" "Nut" "1.50" "" "x"))
                  "item_3" Example.now Example.now
                = Some (Item.mk "item_3" (Some "77") "SN3" "Acme" "Nut" (FFrac 15 1)
                          (FInt 0) 0 Example.now Example.now))
    by (vm_compute; reflexivity).
  assert (Hb : Str.isEmpty
                 (Str.trim (UI.itemBarcode
                              (UI.mkForm "" " 77 " "SN3" " Acme" "Nut" "1.50" "" "x")))
               = false) by (vm_compute; reflexivity).
  assert (Ht : Str.trim "77  "
               = Str.trim (UI.itemBarcode
                             (UI.mkForm "" " 77 " "SN3" " Acme" "Nut" "1.50" "" "x")))
    by (vm_compute; reflexivity).
  split; [exact store_supported|].
  split; [exact store_items|]. split; [exact store_exact|]. split; [exact Hcr|].
  refine (proj1 (manualLookup_finds_saved_barcode Example.store
                   [Example.widget; Example.gadget]
                   (UI.mkForm "" " 77 " "SN3" " Acme" "Nut" "1.50" "" "x")
                   "item_3" Example.now Example.now _ "77  " store_supported
                   store_items store_exact
                   Hc eq_refl Hcr Hb Ht _)).
  intros x [<-|[<-|[]]]; vm_compute; discriminate.
Defined.

(* ================================================================== *)
(** ** The storage module backed by a remote document *)
(* ================================================================== *)

Section GistProperties.

Variable World : Type.
Variable fetch : Gist.Request -> World -> result Gist.Response * World.

Lemma cacheFresh_true s l ts t0 :
  Gist.itemsCache s = VArr l -> Gist.cacheTimestamp s = Some ts ->
  ts <> 0 -> t0 - ts < Gist.CACHE_DURATION ->
  Gist.cacheFresh s false t0 = true.
Proof.
  intros Hc Ht Hts Hage. unfold Gist.cacheFresh. rewrite Hc, Ht. cbn [negb JS.truthy andb].
  destruct (Z.eqb_spec ts 0); [contradiction|].
  destruct (Z.ltb_spec (t0 - ts) Gist.CACHE_DURATION); [reflexivity | lia].
Qed.

(** X18.  While the cache is younger than 30 seconds, [getAllItems()]
    resolves to the cached items without a request: the state and the
    world stay as they are, whatever the network would answer. *)
Theorem gist_getAllItems_cached s w l ts t0 t1 :
  Gist.itemsCache s = VArr l -> Gist.cacheTimestamp s = Some ts ->
  ts <> 0 -> t0 - ts < Gist.CACHE_DURATION ->
  Gist.getAllItems World fetch s w false t0 t1 = (Ok l, s, w).
Proof.
  intros Hc Ht Hts Hage. unfold Gist.getAllItems.
  rewrite (cacheFresh_true s l ts t0 Hc Ht Hts Hage), Hc. reflexivity.
Qed.

Lemma saveAllItems_inv s w items t s' w' :
  Gist.saveAllItems World fetch s w items t = (Ok tt, s', w') ->
  s' = Gist.mkState (Gist.token s) (Gist.gistId s) (VArr items) (Some t).
Proof.
  unfold Gist.saveAllItems. destruct (Gist.present (Gist.gistId s)); [|discriminate].
  destruct (Gist.githubRequest World fetch s w _ _ _) as [[r|e] w1]; [|discriminate].
  intros H. injection H as <- _. reflexivity.
Qed.

(** X19.  After [saveAllItems(items)] has succeeded, [getAllItems()]
    resolves for the next 30 seconds to these items as they are in
    memory, without a request and whatever the gist holds by then. *)
Theorem gist_reads_own_writes s w items t s' w' :
  Gist.saveAllItems World fetch s w items t = (Ok tt, s', w') ->
  t <> 0 ->
  forall w'' t0 t1, t0 - t < Gist.CACHE_DURATION ->
    Gist.getAllItems World fetch s' w'' false t0 t1 = (Ok items, s', w'').
Proof.
  intros Hs Ht w'' t0 t1 Hage. apply saveAllItems_inv in Hs. subst s'.
  unfold Gist.getAllItems.
  rewrite (cacheFresh_true (Gist.mkState (Gist.token s) (Gist.gistId s) (VArr items) (Some t))
             items t t0 eq_refl eq_refl Ht Hage).
  reflexivity.
Qed.

Lemma isAuthenticated_present s :
  Gist.isAuthenticated s = true ->
  exists tk g, Gist.present (Gist.token s) = Some tk /\ Gist.present (Gist.gistId s) = Some g.
Proof.
  unfold Gist.isAuthenticated.
  destruct (Gist.present (Gist.token s)) as [tk|]; [|discriminate].
  destruct (Gist.present (Gist.gistId s)) as [g|]; [|discriminate]. eauto.
Qed.

Lemma githubRequest_offline s w e method endpoint body :
  (forall req, fetch req w = (Throw e, w)) ->
  Gist.isAuthenticated s = true ->
  Gist.githubRequest World fetch s w method endpoint body = (Throw e, w).
Proof.
  intros Hoff Ha. destruct (isAuthenticated_present s Ha) as (tk & g & Ht & _).
  unfold Gist.githubRequest. rewrite Ht, Hoff. reflexivity.
Qed.

Lemma getAllItems_offline s w e force t0 t1 :
  (forall req, fetch req w = (Throw e, w)) ->
  Gist.isAuthenticated s = true ->
  Gist.getAllItems World fetch s w force t0 t1
  = (if JS.truthy (Gist.itemsCache s) then Ops.spread (Gist.itemsCache s) else Throw e, s, w).
Proof.
  intros Hoff Ha. destruct (isAuthenticated_present s Ha) as (tk & g & _ & Hg).
  unfold Gist.getAllItems.
  destruct (Gist.cacheFresh s force t0) eqn:Ef.
  - unfold Gist.cacheFresh in Ef. apply andb_true_iff in Ef as [Ef _].
    apply andb_true_iff in Ef as [_ Ef]. rewrite Ef. reflexivity.
  - rewrite Hg, (githubRequest_offline s w e _ _ _ Hoff Ha).
    destruct (JS.truthy (Gist.itemsCache s)); reflexivity.
Qed.

(** X20.  While every request is rejected (the network is down), a
    logged-in session still reads: [getAllItems] resolves to the cached
    items however old they are, and is rejected only when nothing is
    cached; [saveAllItems] is rejected, and [removeStock] changes
    neither the cache nor anything else. *)
Theorem gist_offline s w e :
  (forall req, fetch req w = (Throw e, w)) ->
  Gist.isAuthenticated s = true ->
  (forall l force t0 t1,
     Gist.itemsCache s = VArr l ->
     Gist.getAllItems World fetch s w force t0 t1 = (Ok l, s, w)) /\
  (forall force t0 t1,
     Gist.itemsCache s = VNull ->
     Gist.getAllItems World fetch s w force t0 t1 = (Throw e, s, w)) /\
  (forall items t, Gist.saveAllItems World fetch s w items t = (Throw e, s, w)) /\
  (forall id quantity t1 t2 now,
     snd (fst (Gist.removeStock World fetch s w id quantity t1 t2 now)) = s /\
     snd (Gist.removeStock World fetch s w id quantity t1 t2 now) = w).
Proof.
  intros Hoff Ha.
  assert (Hsave : forall items t,
            Gist.saveAllItems World fetch s w items t = (Throw e, s, w)).
  { intros items t. destruct (isAuthenticated_present s Ha) as (tk & g & _ & Hg).
    unfold Gist.saveAllItems. rewrite Hg, (githubRequest_offline s w e _ _ _ Hoff Ha).
    reflexivity. }
  split; [|split; [|split; [exact Hsave|]]].
  - intros l force t0 t1 Hc. rewrite (getAllItems_offline s w e force t0 t1 Hoff Ha), Hc.
    reflexivity.
  - intros force t0 t1 Hc. rewrite (getAllItems_offline s w e force t0 t1 Hoff Ha), Hc.
    reflexivity.
  - intros id quantity t1 t2 now. unfold Gist.removeStock.
    rewrite (getAllItems_offline s w e true t1 t1 Hoff Ha).
    destruct (if JS.truthy (Gist.itemsCache s) then Ops.spread (Gist.itemsCache s)
              else Throw e) as [items|e']; [|split; reflexivity].
    destruct (Gist.removeStockBody items id quantity now) as [[res [items'|]]|e'];
      try (split; reflexivity).
    rewrite Hsave. split; reflexivity.
Qed.

Lemma getAllItems_logout s w force t0 t1 :
  Gist.getAllItems World fetch (Gist.logout s) w force t0 t1
  = (Throw (Error "Not authenticated"), Gist.logout s, w).
Proof.
  unfold Gist.getAllItems, Gist.cacheFresh, Gist.logout. cbn. rewrite andb_false_r. reflexivity.
Qed.

(** X21.  [authenticate] either fails, and then the session is logged
    out (token, gist identifier and cache are gone, also those of an
    earlier login) so that reads are rejected without a request; or it
    succeeds, and then the session holds the new token and the
    identifier of the gist as a string, and keeps its cache. *)
Theorem gist_authenticate_outcome s w newToken existingGistId r s' w' :
  Gist.authenticate World fetch s w newToken existingGistId = (r, s', w') ->
  (forall e, r = Throw e ->
     s' = Gist.logout s /\ Gist.isAuthenticated s' = false /\
     forall w'' force t0 t1,
       Gist.getAllItems World fetch s' w'' force t0 t1
       = (Throw (Error "Not authenticated"), s', w'')) /\
  (forall v, r = Ok v ->
     exists g text,
       v = VObj [("success", VBool true); ("gistId", g)] /\
       JS.toString g = Ok text /\
       s' = Gist.mkState (Some newToken) (Some text) (Gist.itemsCache s)
                         (Gist.cacheTimestamp s)).
Proof.
  unfold Gist.authenticate.
  destruct (match Gist.githubRequest World fetch _ w "GET" "/user" None with
            | (Throw e, w1) => (Throw e, w1)
            | (Ok _, w1) => _
            end) as [r0 w0].
  destruct r0 as [g|e0]; cbn [rbind].
  - destruct (JS.toString g) as [text|e1] eqn:Et; cbn [rbind]; intros H; injection H as <- <- <-.
    + split; [discriminate|]. intros v Hv. injection Hv as <-. eauto.
    + split; [|discriminate]. intros e _. split; [reflexivity|]. split; [reflexivity|].
      intros w'' force t0 t1. apply (getAllItems_logout s).
  - intros H; injection H as <- <- <-.
    split; [|discriminate]. intros e _. split; [reflexivity|]. split; [reflexivity|].
    intros w'' force t0 t1. apply (getAllItems_logout s).
Qed.

Lemma removeStockBody_embed c id quantity q now :
  Storage.parseIntOr0 quantity = Ok (Int q) ->
  Gist.removeStockBody (embed c) (VStr id) quantity now
  = Ok (Spec.render (fst (Spec.removeStock c id q now)),
        option_map embed (snd (Spec.removeStock c id q now))).
Proof.
  intros Hq. unfold Gist.removeStockBody, Spec.removeStock.
  rewrite findIndex_embed. cbn [rbind].
  destruct (Item.indexOf id c) as [n|] eqn:En; [|reflexivity].
  destruct (indexOf_nth _ _ _ En) as (it & Hn & _). rewrite Hn.
  rewrite (nth_embed _ _ _ Hn), Hq. cbn [rbind].
  rewrite leb_int. destruct (q <=? 0); [reflexivity|].
  change (JS.Get (Item.toValue it) "quantity") with (Ok (VNum (Int (Item.quantity it)))).
  cbn [rbind JS.toNumber]. rewrite ltb_int.
  destruct (Item.quantity it <? q); [reflexivity|].
  cbn [fst snd option_map Spec.render].
  rewrite <- setAt_embed. reflexivity.
Qed.

(** X22.  On the remote document [removeStock] is the same state
    machine: after the forced download of a collection of records in
    the exact range (a download that refreshed the cache, not an answer
    from the cache after a failure), and for a quantity argument in
    that range, it
    answers as the specification's machine does; an outcome other than
    success sends nothing; a success uploads the updated collection in
    one [PATCH] whose body is its pretty-printed text, and the cache
    then holds that collection; when the upload fails the call is
    rejected and the cache keeps what was downloaded. *)
Theorem gist_removeStock_state_machine s w c id quantity t1 t2 now s1 w1 :
  Gist.getAllItems World fetch s w true t1 t1 = (Ok (embed c), s1, w1) ->
  s1 <> s ->
  Exact.items c = true -> Exact.quantity quantity = true ->
  let q := parsedQuantity quantity in
  let o := fst (Spec.removeStock c id q now) in
  let call := Gist.removeStock World fetch s w (VStr id) (ofPrim quantity) t1 t2 now in
  (snd (Spec.removeStock c id q now) = None -> call = (Ok (Spec.render o), s1, w1)) /\
  (forall c' tk g response w2,
     snd (Spec.removeStock c id q now) = Some c' ->
     Gist.present (Gist.token s1) = Some tk -> Gist.present (Gist.gistId s1) = Some g ->
     fetch (Gist.mkRequest "PATCH" ("/gists/" +++ g) ("Bearer " +++ tk)
              (Gist.fileBody (VArr (embed c')))) w1 = (Ok response, w2) ->
     Gist.ok response = true ->
     call = (Ok (Spec.render o),
             Gist.mkState (Gist.token s1) (Gist.gistId s1) (VArr (embed c')) (Some t2), w2)) /\
  (forall c' e s2 w2,
     snd (Spec.removeStock c id q now) = Some c' ->
     Gist.saveAllItems World fetch s1 w1 (embed c') t2 = (Throw e, s2, w2) ->
     call = (Throw e, s1, w2)).
Proof.
  intros Hget _ _ _ q o call. subst call. unfold Gist.removeStock. rewrite Hget.
  rewrite (removeStockBody_embed c id (ofPrim quantity) q now (parseIntOr0_prim quantity)).
  fold o. split; [|split].
  - intros H. rewrite H. reflexivity.
  - intros c' tk g response w2 H Htk Hg Hf Hok. rewrite H. cbn [option_map].
    unfold Gist.saveAllItems, Gist.githubRequest. rewrite Hg, Htk, Hf, Hok. reflexivity.
  - intros c' e s2 w2 H Hs. rewrite H. cbn [option_map]. rewrite Hs.
    unfold Gist.saveAllItems in Hs. destruct (Gist.present (Gist.gistId s1)).
    + destruct (Gist.githubRequest World fetch s1 w1 _ _ _) as [[r|e'] w'];
        [discriminate|]. injection Hs as _ <- _. reflexivity.
    + injection Hs as _ <- _. reflexivity.
Qed.

(** X23.  After [importData] has succeeded, the payload was the text of
    an array and the number of its elements was returned; when the
    numbers of the array are in the exact range and its objects have no
    index keys, [exportData] gives for the next 30 seconds, without a
    request, a text that decodes to that array. *)
Theorem gist_import_then_export s w text t n s' w' :
  Gist.importData World fetch s w text t = (Ok n, s', w') ->
  t <> 0 ->
  exists items,
    JSON.parse text = Some (VArr items) /\ n = List.length items /\
    (Exact.val (VArr items) = true ->
     forall w'' t0 t1, t0 - t < Gist.CACHE_DURATION ->
       exists out,
         Gist.exportData World fetch s' w'' t0 t1 = (Ok (Some out), s', w'') /\
         JSON.parse out = Some (VArr items)).
Proof.
  intros Hi Ht. unfold Gist.importData in Hi.
  destruct (JSON.parse text) as [v|] eqn:Ep; [|discriminate].
  destruct v as [| | | | |items|]; try discriminate.
  destruct (Gist.saveAllItems World fetch s w items t) as [[[[]|e] s1] w1] eqn:Es;
    [|discriminate].
  injection Hi as <- <- <-. exists items. split; [reflexivity|]. split; [reflexivity|].
  intros _ w'' t0 t1 Hage. apply saveAllItems_inv in Es. subst s1.
  destruct (stringify_arr items 2) as (out & Eo). exists (String "[" out).
  unfold Gist.exportData, Gist.getAllItems.
  rewrite (cacheFresh_true (Gist.mkState (Gist.token s) (Gist.gistId s) (VArr items) (Some t))
             items t t0 eq_refl eq_refl Ht Hage).
  cbn [Gist.itemsCache Ops.spread]. rewrite Eo. split; [reflexivity|].
  pose proof (parse_isJSON text _ Ep) as Hj.
  rewrite (parse_stringify (VArr items) 2%nat _ (isJSON_wellFormed _ Hj) Eo).
  rewrite (isJSON_clone _ Hj). reflexivity.
Qed.

End GistProperties.

Lemma gist_getAllItems_cached_witness :
  2000 - 1000 < Gist.CACHE_DURATION /\
  Gist.getAllItems Server.World Server.fetch Server.cached Server.unreachable false 2000 2001
  = (Ok (embed [Example.widget; Example.gadget]), Server.cached, Server.unreachable).
Proof.
  assert (H : 2000 - 1000 < Gist.CACHE_DURATION) by (vm_compute; reflexivity).
  split; [exact H|].
  apply (gist_getAllItems_cached Server.World Server.fetch Server.cached Server.unreachable
           (embed [Example.widget; Example.gadget]) 1000 2000 2001 eq_refl eq_refl);
    [discriminate | exact H].
Defined.

Lemma gist_reads_own_writes_witness :
  Gist.saveAllItems Server.World Server.fetch Server.session Server.stocked
    (embed [Example.crate]) 5000
  = (Ok tt, Gist.mkState (Some "secret") (Some "g1") (VArr (embed [Example.crate])) (Some 5000),
     Server.mkWorld true (JSON.stringify (VArr (embed [Example.crate])) 2)) /\
  Gist.getAllItems Server.World Server.fetch
    (Gist.mkState (Some "secret") (Some "g1") (VArr (embed [Example.crate])) (Some 5000))
    Server.stocked false 6000 6001
  = (Ok (embed [Example.crate]),
     Gist.mkState (Some "secret") (Some "g1") (VArr (embed [Example.crate])) (Some 5000),
     Server.stocked).
Proof.
  assert (H : Gist.saveAllItems Server.World Server.fetch Server.session Server.stocked
                (embed [Example.crate]) 5000
              = (Ok tt,
                 Gist.mkState (Some "secret") (Some "g1") (VArr (embed [Example.crate]))
                              (Some 5000),
                 Server.mkWorld true (JSON.stringify (VArr (embed [Example.crate])) 2)))
    by (vm_compute; reflexivity).
  split; [exact H|].
  apply (gist_reads_own_writes Server.World Server.fetch _ _ _ _ _ _ H);
    [discriminate | vm_compute; reflexivity].
Defined.

Lemma gist_offline_witness :
  (forall req, Server.fetch req Server.unreachable = (Throw TypeError, Server.unreachable)) /\
  Gist.isAuthenticated Server.cached = true /\
  Gist.saveAllItems Server.World Server.fetch Server.cached Server.unreachable [] 2000
  = (Throw TypeError, Server.cached, Server.unreachable).
Proof.
  assert (H : forall req,
            Server.fetch req Server.unreachable = (Throw TypeError, Server.unreachable))
    by (intros req; reflexivity).
  split; [exact H|]. split; [reflexivity|].
  exact (proj1 (proj2 (proj2 (gist_offline Server.World Server.fetch Server.cached
                                Server.unreachable TypeError H eq_refl))) [] 2000).
Defined.

Lemma gist_authenticate_outcome_witness :
  Gist.authenticate Server.World Server.fetch Server.cached Server.stocked "wrong" (Some "g1")
  = (Throw (Error "Bad credentials"), Gist.logout Server.cached, Server.stocked) /\
  Gist.isAuthenticated (Gist.logout Server.cached) = false.
Proof.
  assert (H : Gist.authenticate Server.World Server.fetch Server.cached Server.stocked
                "wrong" (Some "g1")
              = (Throw (Error "Bad credentials"), Gist.logout Server.cached, Server.stocked))
    by (vm_compute; reflexivity).
  split; [exact H|].
  exact (proj1 (proj2 (proj1 (gist_authenticate_outcome Server.World Server.fetch _ _ _ _ _ _ _ H)
                         (Error "Bad credentials") eq_refl))).
Defined.

Lemma gist_removeStock_state_machine_witness :
  Gist.getAllItems Server.World Server.fetch Server.session Server.stocked true 1000 1000
  = (Ok (embed [Example.widget; Example.gadget]),
     Gist.mkState (Some "secret") (Some "g1")
                  (VArr (embed [Example.widget; Example.gadget])) (Some 1000),
     Server.stocked) /\
  Gist.mkState (Some "secret") (Some "g1")
               (VArr (embed [Example.widget; Example.gadget])) (Some 1000)
  <> Server.session /\
  Exact.items [Example.widget; Example.gadget] = true /\
  Exact.quantity (PNum (Int 100)) = true /\
  Gist.removeStock Server.World Server.fetch Server.session Server.stocked
    (VStr "item_1") (VNum (Int 100)) 1000 2000 Example.now
  = (Ok (VObj [("success", VBool false);
               ("error", VStr "Not enough stock. Available: 10")]),
     Gist.mkState (Some "secret") (Some "g1")
                  (VArr (embed [Example.widget; Example.gadget])) (Some 1000),
     Server.stocked).
Proof.
  assert (H : Gist.getAllItems Server.World Server.fetch Server.session Server.stocked
                true 1000 1000
              = (Ok (embed [Example.widget; Example.gadget]),
                 Gist.mkState (Some "secret") (Some "g1")
                              (VArr (embed [Example.widget; Example.gadget])) (Some 1000),
                 Server.stocked)) by (vm_compute; reflexivity).
  assert (Hx : Exact.quantity (PNum (Int 100)) = true) by (vm_compute; reflexivity).
  assert (Hs : Gist.mkState (Some "secret") (Some "g1")
                 (VArr (embed [Example.widget; Example.gadget])) (Some 1000)
               <> Server.session) by discriminate.
  split; [exact H|]. split; [exact Hs|]. split; [exact store_exact|]. split; [exact Hx|].
  refine (eq_trans
            (proj1 (gist_removeStock_state_machine Server.World Server.fetch _ _ _
                      "item_1" (PNum (Int 100)) 1000 2000 Example.now _ _ H Hs
                      store_exact Hx) _) _);
    vm_compute; reflexivity.
Defined.

Lemma gist_import_then_export_witness :
  Gist.importData Server.World Server.fetch Server.session Server.stocked Example.crateText 5000
  = (Ok 1%nat,
     Gist.mkState (Some "secret") (Some "g1") (VArr (embed [Example.crate])) (Some 5000),
     Server.mkWorld true (JSON.stringify (VArr (embed [Example.crate])) 2)) /\
  exists items,
    JSON.parse Example.crateText = Some (VArr items) /\ 1%nat = List.length items /\
    (Exact.val (VArr items) = true ->
     forall w'' t0 t1, t0 - 5000 < Gist.CACHE_DURATION ->
       exists out,
         Gist.exportData Server.World Server.fetch
           (Gist.mkState (Some "secret") (Some "g1") (VArr (embed [Example.crate]))
              (Some 5000))
           w'' t0 t1
         = (Ok (Some out),
            Gist.mkState (Some "secret") (Some "g1") (VArr (embed [Example.crate]))
              (Some 5000),
            w'') /\
         JSON.parse out = Some (VArr items)).
Proof.
  assert (H : Gist.importData Server.World Server.fetch Server.session Server.stocked
                Example.crateText 5000
              = (Ok 1%nat,
                 Gist.mkState (Some "secret") (Some "g1") (VArr (embed [Example.crate]))
                              (Some 5000),
                 Server.mkWorld true (JSON.stringify (VArr (embed [Example.crate])) 2)))
    by (vm_compute; reflexivity).
  split; [exact H|].
  apply (gist_import_then_export Server.World Server.fetch _ _ _ _ _ _ _ H). discriminate.
Defined.

(* ================================================================== *)
(** ** The scanners and their callback *)
(* ================================================================== *)

Section ScannerProperties.

Variable Callback : Type.

Lemma stop_quiet s : Scanner.quiet Callback s -> Scanner.quiet Callback (Scanner.stop Callback s).
Proof.
  intros [H|H]; unfold Scanner.stop; [rewrite H; right; reflexivity|].
  destruct (Scanner.isRunning Callback s); cbn [negb]; right; [reflexivity | exact H].
Qed.

Lemma handleDetection_quiet s text now :
  Scanner.quiet Callback s ->
  snd (Scanner.handleDetection Callback s text now) = None /\
  Scanner.quiet Callback (fst (Scanner.handleDetection Callback s text now)).
Proof.
  intros Hq. unfold Scanner.handleDetection.
  destruct (Str.isEmpty text); [split; [reflexivity | exact Hq]|].
  destruct (_ && _); [split; [reflexivity | exact Hq]|].
  cbn [fst snd]. unfold Scanner.stop. cbn [Scanner.isRunning].
  destruct Hq as [H|H]; [rewrite H; cbn; split; [reflexivity | right; reflexivity]|].
  destruct (Scanner.isRunning Callback s); cbn [negb Scanner.onDetectCallback];
    [split; [reflexivity | right; reflexivity]|].
  rewrite H. split; [reflexivity | right; reflexivity].
Qed.

Lemma calls_quiet events : forall s, Scanner.quiet Callback s -> Scanner.calls Callback s events = [].
Proof.
  induction events as [|[text now|] rest IH]; intros s Hq; [reflexivity| |].
  - cbn [Scanner.calls]. destruct (handleDetection_quiet s text now Hq) as [H1 H2].
    destruct (Scanner.handleDetection Callback s text now) as [s' call].
    cbn [fst snd] in H1, H2. subst call. apply IH. exact H2.
  - cbn [Scanner.calls]. apply IH, stop_quiet. exact Hq.
Qed.

(** X24.  Once the continuous scanner runs, no detection reaches the
    callback: a detection that is not empty and no repetition stops the
    scanner, and [stop] forgets the callback before the handler calls
    it; so over any sequence of detections and stops the callback is
    never called.  The handler calls it only while the scanner does not
    run (that is, while [start] is pending). *)
Theorem scanner_running_never_calls_back s :
  Scanner.isRunning Callback s = true ->
  (forall events, Scanner.calls Callback s events = []) /\
  (forall text now,
     Str.isEmpty text = false -> Scanner.lastDetectedCode Callback s <> Some text ->
     Scanner.handleDetection Callback s text now
     = (Scanner.mkState Callback false None None now, None)) /\
  (forall callback code time text now,
     Str.isEmpty text = false -> code <> Some text ->
     Scanner.handleDetection Callback
       (Scanner.mkState Callback false (Some callback) code time) text now
     = (Scanner.mkState Callback false (Some callback) (Some text) now,
        Some (callback, text))).
Proof.
  intros Hrun. split; [|split].
  - intros events. apply calls_quiet. left. exact Hrun.
  - intros text now Ht Hcode. unfold Scanner.handleDetection. rewrite Ht.
    destruct (Scanner.lastDetectedCode Callback s) as [code|] eqn:Ec.
    + destruct (String.eqb_spec text code) as [E|E]; [congruence|].
      cbn [andb]. unfold Scanner.stop. cbn. rewrite Hrun. reflexivity.
    + cbn [andb]. unfold Scanner.stop. cbn. rewrite Hrun. reflexivity.
  - intros callback code time text now Ht Hcode. unfold Scanner.handleDetection.
    cbn [Scanner.lastDetectedCode Scanner.isRunning Scanner.onDetectCallback
         Scanner.lastDetectionTime]. rewrite Ht.
    destruct code as [code|].
    + destruct (String.eqb_spec text code) as [E|E]; [congruence | reflexivity].
    + reflexivity.
Qed.

(** X25.  The snapshot scanner never calls the callback: a successful
    scan stops the camera, which forgets the callback, before the
    callback would be called.  The scan only resolves to the text, and
    the next capture is rejected until the camera is started again. *)
Theorem snapshot_scan_never_calls_back (s : SnapshotScanner.State Callback) decoded :
  snd (SnapshotScanner.captureAndScan Callback s decoded) = None /\
  (forall text,
     decoded = Some text ->
     SnapshotScanner.isCameraActive Callback s = true ->
     SnapshotScanner.videoElement Callback s = true ->
     SnapshotScanner.canvasElement Callback s = true ->
     SnapshotScanner.captureAndScan Callback s decoded
     = (Ok text, SnapshotScanner.stopCamera Callback s, None) /\
     forall decoded',
       SnapshotScanner.captureAndScan Callback (SnapshotScanner.stopCamera Callback s) decoded'
       = (Throw (Error "Camera is not active"), SnapshotScanner.stopCamera Callback s, None)).
Proof.
  split.
  - unfold SnapshotScanner.captureAndScan.
    destruct (_ || _); [reflexivity|]. destruct decoded; reflexivity.
  - intros text -> Ha Hv Hc. unfold SnapshotScanner.captureAndScan. rewrite Ha, Hv, Hc.
    split; reflexivity.
Qed.

End ScannerProperties.

Lemma scanner_running_never_calls_back_witness :
  Scanner.calls string
    (snd (Scanner.start string (Scanner.mkState string false None None 0)
            "handleBarcodeDetected" Scanner.Streaming))
    [Scanner.Detected "123" 1000; Scanner.Detected "456" 5000]
  = [].
Proof.
  exact (proj1 (scanner_running_never_calls_back string
                  (snd (Scanner.start string (Scanner.mkState string false None None 0)
                          "handleBarcodeDetected" Scanner.Streaming))
                  eq_refl)
           [Scanner.Detected "123" 1000; Scanner.Detected "456" 5000]).
Defined.

Lemma snapshot_scan_never_calls_back_witness :
  SnapshotScanner.captureAndScan string
    (snd (SnapshotScanner.startCamera string (SnapshotScanner.mkState string false false false None)
            "handleBarcodeDetected" true true))
    (Some "123")
  = (Ok "123", SnapshotScanner.mkState string false true true None, None).
Proof.
  exact (proj1 (proj2 (snapshot_scan_never_calls_back string
                         (snd (SnapshotScanner.startCamera string
                                 (SnapshotScanner.mkState string false false false None)
                                 "handleBarcodeDetected" true true))
                         (Some "123"))
                  "123" eq_refl eq_refl eq_refl eq_refl)).
Defined.

(* ================================================================== *)
(** ** Collections with a malformed element *)
(* ================================================================== *)

Lemma Get_error v k e : JS.Get v k = Throw e -> e = TypeError.
Proof. destruct v; cbn; intros H; try discriminate; injection H as <-; reflexivity. Qed.

Lemma fieldIncludes_error item k term e :
  Storage.fieldIncludes item k term = Throw e -> e = TypeError.
Proof.
  unfold Storage.fieldIncludes. destruct (JS.Get item k) as [x|e'] eqn:E; cbn [rbind].
  - destruct x; cbn; intros H; try discriminate; injection H as <-; reflexivity.
  - intros H. injection H as <-. exact (Get_error _ _ _ E).
Qed.

Lemma matches_error term item e : Storage.matches term item = Throw e -> e = TypeError.
Proof.
  unfold Storage.matches.
  destruct (Storage.fieldIncludes item "description" term) as [[]|e1] eqn:E1; cbn [rbind];
    try discriminate; [|intros H; injection H as <-; exact (fieldIncludes_error _ _ _ _ E1)].
  destruct (Storage.fieldIncludes item "stockNumber" term) as [[]|e2] eqn:E2; cbn [rbind];
    try discriminate; [|intros H; injection H as <-; exact (fieldIncludes_error _ _ _ _ E2)].
  destruct (Storage.fieldIncludes item "supplier" term) as [[]|e3] eqn:E3; cbn [rbind];
    try discriminate; [|intros H; injection H as <-; exact (fieldIncludes_error _ _ _ _ E3)].
  destruct (JS.Get item "barcode") as [b|e4] eqn:E4; cbn [rbind];
    [|intros H; injection H as <-; exact (Get_error _ _ _ E4)].
  destruct (JS.truthy b); [apply fieldIncludes_error | discriminate].
Qed.

Lemma filter_throws (p : value -> result bool) x l :
  (forall y e, p y = Throw e -> e = TypeError) ->
  In x l -> p x = Throw TypeError -> Arr.filter p l = Throw TypeError.
Proof.
  intros Hp. induction l as [|y l IH]; intros Hin Hx; [contradiction|].
  cbn [Arr.filter]. destruct Hin as [->|Hin].
  - rewrite Hx. reflexivity.
  - destruct (p y) as [b|e] eqn:E; cbn [rbind].
    + rewrite (IH Hin Hx). reflexivity.
    + rewrite (Hp y e E). reflexivity.
Qed.

Lemma matches_no_description term x :
  (forall s, JS.Get x "description" <> Ok (VStr s)) ->
  Storage.matches term x = Throw TypeError.
Proof.
  intros H. unfold Storage.matches, Storage.fieldIncludes.
  destruct (JS.Get x "description") as [v|e] eqn:E; cbn [rbind].
  - destruct v; try reflexivity. contradiction (H s). reflexivity.
  - rewrite (Get_error _ _ _ E). reflexivity.
Qed.

(** X26.  [importData] takes any array, and the search reads the
    [description] of every element: when the collection has one element
    whose [description] is no string (a missing field, a number, a
    [null] element), every search with a query that is not blank is
    rejected with a [TypeError], and [handleBarcodeDetected] ends in
    its error branch unless it finds an exact barcode first. *)
Theorem searchItems_malformed_record st items x query :
  Storage.getAllItems st = VArr items ->
  In x items ->
  (forall s, JS.Get x "description" <> Ok (VStr s)) ->
  Spec.blank query = false ->
  Storage.searchItems st (VStr query) = (Throw TypeError, st) /\
  (fst (Storage.getItemByBarcode st (VStr query)) = Ok VNull ->
   App.handleBarcodeDetected st (VStr query) = App.LookupError).
Proof.
  intros Hst Hin Hx Hb.
  assert (Hs : Storage.searchItems st (VStr query) = (Throw TypeError, st)).
  { unfold Storage.searchItems. rewrite Hst. cbn [JS.truthy Arr.asArray rbind].
    unfold Spec.blank in Hb. rewrite Hb.
    destruct (Str.isEmpty query) eqn:Eq;
      [rewrite (isEmpty_trim_empty _ Eq) in Hb; discriminate|].
    cbn [negb].
    rewrite (filter_throws _ x items (matches_error _) Hin (matches_no_description _ x Hx)).
    reflexivity. }
  split; [exact Hs|].
  intros Hbar. unfold App.handleBarcodeDetected. rewrite Hbar, Hs. reflexivity.
Qed.

Lemma searchItems_malformed_record_witness :
  Storage.getAllItems (Some "[{}]") = VArr [VObj []] /\
  Storage.searchItems (Some "[{}]") (VStr "nut") = (Throw TypeError, Some "[{}]").
Proof.
  assert (H : Storage.getAllItems (Some "[{}]") = VArr [VObj []]) by (vm_compute; reflexivity).
  split; [exact H|].
  refine (proj1 (searchItems_malformed_record (Some "[{}]") [VObj []] (VObj []) "nut" H
                   (or_introl eq_refl) _ eq_refl)).
  intros s. discriminate.
Defined.

(* ================================================================== *)
(** ** Downloading the remote document *)
(* ================================================================== *)

Section GistDownload.

Variable World : Type.
Variable fetch : Gist.Request -> World -> result Gist.Response * World.

Lemma parse_nonempty text v : JSON.parse text = Some v -> Str.isEmpty text = false.
Proof. destruct text; [discriminate | reflexivity]. Qed.

Lemma getAllItems_download s w force t0 t1 tk g response w' :
  Gist.cacheFresh s force t0 = false ->
  Gist.present (Gist.token s) = Some tk -> Gist.present (Gist.gistId s) = Some g ->
  fetch (Gist.mkRequest "GET" ("/gists/" +++ g) ("Bearer " +++ tk) None) w = (Ok response, w') ->
  Gist.ok response = true ->
  Gist.getAllItems World fetch s w force t0 t1
  = match (do data <- Gist.json response; Gist.decodeItems data) with
    | Ok items =>
        match Ops.spread items with
        | Ok l => (Ok l, Gist.mkState (Gist.token s) (Gist.gistId s) items (Some t1), w')
        | Throw e =>
            (if JS.truthy items then Ops.spread items else Throw e,
             Gist.mkState (Gist.token s) (Gist.gistId s) items (Some t1), w')
        end
    | Throw e =>
        (if JS.truthy (Gist.itemsCache s) then Ops.spread (Gist.itemsCache s) else Throw e,
         s, w')
    end.
Proof.
  intros Hf Htk Hg Hfetch Hok. unfold Gist.getAllItems, Gist.githubRequest.
  rewrite Hf, Hg, Htk, Hfetch, Hok.
  destruct (do data <- Gist.json response; Gist.decodeItems data) as [items|e].
  - cbn [Gist.itemsCache]. destruct (Ops.spread items) as [l|e']; [reflexivity|].
    destruct (JS.truthy items); reflexivity.
  - destruct (JS.truthy (Gist.itemsCache s)); reflexivity.
Qed.

(** X27.  When the cache is stale or the refresh is forced and the
    server answers the download with a document, [getAllItems] decodes
    the inventory file: the text of an array (with numbers in the exact
    range and no index keys) becomes the result and the cache, stamped
    with the time after the download; a gist without that file reads as
    the empty collection; and a file whose text is no JSON (its escapes
    within the modelled code units) is a [SyntaxError], which is
    rejected when nothing is cached and otherwise hidden behind the
    cached items. *)
Theorem gist_getAllItems_downloads s w force t0 t1 tk g response w' document files :
  Gist.cacheFresh s force t0 = false ->
  Gist.present (Gist.token s) = Some tk -> Gist.present (Gist.gistId s) = Some g ->
  fetch (Gist.mkRequest "GET" ("/gists/" +++ g) ("Bearer " +++ tk) None) w = (Ok response, w') ->
  Gist.ok response = true ->
  Gist.json response = Ok (VObj document) ->
  JS.lookup "files" document = Some (VObj files) ->
  (forall file text l,
     JS.lookup Gist.GIST_FILENAME files = Some (VObj file) ->
     JS.lookup "content" file = Some (VStr text) ->
     JSON.parse text = Some (VArr l) -> Exact.val (VArr l) = true ->
     Gist.getAllItems World fetch s w force t0 t1
     = (Ok l, Gist.mkState (Gist.token s) (Gist.gistId s) (VArr l) (Some t1), w')) /\
  (JS.lookup Gist.GIST_FILENAME files = None ->
   Gist.getAllItems World fetch s w force t0 t1
   = (Ok [], Gist.mkState (Gist.token s) (Gist.gistId s) (VArr []) (Some t1), w')) /\
  (forall file text,
     JS.lookup Gist.GIST_FILENAME files = Some (VObj file) ->
     JS.lookup "content" file = Some (VStr text) ->
     Str.isEmpty text = false -> JSON.parse text = None ->
     JSON.supported text = true ->
     (Gist.itemsCache s = VNull ->
      Gist.getAllItems World fetch s w force t0 t1 = (Throw SyntaxError, s, w')) /\
     (forall l, Gist.itemsCache s = VArr l ->
      Gist.getAllItems World fetch s w force t0 t1 = (Ok l, s, w'))).
Proof.
  intros Hf Htk Hg Hfetch Hok Hjson Hfiles.
  rewrite (getAllItems_download s w force t0 t1 tk g response w' Hf Htk Hg Hfetch Hok).
  rewrite Hjson. cbn [rbind]. unfold Gist.decodeItems.
  cbn [JS.Get]. rewrite Hfiles. cbn [rbind JS.Get].
  split; [|split].
  - intros file text l Hfile Hc Hp _. rewrite Hfile. cbn [rbind JS.Get]. rewrite Hc.
    cbn [rbind JS.truthy JS.toString]. rewrite (parse_nonempty _ _ Hp), Hp. reflexivity.
  - intros Hfile. rewrite Hfile. reflexivity.
  - intros file text Hfile Hc Hne Hp _. rewrite Hfile. cbn [rbind JS.Get]. rewrite Hc.
    cbn [rbind JS.truthy JS.toString]. rewrite Hne, Hp. cbn [negb].
    split; [intros ->; reflexivity | intros l ->; reflexivity].
Qed.

End GistDownload.

Lemma gist_getAllItems_downloads_witness :
  JSON.parse Example.crateText = Some (VArr (embed [Example.crate])) /\
  Exact.val (VArr (embed [Example.crate])) = true /\
  Gist.getAllItems Server.World Server.fetch Server.session
    (Server.mkWorld true (Some Example.crateText)) false 1000 1001
  = (Ok (embed [Example.crate]),
     Gist.mkState (Some "secret") (Some "g1") (VArr (embed [Example.crate])) (Some 1001),
     Server.mkWorld true (Some Example.crateText)).
Proof.
  assert (Hp : JSON.parse Example.crateText = Some (VArr (embed [Example.crate])))
    by (vm_compute; reflexivity).
  assert (Hx : Exact.val (VArr (embed [Example.crate])) = true)
    by (vm_compute; reflexivity).
  split; [exact Hp|]. split; [exact Hx|].
  exact (proj1 (gist_getAllItems_downloads Server.World Server.fetch Server.session
                  (Server.mkWorld true (Some Example.crateText)) false 1000 1001
                  "secret" "g1" _ _ _ _ eq_refl eq_refl eq_refl eq_refl eq_refl
                  eq_refl eq_refl)
           _ Example.crateText _ eq_refl eq_refl Hp Hx).
Defined.

(* ================================================================== *)
(** ** Records without a quantity *)
(* ================================================================== *)

Lemma lookup_setProp_same k x ps : JS.lookup k (JS.setProp k x ps) = Some x.
Proof.
  induction ps as [|[k' y] ps IH]; cbn [JS.setProp JS.lookup].
  - rewrite String.eqb_refl. reflexivity.
  - destruct (String.eqb k' k) eqn:E; cbn [JS.lookup].
    + rewrite String.eqb_refl. reflexivity.
    + rewrite E. exact IH.
Qed.

Lemma lookup_setProp_other k k' x ps :
  String.eqb k' k = false -> JS.lookup k (JS.setProp k' x ps) = JS.lookup k ps.
Proof.
  intros Hk. induction ps as [|[k0 y] ps IH]; cbn [JS.setProp JS.lookup].
  - rewrite Hk. reflexivity.
  - destruct (String.eqb k0 k') eqn:E; cbn [JS.lookup].
    + apply String.eqb_eq in E. subst k0. rewrite Hk. reflexivity.
    + destruct (String.eqb k0 k); [reflexivity | exact IH].
Qed.

Lemma lookup_cloneMembers k x ps :
  JS.lookup k ps = Some x -> x <> VUndefined ->
  JS.lookup k (cloneMembers ps) = Some (clone x).
Proof.
  intros H Hx. induction ps as [|[k' y] ps IH]; [discriminate|].
  cbn [JS.lookup] in H. cbn [cloneMembers].
  destruct (String.eqb k' k) eqn:E.
  - injection H as ->. destruct x; try contradiction; cbn [JS.lookup]; rewrite E; reflexivity.
  - destruct y; cbn [JS.lookup]; rewrite ?E; exact (IH H).
Qed.

Lemma setProp_wellFormedMembers k x ps :
  wellFormed x = true -> wellFormedMembers ps = true ->
  wellFormedMembers (JS.setProp k x ps) = true.
Proof.
  intros Hx. induction ps as [|[k' y] ps IH]; cbn [JS.setProp wellFormedMembers]; intros H.
  - rewrite Hx. reflexivity.
  - apply andb_true_iff in H as [H1 H2].
    destruct (String.eqb k' k); cbn [wellFormedMembers].
    + rewrite Hx, H2. reflexivity.
    + rewrite H1, (IH H2). reflexivity.
Qed.

Lemma wellFormedAll_nth l : forall n x,
  wellFormedAll l = true -> nth_error l n = Some x -> wellFormed x = true.
Proof.
  induction l as [|y l IH]; intros [|n] x H E; cbn in *; try discriminate;
    apply andb_true_iff in H as [H1 H2]; [congruence | eauto].
Qed.

(** X28.  [removeStock] reads the stock with [item.quantity] as it is.
    For a record whose [quantity] is [null] every request of a positive
    quantity (an argument in the exact range) is refused with
    ["Not enough stock. Available: null"]; for a record that has no
    [quantity] at all the comparison with [undefined] is false, so the
    request succeeds, the stored quantity becomes [NaN], and the record
    reads back with quantity [null]. *)
Theorem removeStock_without_quantity st items i n props p now :
  Storage.getAllItems st = VArr items ->
  Arr.findIndex (Storage.hasId (VStr i)) items = Ok (Some n) ->
  nth_error items n = Some (VObj props) ->
  Exact.quantity p = true -> 0 < parsedQuantity p ->
  let id := VStr i in
  let quantity := ofPrim p in
  let q := parsedQuantity p in
  (JS.lookup "quantity" props = Some VNull ->
   Storage.removeStock st id quantity now
   = (Ok (VObj [("success", VBool false);
                ("error", VStr "Not enough stock. Available: null")]), st)) /\
  (JS.lookup "quantity" props = None ->
   exists updated items' record,
     fst (Storage.removeStock st id quantity now)
     = Ok (VObj [("success", VBool true); ("item", updated); ("removed", VNum (Int q))]) /\
     JS.Get updated "quantity" = Ok (VNum NaN) /\
     Storage.getAllItems (snd (Storage.removeStock st id quantity now)) = VArr items' /\
     nth_error items' n = Some record /\
     JS.Get record "quantity" = Ok VNull).
Proof.
  intros Hst Hfind Hn _ Hpos id quantity q.
  assert (Hq : Storage.parseIntOr0 quantity = Ok (Int q)) by apply parseIntOr0_prim.
  change (0 < q) in Hpos. subst id. clearbody quantity q.
  assert (Hnth : nth n items VUndefined = VObj props) by (apply nth_error_nth; exact Hn).
  assert (Hle : Num.leb (Int q) (Int 0) = false)
    by (rewrite leb_int; destruct (Z.leb_spec q 0); [lia | reflexivity]).
  unfold Storage.removeStock. rewrite Hst. cbn [Arr.asArray rbind].
  rewrite Hfind. cbn [rbind]. rewrite Hnth, Hq. cbn [rbind]. rewrite Hle.
  cbn [JS.Get]. split.
  - intros Hl. rewrite Hl. cbn [rbind JS.toNumber]. rewrite ltb_int.
    destruct (Z.ltb_spec 0 q); [reflexivity | lia].
  - intros Hl. rewrite Hl. cbn [rbind JS.toNumber Num.ltb Num.sub JS.ownProps fst snd].
    set (updated := VObj (JS.extend props [("quantity", VNum NaN); ("updatedAt", VStr now)])).
    assert (Hlook : JS.lookup "quantity"
                      (JS.extend props [("quantity", VNum NaN); ("updatedAt", VStr now)])
                    = Some (VNum NaN)).
    { unfold JS.extend. cbn [fold_left fst snd].
      rewrite lookup_setProp_other by reflexivity. apply lookup_setProp_same. }
    pose proof (getAllItems_isJSON st) as Hj. rewrite Hst in Hj.
    apply isJSON_wellFormed in Hj. rewrite wellFormed_arr in Hj.
    assert (Hwf : wellFormed updated = true).
    { pose proof (wellFormedAll_nth items n _ Hj Hn) as Hp. rewrite wellFormed_obj in Hp.
      apply andb_true_iff in Hp as [Hu Hm].
      subst updated. rewrite wellFormed_obj. unfold JS.extend. cbn [fold_left fst snd].
      apply andb_true_iff. split.
      - apply setProp_unique, setProp_unique. exact Hu.
      - apply setProp_wellFormedMembers; [reflexivity|].
        apply setProp_wellFormedMembers; [reflexivity | exact Hm]. }
    exists updated, (map clone (Arr.setAt n updated items)), (clone updated).
    split; [reflexivity|].
    split; [unfold updated; cbn [JS.Get]; rewrite Hlook; reflexivity|].
    split.
    { rewrite getAllItems_saveAllItems by (apply wellFormedAll_setAt; assumption).
      apply clone_arr. }
    split.
    { apply map_nth_error. exact (nth_error_setAt items n updated _ Hn). }
    subst updated. rewrite clone_obj. cbn [JS.Get].
    rewrite (lookup_cloneMembers _ _ _ Hlook) by discriminate. reflexivity.
Qed.

Lemma removeStock_without_quantity_witness :
  Storage.getAllItems (Some (Example.json "[{'id':'a'}]")) = VArr [VObj [("id", VStr "a")]] /\
  Exact.quantity (PNum (Int 2)) = true /\
  exists updated items' record,
    fst (Storage.removeStock (Some (Example.json "[{'id':'a'}]")) (VStr "a") (VNum (Int 2))
           Example.now)
    = Ok (VObj [("success", VBool true); ("item", updated); ("removed", VNum (Int 2))]) /\
    JS.Get updated "quantity" = Ok (VNum NaN) /\
    Storage.getAllItems
      (snd (Storage.removeStock (Some (Example.json "[{'id':'a'}]")) (VStr "a") (VNum (Int 2))
              Example.now))
    = VArr items' /\
    nth_error items' 0 = Some record /\
    JS.Get record "quantity" = Ok VNull.
Proof.
  assert (H : Storage.getAllItems (Some (Example.json "[{'id':'a'}]"))
              = VArr [VObj [("id", VStr "a")]]) by (vm_compute; reflexivity).
  assert (Hx : Exact.quantity (PNum (Int 2)) = true) by (vm_compute; reflexivity).
  assert (Hq : parsedQuantity (PNum (Int 2)) = 2) by (vm_compute; reflexivity).
  assert (Hp : 0 < parsedQuantity (PNum (Int 2))) by (rewrite Hq; reflexivity).
  split; [exact H|]. split; [exact Hx|].
  rewrite <- Hq.
  exact (proj2 (removeStock_without_quantity (Some (Example.json "[{'id':'a'}]"))
                  [VObj [("id", VStr "a")]] "a" 0%nat [("id", VStr "a")]
                  (PNum (Int 2)) Example.now H eq_refl eq_refl Hx Hp) eq_refl).
Defined.
